(** * tryton-analyzer: a shallow embedding of the analyzers and their registry

    The development follows [src/tryton_analyzer]: [tools.py] (the
    diagnostic catalog), [pool.py] (the pool proxies, the module index and
    the completion listing) and [analyzer.py] (the three walkers).

    Conventions.
    - Python [dict]s are [gmap]s (or association lists where the iteration
      order is observable), Python [set]s are [gset]s.
    - Line and column numbers are [Z], list subscripts follow Python
      (negative subscripts count from the end, anything else out of range
      raises [IndexError]).
    - A method that mutates the analyzer is a function in the monad [M]:
      it threads the analyzer state and may raise a Python exception.
    - libcst nodes are compared and hashed by identity; every node of the
      embedded syntax tree therefore carries a node identifier [nid].
    - A diagnostic keeps its class, its message data and its position; the
      file path, module, class and function names that the constructors
      copy from the analyzer are left out. *)

From Stdlib Require Import ZArith String Ascii List Bool DecimalString.
From stdpp Require Import gmap strings list fin_maps sorting.

Local Open Scope string_scope.
Local Open Scope Z_scope.
Local Open Scope list_scope.

(** ** Python strings and lists *)

Module Py.

(** [needle in hay] on [str]. *)
Fixpoint contains (needle hay : string) : bool :=
  String.prefix needle hay
  || match hay with
     | EmptyString => false
     | String _ rest => contains needle rest
     end.

(** [s.startswith(p)]. *)
Definition startswith (s p : string) : bool := String.prefix p s.

(** A [str] is held as its UTF-8 bytes: a character below 128 is one
    byte, the others are a leading byte (192 and above) followed by one to
    three continuation bytes (128 to 191).  Searching, [startswith] and
    splitting at a character below 128 are the same on the bytes as on the
    characters; the functions that count or classify characters go by
    whole characters. *)

(** [len(s)]: one for each byte that is not a continuation byte. *)
Fixpoint len (s : string) : Z :=
  match s with
  | EmptyString => 0
  | String c rest =>
      let n := nat_of_ascii c in
      (if (128 <=? n)%nat && (n <? 192)%nat then 0 else 1) + len rest
  end.

(** [str.isspace] on the characters below 128. *)
Definition isspace (c : ascii) : bool :=
  let n := nat_of_ascii c in
  ((9 <=? n)%nat && (n <=? 13)%nat)
  || ((28 <=? n)%nat && (n <=? 32)%nat).

(** [str.isspace] on the characters of two bytes: U+0085 and U+00A0. *)
Definition isspace2 (c d : ascii) : bool :=
  let c := nat_of_ascii c in
  let d := nat_of_ascii d in
  (c =? 194)%nat && ((d =? 133)%nat || (d =? 160)%nat).

(** [str.isspace] on the characters of three bytes: U+1680, U+2000 to
    U+200A, U+2028, U+2029, U+202F, U+205F and U+3000. *)
Definition isspace3 (c d e : ascii) : bool :=
  let c := nat_of_ascii c in
  let d := nat_of_ascii d in
  let e := nat_of_ascii e in
  ((c =? 225)%nat && (d =? 154)%nat && (e =? 128)%nat)
  || ((c =? 226)%nat && (d =? 128)%nat
      && (((128 <=? e)%nat && (e <=? 138)%nat)
          || (e =? 168)%nat || (e =? 169)%nat || (e =? 175)%nat))
  || ((c =? 226)%nat && (d =? 129)%nat && (e =? 159)%nat)
  || ((c =? 227)%nat && (d =? 128)%nat && (e =? 128)%nat).

(** [s.lstrip()]: the leading characters that [str.isspace] accepts are
    removed, whatever their width. *)
Fixpoint lstrip (s : string) : string :=
  match s with
  | EmptyString => EmptyString
  | String c rest =>
      if isspace c then lstrip rest
      else
        match rest with
        | EmptyString => s
        | String d rest2 =>
            if isspace2 c d then lstrip rest2
            else
              match rest2 with
              | EmptyString => s
              | String e rest3 => if isspace3 c d e then lstrip rest3 else s
              end
        end
  end.

(** [s.rstrip()], on the bytes in reverse order. *)
Fixpoint rstrip_rev (s : string) : string :=
  match s with
  | EmptyString => EmptyString
  | String e rest =>
      if isspace e then rstrip_rev rest
      else
        match rest with
        | EmptyString => s
        | String d rest2 =>
            if isspace2 d e then rstrip_rev rest2
            else
              match rest2 with
              | EmptyString => s
              | String c rest3 => if isspace3 c d e then rstrip_rev rest3 else s
              end
        end
  end.

(** [s.rstrip()] and [s.strip()]. *)
Definition rstrip (s : string) : string := String.rev (rstrip_rev (String.rev s)).
Definition strip (s : string) : string := rstrip (lstrip s).

(** [s[n:]] for [n >= 0]. *)
Fixpoint drop (n : nat) (s : string) : string :=
  match n, s with
  | O, _ => s
  | S n', String _ rest => drop n' rest
  | S _, EmptyString => EmptyString
  end.

(** [s[:-1]]. *)
Fixpoint drop_last (s : string) : string :=
  match s with
  | EmptyString => EmptyString
  | String c EmptyString => EmptyString
  | String c rest => String c (drop_last rest)
  end.

(** [s[1:-1]], which the analyzers use to unquote a string literal. *)
Definition unquote (s : string) : string := drop_last (drop 1 s).

(** [s.split(sep)] for a one character separator: the pieces, never an
    empty list. *)
Fixpoint split_aux (sep : ascii) (cur : string) (s : string) : list string :=
  match s with
  | EmptyString => [String.rev cur]
  | String c rest =>
      if Ascii.eqb c sep then String.rev cur :: split_aux sep EmptyString rest
      else split_aux sep (String c cur) rest
  end.

Definition split (sep : ascii) (s : string) : list string :=
  split_aux sep EmptyString s.

(** [str(n)] for an [int]. *)
Definition str_of_Z (n : Z) : string :=
  NilZero.string_of_int (Z.to_int n).

(** [l[i]]: [None] stands for [IndexError]. *)
Definition getitem {A} (l : list A) (i : Z) : option A :=
  let len := Z.of_nat (length l) in
  if (0 <=? i) && (i <? len) then l !! Z.to_nat i
  else if (- len <=? i) && (i <? 0) then l !! Z.to_nat (len + i)
  else None.

(** [l[:-1]] and [l[-1]] on lists. *)
Definition init {A} (l : list A) : list A := removelast l.

End Py.

(** ** Exceptions and the analyzer monad *)

Inductive exn : Type :=
  | IndexError
  | KeyError
  | UnknownModelException          (* a subclass of KeyError, pool.py *)
  | NameError (variable : string)
  | SyntaxError
  | TypeError
  | OSError
  | CompletionTargetFoundError.

(** [except KeyError] catches [KeyError] and its subclasses. *)
Definition is_KeyError (e : exn) : bool :=
  match e with
  | KeyError | UnknownModelException => true
  | _ => false
  end.

Inductive outcome (A : Type) : Type :=
  | Return (a : A)
  | Raise (e : exn).
Arguments Return {A} a.
Arguments Raise {A} e.

Definition M (S A : Type) : Type := S -> outcome A * S.

Definition ret {S A} (a : A) : M S A := fun s => (Return a, s).
Definition raise {S A} (e : exn) : M S A := fun s => (Raise e, s).
Definition bind {S A B} (m : M S A) (k : A -> M S B) : M S B :=
  fun s =>
    match m s with
    | (Return a, s') => k a s'
    | (Raise e, s') => (Raise e, s')
    end.
Definition get {S} : M S S := fun s => (Return s, s).
Definition modify {S} (f : S -> S) : M S unit := fun s => (Return tt, f s).

(** [try: m except KeyError: h]. *)
Definition catch_KeyError {S A} (m : M S A) (h : M S A) : M S A :=
  fun s =>
    match m s with
    | (Raise e, s') => if is_KeyError e then h s' else (Raise e, s')
    | r => r
    end.

Declare Scope py_scope.
Delimit Scope py_scope with py.
Notation "x <- m ;; k" := (bind m (fun x => k))
  (at level 100, m at next level, right associativity) : py_scope.
Notation "m ;;; k" := (bind m (fun _ => k))
  (at level 100, right associativity) : py_scope.
Local Open Scope py_scope.

(** [for x in l: body x]. *)
Fixpoint for_each {S A} (l : list A) (body : A -> M S unit) : M S unit :=
  match l with
  | [] => ret tt
  | x :: rest => body x ;;; for_each rest body
  end.

Definition of_option {S A} (o : option A) (e : exn) : M S A :=
  match o with
  | Some a => ret a
  | None => raise e
  end.

(** ** tools.py: positions and the diagnostic catalog *)

Record CodePosition : Type := { line : Z; column : Z }.
Record CodeRange : Type := { start : CodePosition; end_ : CodePosition }.

Inductive DiagnosticSeverity : Type :=
  | Error | Warning | Information | Hint.

Inductive DiagnosticClass : Type :=
  | DebugDiagnostic (message : string)
  | MissingRegisterInInit
  | DuplicateName
  | ConflictingName
  | SuperInvocationWithParams
  | SuperInvocationMismatchedName (expected_name : string)
  | SuperWithoutParent
  | MissingSuperCall
  | UnknownPoolKey (possible_values : string)
  | UnknownModel (unknown_name : string)
  | UnknownAttribute (attr_name model_name : string)
  | ChangeVariableModel (previous_model new_model : string)
  | TrytonTagNotFound
  | TrytonXmlFileUnregistered
  | UnexpectedXMLTag (tag_name : string)
  | RecordMissingAttribute (attr_name : string)
  | RecordUnknownModel (model_name : string)
  | RecordUnknownField (model_name field_name : string)
  | RecordDuplicateId (fs_id other_line : string).

Definition err_code (c : DiagnosticClass) : string :=
  match c with
  | DebugDiagnostic _ => "----"
  | MissingRegisterInInit => "0001"
  | DuplicateName => "0002"
  | ConflictingName => "0003"
  | SuperInvocationWithParams => "1001"
  | SuperInvocationMismatchedName _ => "1002"
  | SuperWithoutParent => "1003"
  | MissingSuperCall => "1004"
  | UnknownPoolKey _ => "1005"
  | UnknownModel _ => "1006"
  | UnknownAttribute _ _ => "1007"
  | ChangeVariableModel _ _ => "1008"
  | TrytonTagNotFound => "5000"
  | TrytonXmlFileUnregistered => "5001"
  | UnexpectedXMLTag _ => "5002"
  | RecordMissingAttribute _ => "5003"
  | RecordUnknownModel _ => "5004"
  | RecordUnknownField _ _ => "5005"
  | RecordDuplicateId _ _ => "5006"
  end.

Definition severity (c : DiagnosticClass) : DiagnosticSeverity :=
  match c with
  | DebugDiagnostic _ => Information
  | MissingRegisterInInit => Warning
  | DuplicateName => Warning
  | ConflictingName => Error
  | SuperInvocationWithParams => Information
  | SuperInvocationMismatchedName _ => Error
  | SuperWithoutParent => Error
  | MissingSuperCall => Error
  | UnknownPoolKey _ => Error
  | UnknownModel _ => Error
  | UnknownAttribute _ _ => Error
  | ChangeVariableModel _ _ => Warning
  | TrytonTagNotFound => Error
  | TrytonXmlFileUnregistered => Warning
  | UnexpectedXMLTag _ => Error
  | RecordMissingAttribute _ => Error
  | RecordUnknownModel _ => Error
  | RecordUnknownField _ _ => Error
  | RecordDuplicateId _ _ => Error
  end.

Record Diagnostic : Type := {
  d_class : DiagnosticClass;
  _position : CodeRange
}.

(** The range that [TrytonTagNotFound] and [TrytonXmlFileUnregistered]
    build for themselves: the first line of the file. *)
Definition first_line_range : CodeRange :=
  {| start := {| line := 1; column := 0 |};
     end_ := {| line := 1; column := 99 |} |}.

(** How many diagnostics of a list carry the code [code]. *)
Definition count_code (code : string) (ds : list Diagnostic) : nat :=
  length (List.filter (fun d => String.eqb (err_code (d_class d)) code) ds).

(** ** analyzer.py: suppression markers and [add_diagnostic] *)

Definition marker (code : string) : string := "IGNORE-TRYTON-LS-" +:+ code.

Module Analyzer.

(** [Analyzer.ignored]: the marker is on the line of the diagnostic. *)
Definition ignored (raw_lines : list string) (code : string) (line_number : Z)
  : option bool :=
  l ← Py.getitem raw_lines (line_number - 1);
  Some (Py.contains (marker code) l).

(** The overriding [ignored] of [PythonAnalyzer] and [XMLAnalyzer], which
    differ in the comment opener only: [super().ignored(..) or
    (line_number > 1 and lines[line_number - 2].lstrip().startswith(opener)
    and marker in lines[line_number - 2])]. *)
Definition ignored_above (opener : string) (raw_lines : list string)
    (code : string) (line_number : Z) : option bool :=
  here ← ignored raw_lines code line_number;
  if (here : bool) then Some true
  else if negb (1 <? line_number) then Some false
  else
    above ← Py.getitem raw_lines (line_number - 2);
    Some (Py.startswith (Py.lstrip above) opener
          && Py.contains (marker code) above).

End Analyzer.

(** The three analyzers share [add_diagnostic] and differ in [ignored]. *)
Inductive analyzer_class : Type := PythonAnalyzerC | XMLAnalyzerC | ViewAnalyzerC.

Definition ignored (k : analyzer_class) : list string -> string -> Z -> option bool :=
  match k with
  | PythonAnalyzerC => Analyzer.ignored_above "#"
  | XMLAnalyzerC => Analyzer.ignored_above "<!--"
  | ViewAnalyzerC => Analyzer.ignored
  end.

(** [Analyzer.add_diagnostic] on the two attributes it uses.  The argument
    is [None] when [init_from_analyzer] returned [None]. *)
Definition add_diagnostic_to (k : analyzer_class) (raw_lines : list string)
    (diagnostic : option Diagnostic) (diagnostics : list Diagnostic)
  : outcome (list Diagnostic) :=
  match diagnostic with
  | None => Return diagnostics
  | Some d =>
      match ignored k raw_lines (err_code (d_class d)) (line (start (_position d))) with
      | None => Raise IndexError
      | Some true => Return diagnostics
      | Some false => Return (diagnostics ++ [d])
      end
  end.

(** ** pool.py: the pool proxies *)

Module Py_sort.

(** [list.sort(key=...)] and [sorted]: stable, by insertion. *)
Section by_key.
Context {A : Type} (key : A -> Z).

Fixpoint insert_by (x : A) (l : list A) : list A :=
  match l with
  | [] => [x]
  | y :: rest => if key x <=? key y then x :: l else y :: insert_by x rest
  end.

Fixpoint sort_by (l : list A) : list A :=
  match l with
  | [] => []
  | x :: rest => insert_by x (sort_by rest)
  end.
End by_key.

(** [sorted] on a list of [str]. *)
Fixpoint insert_str (x : string) (l : list string) : list string :=
  match l with
  | [] => [x]
  | y :: rest => if String.leb x y then x :: l else y :: insert_str x rest
  end.

Definition sorted (l : list string) : list string :=
  foldr insert_str [] l.

End Py_sort.

(** [Dependencies = tuple[str, ...]]; [PoolKind] is a [StrEnum] and the
    analyzers pass plain strings for it. *)
Abbreviation Dependencies := (list string).
Abbreviation PoolKind := string.

Definition MODEL : PoolKind := "model".
Definition WIZARD : PoolKind := "wizard".

(** One entry of [data["fields"]]: [{"string": .., "type": .., "relation": ..}],
    the last key being optional. *)
Record FieldInfo : Type := {
  f_string : string;
  f_type : string;
  f_relation : option string
}.

(** What the companion's [fetch_model] answers. [fields] and [states] are
    empty when the key is absent ([data.get("fields", {})]). *)
Record ModelData : Type := {
  attrs : gset string;
  data_fields : gmap string FieldInfo;
  data_states : gmap string string
}.

(** The three shapes of a super-information entry. *)
Inductive super_details : Type :=
  | NoDetails                                   (* None *)
  | NoCode                                      (* "no_code" *)
  | Defined (file_name : string) (first_line_no : Z).

Definition is_NoDetails (d : super_details) : bool :=
  match d with NoDetails => true | _ => false end.

(** One value of the completion listing. [ci_domain] and [ci_states] are
    empty when the key is absent or its value is falsy; [ci_selection]
    holds the first component of every selection pair, as the companion
    sends it: [Some s] for the [str] [s] and [None] for any other value
    ([None], an [int], ...); [ci_documentation] is [None] for a member
    without docstring. *)
Record CompletionInfo : Type := {
  ci_type : string;
  ci_class_name : string;
  ci_string : string;
  ci_function : bool;
  ci_selection : list (option string);
  ci_domain : string;
  ci_states : string;
  ci_documentation : option string
}.

(** The companion process, as the snapshot of its answers. *)
Record Companion : Type := {
  init_pool : Dependencies -> list string * list string;
  fetch_model : Dependencies -> string -> PoolKind -> ModelData;
  fetch_super_information :
    Dependencies -> PoolKind -> string -> string -> list (string * super_details);
  fetch_completions :
    Dependencies -> string -> PoolKind -> list (string * CompletionInfo)
}.

(** [PoolModel]. The pool it belongs to is kept as its key. *)
Record PoolModel : Type := {
  pm_pool : Dependencies;
  type : PoolKind;
  name : string;
  _dir : gset string;
  fields : gmap string FieldInfo;
  states : gmap string string
}.

(** Python compares [PoolModel]s by identity. [PoolManager.get_pool] keeps
    one [Pool] per key and [Pool.get] one [PoolModel] per referential and
    name.  The proxies of the referential of the models are of the kind
    [model]; a proxy of the other referential is of the kind it was first
    requested with, which is not [model] (see [pool_get_of_kind]).  So two
    proxies are the same object exactly when they agree on the pool, the
    kind and the name. *)
Definition same_model (a b : PoolModel) : bool :=
  bool_decide (pm_pool a = pm_pool b)
  && bool_decide (type a = type b)
  && bool_decide (name a = name b).

Definition has_attribute (m : PoolModel) (attr : string) : bool :=
  bool_decide (attr ∈ _dir m).

Record Pool : Type := {
  _key : Dependencies;
  models : list string;
  wizards : list string
}.

Definition supported_keys : list string := ["model"; "wizard"].

Inductive CompletionItemKind : Type := Field | Method.

Record CompletionItem : Type := {
  label : string;
  kind : CompletionItemKind;
  detail : option string;
  documentation : option string
}.

Section Registry.

Variable companion : Companion.

(** [PoolManager.get_pool]. *)
Definition get_pool (module_names : Dependencies) : Pool :=
  let key := Py_sort.sorted module_names in
  let result := init_pool companion key in
  {| _key := key; models := result.1; wizards := result.2 |}.

(** [Pool.get]: [inl] is the raised exception.  The proxy is the one that
    the referential holds when [kind] is the kind of the first request
    for it, as it is for every request with the kind [model]; the
    requests with another kind go through [pool_get_of_kind]. *)
Definition Pool_get (pool : Pool) (name : string) (kind : PoolKind)
  : exn + PoolModel :=
  let referential := if String.eqb kind MODEL then models pool else wizards pool in
  if bool_decide (name ∈ referential) then
    let data := fetch_model companion (_key pool) name kind in
    inr {| pm_pool := _key pool; type := kind; name := name;
           _dir := attrs data; fields := data_fields data;
           states := data_states data |}
  else inl UnknownModelException.

(** [PoolModel.get_super_information]. *)
Definition get_super_information (model : PoolModel) (function_name : string)
  : list (string * super_details) :=
  fetch_super_information companion (pm_pool model) (type model) (name model)
    function_name.

(** [PoolModel.get_completions]. *)
Definition get_completions (model : PoolModel) : list (string * CompletionInfo) :=
  fetch_completions companion (pm_pool model) (name model) (type model).

(** [", ".join(l)]. *)
Fixpoint join (sep : string) (l : list string) : string :=
  match l with
  | [] => ""
  | [x] => x
  | x :: rest => x +:+ sep +:+ join sep rest
  end.

Definition newline : string := String (ascii_of_nat 10) EmptyString.

(** The keys of a selection when they are all [str]. *)
Fixpoint str_keys (keys : list (option string)) : option (list string) :=
  match keys with
  | [] => Some []
  | Some key :: rest => cons key <$> str_keys rest
  | None :: _ => None
  end.

(** The documentation string built for a field entry.
    [", ".join(x[0] for x in info["selection"])] raises [TypeError] when a
    key of the selection is not a [str]. *)
Definition field_documentation (info : CompletionInfo) : exn + string :=
  let d := ci_string info in
  let d := if ci_function info then d +:+ " [Function]" else d in
  match
    match ci_selection info with
    | [] => inr d
    | sel =>
        match str_keys sel with
        | Some keys =>
            inr (d +:+ newline +:+ newline +:+ "Selection:" +:+ newline
                   +:+ newline +:+ join ", " keys)
        | None => inl TypeError
        end
    end
  with
  | inl e => inl e
  | inr d =>
      let d := if String.eqb (ci_domain info) "" then d
               else d +:+ newline +:+ newline +:+ "Domain:" +:+ newline
                      +:+ newline +:+ ci_domain info in
      inr (if String.eqb (ci_states info) "" then d
           else d +:+ newline +:+ newline +:+ "States: " +:+ newline +:+ newline
                  +:+ ci_states info)
  end.

(** The body of the loop of [generate_completions]: the item appended for
    one entry of the listing, if any. *)
Definition completion_item (key : string) (info : CompletionInfo)
  : exn + option CompletionItem :=
  if String.eqb (ci_type info) "field" then
    match field_documentation info with
    | inl e => inl e
    | inr d =>
        inr (Some {| label := key; kind := Field;
                     detail := Some (ci_class_name info);
                     documentation := Some d |})
    end
  else if String.eqb (ci_type info) "state" then
    inr (Some {| label := key; kind := Field;
                 detail := Some (ci_class_name info);
                 documentation := None |})
  else if String.eqb (ci_type info) "method" then
    inr (Some {| label := key; kind := Method;
                 detail := None;
                 documentation := ci_documentation info |})
  else inr None.

(** The loop of [generate_completions] over the listing, in its order. *)
Fixpoint completion_items (listing : list (string * CompletionInfo))
  : exn + list CompletionItem :=
  match listing with
  | [] => inr []
  | (key, info) :: rest =>
      match completion_item key info with
      | inl e => inl e
      | inr item =>
          match completion_items rest with
          | inl e => inl e
          | inr items => inr (option_list item ++ items)
          end
      end
  end.

Definition completion_sort_key (x : CompletionItem) : Z :=
  match kind x with Field => 0 | Method => 10 end.

(** [PoolModel.generate_completions]. *)
Definition generate_completions (model : PoolModel) : exn + list CompletionItem :=
  match completion_items (get_completions model) with
  | inl e => inl e
  | inr completions => inr (Py_sort.sort_by completion_sort_key completions)
  end.

End Registry.

(** ** The syntax tree (the part of libcst the analyzer inspects) *)

(** Every node has an identity and the range that [PositionProvider]
    reports for it. *)
Record Meta : Type := { nid : nat; range : CodeRange }.

(** [cst.Name]. *)
Record NameNode : Type := { n_meta : Meta; n_value : string }.

Inductive subscript_element (E : Type) : Type :=
  | Index (value : E)
  | Slice (lower upper step : option E).
Arguments Index {E} value.
Arguments Slice {E} lower upper step.

(** [cst.Arg]: [keyword] is [None] for a positional argument. *)
Inductive arg (E : Type) : Type :=
  | Arg (keyword : option NameNode) (value : E).
Arguments Arg {E} keyword value.

Inductive element (E : Type) : Type :=
  | Element (value : E)
  | StarredElement (value : E).
Arguments Element {E} value.
Arguments StarredElement {E} value.

#[local] Set Warnings "-register-all".

(** Expressions. [SimpleString] keeps the literal with its quotes; [Atom]
    is any leaf the analyzer never looks into (numbers, [...]);
    [Operation] is any other expression with its operands in visiting
    order (binary and boolean operations, comparisons, ...). *)
Inductive expr : Type :=
  | Name (n : NameNode)
  | SimpleString (m : Meta) (value : string)
  | Atom (m : Meta)
  | Attribute (m : Meta) (value : expr) (attr : NameNode)
  | Subscript (m : Meta) (value : expr) (slice : list (subscript_element expr))
  | Call (m : Meta) (func : expr) (args : list (arg expr))
  | Tuple (m : Meta) (elements : list (element expr))
  | List_ (m : Meta) (elements : list (element expr))
  | Lambda (m : Meta) (body : expr)
  | Operation (m : Meta) (operands : list expr).

Definition meta_of (e : expr) : Meta :=
  match e with
  | Name n => n_meta n
  | SimpleString m _ | Atom m | Attribute m _ _ | Subscript m _ _
  | Call m _ _ | Tuple m _ | List_ m _ | Lambda m _ | Operation m _ => m
  end.

(** Statements of a function body. [Other] is any statement without a
    handler of its own, with the expressions it holds. *)
Inductive stmt : Type :=
  | Expr (value : expr)
  | Assign (m : Meta) (targets : list expr) (value : expr)
  | AnnAssign (m : Meta) (target : expr) (annotation : expr) (value : option expr)
  | Other (exprs : list expr).

Record Param : Type := {
  p_name : NameNode;
  p_annotation : option expr;
  p_default : option expr
}.

(** [cst.FunctionDef]: [params] lists the parameters in visiting order. *)
Record FunctionDef : Type := {
  fn_meta : Meta;
  fn_name : NameNode;
  decorators : list expr;
  params : list Param;
  returns : option expr;
  body : list stmt
}.

Inductive class_item : Type :=
  | Method_ (f : FunctionDef)
  | Statement (s : stmt).

Record ClassDef : Type := {
  cls_meta : Meta;
  cls_name : NameNode;
  cls_bases : list expr;
  cls_body : list class_item
}.

Inductive module_item : Type :=
  | TopClass (c : ClassDef)
  | TopFunction (f : FunctionDef)
  | TopStatement (s : stmt).

(** ** pool.py: the module index *)

(** What [ast.parse] makes of [__init__.py], as far as
    [_get_modules_per_class] looks into it: the bodies of the functions
    named [register], in the order of [ast.walk], or a syntax error. *)
Inductive init_arg : Type :=
  | ClassRef (id attr : string)          (* module.Class *)
  | OtherArg.

Inductive init_keyword_value : Type :=
  | KwList (elts : list (option string)) (* [None]: not an ast.Constant *)
  | KwConstant (value : string)
  | KwOther.

Record init_keyword : Type := {
  kw_arg : option string;
  kw_value : init_keyword_value
}.

Inductive init_stmt : Type :=
  | PoolRegister (args : list init_arg) (keywords : list init_keyword)
  | OtherStmt.

Inductive ast_parse : Type :=
  | InitParsed (registers : list (list init_stmt))
  | InitSyntaxError.

(** A [<record>] of a data file, as [_extract_fs_ids_infos] sees it. *)
Record record_node : Type := {
  r_attrib : gmap string string;
  r_sourceline : Z
}.

Record data_node : Type := {
  data_depends : option string;
  data_records : list record_node
}.

(** What [etree.parse] makes of a data file: the [/tryton/data] nodes, or
    a syntax error. *)
Inductive xml_parse : Type :=
  | XmlParsed (data_nodes : list data_node)
  | XmlSyntaxError.

Record Module : Type := {
  mod_name : string;
  _modules_per_class : gmap (string * string) (PoolKind * Dependencies);
  _model_data : gmap string (Dependencies * record_node)
}.

Definition get_module_list_for_import (m : Module) (filename classname : string)
  : option (PoolKind * Dependencies) :=
  _modules_per_class m !! (filename, classname).

Section ModuleIndex.

Variable _name : string.

Definition class_refs (args : list init_arg) : list (string * string) :=
  omap (fun a => match a with
                 | ClassRef id attr => Some (id, attr)
                 | OtherArg => None
                 end) args.

(** The loop over the keywords of one [Pool.register] call: the module
    list and the local [type_] after it. *)
Fixpoint scan_keywords (keywords : list init_keyword)
    (modules : list string) (type_ : option string)
  : list string * option string :=
  match keywords with
  | [] => (modules, type_)
  | k :: rest =>
      match kw_arg k, kw_value k with
      | Some "depends", KwList elts =>
          scan_keywords rest (modules ++ omap (fun x => x) elts) type_
      | Some "type_", KwConstant v => scan_keywords rest modules (Some v)
      | _, _ => scan_keywords rest modules type_
      end
  end.

(** The loop over the body of one [register] function. [type_] is a
    local of [_get_modules_per_class]: it keeps its value from one call
    to the next and is unbound before the first [type_=] keyword. *)
Fixpoint scan_body (stmts : list init_stmt)
    (result : gmap (string * string) (PoolKind * Dependencies))
    (type_ : option string)
  : exn + gmap (string * string) (PoolKind * Dependencies) * option string :=
  match stmts with
  | [] => inr (result, type_)
  | OtherStmt :: rest => scan_body rest result type_
  | PoolRegister args keywords :: rest =>
      let cur_imports := class_refs args in
      let '(modules, type_) := scan_keywords keywords [_name] type_ in
      match cur_imports, type_ with
      | _ :: _, None => inl (NameError "type_")
      | _, _ =>
          let kind := default "" type_ in
          let entries :=
            map (fun fc => (fc, (kind, Py_sort.sorted modules))) cur_imports in
          scan_body rest (foldl (fun r e => <[e.1 := e.2]> r) result entries) type_
      end
  end.

Fixpoint scan_registers (registers : list (list init_stmt))
    (result : gmap (string * string) (PoolKind * Dependencies))
    (type_ : option string)
  : exn + gmap (string * string) (PoolKind * Dependencies) :=
  match registers with
  | [] => inr result
  | stmts :: rest =>
      match scan_body stmts result type_ with
      | inl e => inl e
      | inr (result, type_) => scan_registers rest result type_
      end
  end.

(** [Module._get_modules_per_class]: [ast.parse] is not guarded. *)
Definition _get_modules_per_class (init_py : ast_parse)
  : exn + gmap (string * string) (PoolKind * Dependencies) :=
  match init_py with
  | InitSyntaxError => inl SyntaxError
  | InitParsed registers => scan_registers registers ∅ None
  end.

(** [Module._extract_fs_ids_infos]: [etree.parse] is guarded. *)
Definition _extract_fs_ids_infos (xml : xml_parse)
  : gmap string (Dependencies * record_node) :=
  match xml with
  | XmlSyntaxError => ∅
  | XmlParsed data_nodes =>
      foldl (fun per_fs_ids d =>
               let extra :=
                 filter (fun x => x ≠ "")
                   (map Py.strip (Py.split "," (default "" (data_depends d)))) in
               let modules := Py_sort.sorted (_name :: extra) in
               foldl (fun per_fs_ids r =>
                        match r_attrib r !! "id" with
                        | None => per_fs_ids
                        | Some id => <[id := (modules, r)]> per_fs_ids
                        end) per_fs_ids (data_records d))
        ∅ data_nodes
  end.

(** [Module.__init__], after [_get_path]: [xml] lists what [etree.parse]
    makes of the data files of the module. *)
Definition Module_init (init_py : ast_parse) (xml : list xml_parse)
  : exn + Module :=
  match _get_modules_per_class init_py with
  | inl e => inl e
  | inr per_class =>
      inr {| mod_name := _name;
             _modules_per_class := per_class;
             _model_data :=
               foldl (fun data x => _extract_fs_ids_infos x ∪ data) ∅ xml |}
  end.

End ModuleIndex.

(** ** analyzer.py: [PythonAnalyzer] *)

Record TrytonMetadata : Type := {
  _pool : Pool;
  _model : option PoolModel;
  _model_name : string;
  _kind : option PoolKind;
  _class_name : string
}.

(** The keys of [_node_mappings]: a variable name or a node. *)
Abbreviation node_key := (string + nat)%type.

Record PyState : Type := {
  _diagnostics : list Diagnostic;
  _class_metadata : option TrytonMetadata;
  _cur_function : option NameNode;
  _function_pool_vars : gset string;
  _node_mappings : gmap node_key PoolModel;
  _node_list_mappings : gmap node_key PoolModel;
  (* PythonCompletioner *)
  _target_node : option nat;
  _target_model : option PoolModel;
  (* Pool.wizards of the pools: the kind each proxy was first built with *)
  _wizard_kinds : gmap (Dependencies * string) PoolKind
}.

Definition set_diagnostics (ds : list Diagnostic) (s : PyState) : PyState :=
  {| _diagnostics := ds; _class_metadata := _class_metadata s;
     _cur_function := _cur_function s;
     _function_pool_vars := _function_pool_vars s;
     _node_mappings := _node_mappings s;
     _node_list_mappings := _node_list_mappings s;
     _target_node := _target_node s; _target_model := _target_model s;
     _wizard_kinds := _wizard_kinds s |}.

Definition set_class_metadata (c : option TrytonMetadata) (s : PyState) : PyState :=
  {| _diagnostics := _diagnostics s; _class_metadata := c;
     _cur_function := _cur_function s;
     _function_pool_vars := _function_pool_vars s;
     _node_mappings := _node_mappings s;
     _node_list_mappings := _node_list_mappings s;
     _target_node := _target_node s; _target_model := _target_model s;
     _wizard_kinds := _wizard_kinds s |}.

Definition set_cur_function (f : option NameNode) (s : PyState) : PyState :=
  {| _diagnostics := _diagnostics s; _class_metadata := _class_metadata s;
     _cur_function := f;
     _function_pool_vars := _function_pool_vars s;
     _node_mappings := _node_mappings s;
     _node_list_mappings := _node_list_mappings s;
     _target_node := _target_node s; _target_model := _target_model s;
     _wizard_kinds := _wizard_kinds s |}.

Definition set_function_pool_vars (v : gset string) (s : PyState) : PyState :=
  {| _diagnostics := _diagnostics s; _class_metadata := _class_metadata s;
     _cur_function := _cur_function s;
     _function_pool_vars := v;
     _node_mappings := _node_mappings s;
     _node_list_mappings := _node_list_mappings s;
     _target_node := _target_node s; _target_model := _target_model s;
     _wizard_kinds := _wizard_kinds s |}.

Definition set_node_mappings (m : gmap node_key PoolModel) (s : PyState) : PyState :=
  {| _diagnostics := _diagnostics s; _class_metadata := _class_metadata s;
     _cur_function := _cur_function s;
     _function_pool_vars := _function_pool_vars s;
     _node_mappings := m;
     _node_list_mappings := _node_list_mappings s;
     _target_node := _target_node s; _target_model := _target_model s;
     _wizard_kinds := _wizard_kinds s |}.

Definition set_node_list_mappings (m : gmap node_key PoolModel) (s : PyState) : PyState :=
  {| _diagnostics := _diagnostics s; _class_metadata := _class_metadata s;
     _cur_function := _cur_function s;
     _function_pool_vars := _function_pool_vars s;
     _node_mappings := _node_mappings s;
     _node_list_mappings := m;
     _target_node := _target_node s; _target_model := _target_model s;
     _wizard_kinds := _wizard_kinds s |}.

Definition set_target_node (n : option nat) (s : PyState) : PyState :=
  {| _diagnostics := _diagnostics s; _class_metadata := _class_metadata s;
     _cur_function := _cur_function s;
     _function_pool_vars := _function_pool_vars s;
     _node_mappings := _node_mappings s;
     _node_list_mappings := _node_list_mappings s;
     _target_node := n; _target_model := _target_model s;
     _wizard_kinds := _wizard_kinds s |}.

Definition set_target_model (m : option PoolModel) (s : PyState) : PyState :=
  {| _diagnostics := _diagnostics s; _class_metadata := _class_metadata s;
     _cur_function := _cur_function s;
     _function_pool_vars := _function_pool_vars s;
     _node_mappings := _node_mappings s;
     _node_list_mappings := _node_list_mappings s;
     _target_node := _target_node s; _target_model := m;
     _wizard_kinds := _wizard_kinds s |}.

(** The analyzer as [PythonAnalyzer.__init__] leaves it. *)
Definition initial_state : PyState :=
  {| _diagnostics := []; _class_metadata := None; _cur_function := None;
     _function_pool_vars := ∅; _node_mappings := ∅; _node_list_mappings := ∅;
     _target_node := None; _target_model := None; _wizard_kinds := ∅ |}.

Definition set_wizard_kinds (k : gmap (Dependencies * string) PoolKind)
    (s : PyState) : PyState :=
  {| _diagnostics := _diagnostics s; _class_metadata := _class_metadata s;
     _cur_function := _cur_function s;
     _function_pool_vars := _function_pool_vars s;
     _node_mappings := _node_mappings s;
     _node_list_mappings := _node_list_mappings s;
     _target_node := _target_node s; _target_model := _target_model s;
     _wizard_kinds := k |}.

(** What [_check_super_call] learns about the parent definition at
    [(file, line)]: [get_parsed] raised (it opens the file and loads its
    module without a guard), the file is of no known kind or could not be
    parsed, [FunctionFinder] matched no function, or it matched one, given
    by the comments inside it. *)
Inductive parent_function : Type :=
  | ParentRaises (e : exn)
  | ParentUnparsed
  | ParentNotFound
  | ParentFound (comments : list string).

(** [tools.ignore_error_code] on the comments of a function. *)
Definition ignore_error_code (comments : list string) (ignore_code : string) : bool :=
  existsb (Py.contains (marker ignore_code)) comments.

(** What the analyzer is built from and never changes during a pass. *)
Record Env : Type := {
  _raw_lines : list string;
  _filename : string;
  _import_path : string;
  _module : option Module;
  _ranges : list CodeRange;
  find_parent : string -> Z -> parent_function;
  (* PythonCompletioner: [(_line, _column)] *)
  completion_at : option (Z * Z);
  (* the order in which the process iterates over the set
     [Pool.supported_keys]: as written, or the other way round *)
  keys_swapped : bool;
  (* the wizard proxies that earlier passes left in the pools of the
     manager, by the kind they were first requested with (never [model]:
     such a request goes to the referential of the models) *)
  cached_kinds : gmap (Dependencies * string) PoolKind
}.

Definition truthy (s : option string) : bool :=
  match s with
  | Some s => negb (String.eqb s "")
  | None => false
  end.

(** The two annotation shapes [visit_AnnAssign] and [_check_parameters]
    look for: [Record], [Records], [Record["x"]] and [Records["x"]].  The
    result is the annotation name and the model-name literal, if any. *)
Definition is_record_name (n : NameNode) : bool :=
  String.eqb (n_value n) "Record" || String.eqb (n_value n) "Records".

Definition match_annotation (annotation : expr)
  : option (string * option (Meta * string)) :=
  match annotation with
  | Name n => if is_record_name n then Some (n_value n, None) else None
  | Subscript _ (Name n) [Index (SimpleString m s)] =>
      if is_record_name n then Some (n_value n, Some (m, s)) else None
  | _ => None
  end.

(** The shape [_handle_pool_get] looks for: [Pool().get("name"[, "kind"])]
    or [pool.get(...)] for a known pool variable. *)
Definition match_pool_get (pool_vars : gset string) (node : expr)
  : option ((Meta * string) * option (Meta * string)) :=
  match node with
  | Call _ (Attribute _ receiver attr) args =>
      let receiver_ok :=
        match receiver with
        | Call _ (Name f) _ => String.eqb (n_value f) "Pool"
        | Name v => bool_decide (n_value v ∈ pool_vars)
        | _ => false
        end in
      if receiver_ok && String.eqb (n_value attr) "get" then
        match args with
        | [Arg _ (SimpleString m1 s1)] => Some ((m1, s1), None)
        | [Arg _ (SimpleString m1 s1); Arg _ (SimpleString m2 s2)] =>
            Some ((m1, s1), Some (m2, s2))
        | _ => None
        end
      else None
  | _ => None
  end.

(** The targets [leave_Assign] handles: a tuple of names, or a name. *)
Inductive assign_target : Type :=
  | TargetMulti (names : list string)
  | TargetMono (name : string)
  | TargetOther.

Fixpoint element_names (l : list (element expr)) : option (list string) :=
  match l with
  | [] => Some []
  | Element (Name n) :: rest => cons (n_value n) <$> element_names rest
  | _ => None
  end.

Definition classify_target (t : expr) : assign_target :=
  match t with
  | Tuple _ (e :: rest) =>
      match element_names (e :: rest) with
      | Some names => TargetMulti names
      | None => TargetOther
      end
  | Name n => TargetMono (n_value n)
  | _ => TargetOther
  end.

(** The nodes below an expression, itself included, in the order in which
    [m.extractall] meets them (depth first, parents before children). *)
Fixpoint subexprs (e : expr) : list expr :=
  e ::
  match e with
  | Name _ | SimpleString _ _ | Atom _ => []
  | Attribute _ value _ => subexprs value
  | Subscript _ value slice =>
      subexprs value ++
      (fix go (l : list (subscript_element expr)) : list expr :=
         match l with
         | [] => []
         | Index v :: rest => subexprs v ++ go rest
         | Slice lower upper step :: rest =>
             from_option subexprs [] lower ++ from_option subexprs [] upper
             ++ from_option subexprs [] step ++ go rest
         end) slice
  | Call _ func args =>
      subexprs func ++
      (fix go (l : list (arg expr)) : list expr :=
         match l with
         | [] => []
         | Arg _ v :: rest => subexprs v ++ go rest
         end) args
  | Tuple _ elements | List_ _ elements =>
      (fix go (l : list (element expr)) : list expr :=
         match l with
         | [] => []
         | Element v :: rest | StarredElement v :: rest => subexprs v ++ go rest
         end) elements
  | Lambda _ body => subexprs body
  | Operation _ operands =>
      (fix go (l : list expr) : list expr :=
         match l with
         | [] => []
         | v :: rest => subexprs v ++ go rest
         end) operands
  end.

Definition stmt_exprs (s : stmt) : list expr :=
  match s with
  | Expr value => [value]
  | Assign _ targets value => targets ++ [value]
  | AnnAssign _ target annotation value => target :: annotation :: option_list value
  | Other exprs => exprs
  end.

(** The expressions of a function, in visiting order: decorators,
    parameters, return annotation, body. *)
Definition function_exprs (f : FunctionDef) : list expr :=
  decorators f
  ++ concat (map (fun p => option_list (p_annotation p) ++ option_list (p_default p))
               (params f))
  ++ option_list (returns f)
  ++ concat (map stmt_exprs (body f)).

(** One match of the pattern of [_check_super_call]:
    [super(...).name(...)]. *)
Record super_match : Type := {
  super_invocation : Meta;
  super_invocation_args : list (arg expr);
  super_name : NameNode
}.

Definition match_super_call (e : expr) : option super_match :=
  match e with
  | Call _ (Attribute _ (Call m (Name f) args) attr) _ =>
      if String.eqb (n_value f) "super"
      then Some {| super_invocation := m; super_invocation_args := args;
                   super_name := attr |}
      else None
  | _ => None
  end.

Definition extract_super_calls (f : FunctionDef) : list super_match :=
  omap match_super_call (concat (map subexprs (function_exprs f))).

(** The [__name__ = "..."] assignments below a class, for [_model_name]. *)
Definition match_name_assign (s : stmt) : option (Meta * string) :=
  match s with
  | Assign _ [Name n] (SimpleString m literal) =>
      if String.eqb (n_value n) "__name__" then Some (m, literal) else None
  | _ => None
  end.

Definition class_statements (c : ClassDef) : list stmt :=
  concat (map (fun i => match i with
                        | Method_ f => body f
                        | Statement s => [s]
                        end) (cls_body c)).

Section PythonAnalyzer.

Variable companion : Companion.
Variable env : Env.

(** [Analyzer.add_diagnostic] with [PythonAnalyzer.ignored]. *)
Definition add_diagnostic (diagnostic : option Diagnostic) : M PyState unit :=
  fun s =>
    match add_diagnostic_to PythonAnalyzerC (_raw_lines env) diagnostic
            (_diagnostics s) with
    | Return ds => (Return tt, set_diagnostics ds s)
    | Raise e => (Raise e, s)
    end.

(** [X.init_from_analyzer(self, node, **data)]: the diagnostic of class
    [c] at the position of the node [m]. *)
Definition init_from_analyzer (c : DiagnosticClass) (m : Meta) : option Diagnostic :=
  Some {| d_class := c; _position := range m |}.

Definition PythonAnalyzer_get_pool : M PyState (option Pool) :=
  s <- get;;
  match _class_metadata s with
  | None =>
      match _module env with
      | Some md => ret (Some (get_pool companion [mod_name md]))
      | None => ret None
      end
  | Some metadata => ret (Some (_pool metadata))
  end.

Definition set_mapping (k : node_key) (model : PoolModel) : M PyState unit :=
  modify (fun s => set_node_mappings (<[k := model]> (_node_mappings s)) s).

Definition set_list_mapping (k : node_key) (model : PoolModel) : M PyState unit :=
  modify (fun s => set_node_list_mappings (<[k := model]> (_node_list_mappings s)) s).

(** [self._node_mappings.pop(name, None)] and the same on the list
    mappings. *)
Definition pop_both (name : string) : M PyState unit :=
  modify (fun s =>
    set_node_list_mappings (delete (inl name) (_node_list_mappings s))
      (set_node_mappings (delete (inl name) (_node_mappings s)) s)).

(** [Pool.get] with a kind that the source gives.  The referential of the
    models only holds proxies of the kind [model], so that [Pool_get]
    answers for it.  A proxy of the other referential is built once and
    keeps the kind of the request that built it, whatever the kind of a
    later request. *)
Definition pool_get_of_kind (pool : Pool) (name : string) (kind : PoolKind)
  : M PyState (exn + PoolModel) :=
  if String.eqb kind MODEL then ret (Pool_get companion pool name kind)
  else if bool_decide (name ∈ wizards pool) then
    s <- get;;
    first_kind <-
      match _wizard_kinds s !! (_key pool, name) with
      | Some first_kind => ret first_kind
      | None =>
          modify (set_wizard_kinds (<[(_key pool, name) := kind]> (_wizard_kinds s)));;;
          ret kind
      end;;
    let data := fetch_model companion (_key pool) name first_kind in
    ret (inr {| pm_pool := _key pool; type := first_kind; name := name;
                _dir := attrs data; fields := data_fields data;
                states := data_states data |})
  else ret (inl UnknownModelException).

(** [", ".join(pool.supported_keys)], in the order of the set. *)
Definition possible_values : string :=
  join ", " (if keys_swapped env then rev supported_keys else supported_keys).

Definition _handle_pool_get (node : expr) : M PyState (option PoolModel) :=
  pool <- PythonAnalyzer_get_pool;;
  match pool with
  | None => ret None
  | Some pool =>
      s <- get;;
      match match_pool_get (_function_pool_vars s) node with
      | None => ret None
      | Some ((name_meta, model_name), extracted_kind) =>
          kind <- match extracted_kind with
                  | None => ret "model"
                  | Some (kind_meta, kind_literal) =>
                      let kind := Py.unquote kind_literal in
                      (if bool_decide (kind ∈ supported_keys) then ret tt
                       else add_diagnostic
                              (init_from_analyzer
                                 (UnknownPoolKey possible_values)
                                 kind_meta));;;
                      ret kind
                  end;;
          found <- pool_get_of_kind pool (Py.unquote model_name) kind;;
          match found with
          | inr model =>
              set_mapping (inr (nid (meta_of node))) model;;;
              ret (Some model)
          | inl e =>
              if is_KeyError e then
                add_diagnostic
                  (init_from_analyzer (UnknownModel (Py.unquote model_name))
                     name_meta);;;
                ret None
              else raise e
          end
      end
  end.

Definition _get_type (node : expr) : M PyState (option PoolModel) :=
  s <- get;;
  let by_name :=
    match node with
    | Name n => _node_mappings s !! (inl (n_value n) : node_key)
    | _ => None
    end in
  match by_name with
  | Some model => ret (Some model)
  | None =>
      match _node_mappings s !! (inr (nid (meta_of node)) : node_key) with
      | Some model => ret (Some model)
      | None => _handle_pool_get node
      end
  end.

Definition _get_list_type (node : expr) : M PyState (option PoolModel) :=
  s <- get;;
  let by_name :=
    match node with
    | Name n => _node_list_mappings s !! (inl (n_value n) : node_key)
    | _ => None
    end in
  match by_name with
  | Some model => ret (Some model)
  | None => ret (_node_list_mappings s !! (inr (nid (meta_of node)) : node_key))
  end.

(** [self.get_pool().get(name)], uncaught. *)
Definition pool_get_or_raise (pool : Pool) (name : string) : M PyState PoolModel :=
  match Pool_get companion pool name MODEL with
  | inr model => ret model
  | inl e => raise e
  end.

Definition leave_Attribute (m : Meta) (value : expr) (attr_node : NameNode)
  : M PyState unit :=
  model <- _get_type value;;
  match model with
  | None => ret tt
  | Some model =>
      let attr := n_value attr_node in
      (if has_attribute model attr then ret tt
       else add_diagnostic
              (init_from_analyzer (UnknownAttribute attr (name model))
                 (n_meta attr_node)));;;
      pool <- PythonAnalyzer_get_pool;;
      match pool with
      | None => ret tt
      | Some pool =>
          if String.eqb (type model) "model" then
            match fields model !! attr with
            | None => ret tt
            | Some field =>
                match f_relation field with
                | None => ret tt
                | Some relation =>
                    target <- pool_get_or_raise pool relation;;
                    if String.eqb (f_type field) "many2one"
                    then set_mapping (inr (nid m)) target
                    else set_list_mapping (inr (nid m)) target
                end
            end
          else if String.eqb (type model) "wizard" then
            match states model !! attr with
            | None => ret tt
            | Some relation =>
                target <- pool_get_or_raise pool relation;;
                set_mapping (inr (nid m)) target
            end
          else ret tt
      end
  end.

(** The key saved as ["match"] by the pattern of [visit_Call]: the
    receiver node when it is mapped, else the receiver's name when it is
    a mapped variable. *)
Definition match_mapped_receiver (mappings : gmap node_key PoolModel) (func : expr)
  : option (node_key * string) :=
  match func with
  | Attribute _ receiver attr =>
      if bool_decide (is_Some (mappings !! (inr (nid (meta_of receiver)) : node_key)))
      then Some (inr (nid (meta_of receiver)), n_value attr)
      else
        match receiver with
        | Name v =>
            if bool_decide (is_Some (mappings !! (inl (n_value v) : node_key)))
            then Some (inl (n_value v), n_value attr)
            else None
        | _ => None
        end
  | _ => None
  end.

Definition visit_Call (m : Meta) (func : expr) : M PyState unit :=
  value_type <- _get_type func;;
  match value_type with
  | Some model => set_mapping (inr (nid m)) model
  | None =>
      s <- get;;
      match match_mapped_receiver (_node_mappings s) func with
      | Some (key, func_name) =>
          if String.eqb func_name "search" || String.eqb func_name "browse" then
            model <- of_option (_node_mappings s !! key) KeyError;;
            set_list_mapping (inr (nid m)) model
          else ret tt
      | None => ret tt
      end
  end.

Definition leave_Subscript (m : Meta) (value : expr)
    (slice : list (subscript_element expr)) : M PyState unit :=
  match slice with
  | [_] =>
      value_type <- _get_list_type value;;
      match value_type with
      | Some model => set_mapping (inr (nid m)) model
      | None => ret tt
      end
  | _ => ret tt
  end.

Definition _check_is_pool (targets : list expr) (value : expr) : M PyState bool :=
  match targets, value with
  | [Name var_name], Call _ (Name f) _ =>
      if String.eqb (n_value f) "Pool" then
        modify (fun s =>
          set_function_pool_vars ({[n_value var_name]} ∪ _function_pool_vars s) s);;;
        ret true
      else ret false
  | _, _ => ret false
  end.

Definition leave_Assign (targets : list expr) (value : expr) : M PyState unit :=
  is_pool <- _check_is_pool targets value;;
  if (is_pool : bool) then ret tt
  else
    first <- of_option (Py.getitem targets 0) IndexError;;
    match
      match classify_target first with
      | TargetMulti names => Some (None, names)
      | TargetMono name => Some (Some name, [])
      | TargetOther => None
      end
    with
    | None => ret tt
    | Some (mono, multi) =>
        let reset :=
          for_each (multi ++ (if truthy mono then option_list mono else []))
            pop_both in
        value_type <- _get_type value;;
        match value_type with
        | Some model =>
            (if truthy mono
             then for_each (option_list mono) (fun x => set_mapping (inl x) model)
             else ret tt);;;
            for_each multi pop_both
        | None =>
            value_type <- _get_list_type value;;
            match value_type with
            | Some model =>
                if truthy mono then
                  for_each (option_list mono)
                    (fun x => set_list_mapping (inl x) model)
                else
                  match multi with
                  | _ :: _ => for_each multi (fun x => set_mapping (inl x) model)
                  | [] => reset
                  end
            | None => reset
            end
        end
    end.

Definition visit_AnnAssign (m : Meta) (annotation : expr) : M PyState unit :=
  pool <- PythonAnalyzer_get_pool;;
  match pool with
  | None => ret tt
  | Some pool =>
      match match_annotation annotation with
      | None => ret tt
      | Some (annotation_name, model_name) =>
          s <- get;;
          model <-
            match model_name with
            | Some (name_meta, literal) =>
                match Pool_get companion pool (Py.unquote literal) MODEL with
                | inr model => ret (Some model)
                | inl e =>
                    if is_KeyError e then
                      add_diagnostic
                        (init_from_analyzer (UnknownModel (Py.unquote literal))
                           name_meta);;;
                      ret None
                    else raise e
                end
            | None =>
                match _class_metadata s with
                | Some metadata => ret (_model metadata)
                | None => ret None
                end
            end;;
          match model with
          | None => ret tt
          | Some model =>
              if String.eqb annotation_name "Record"
              then set_mapping (inr (nid m)) model
              else set_list_mapping (inr (nid m)) model
          end
      end
  end.

Definition get_type_opt (value : option expr) : M PyState (option PoolModel) :=
  match value with
  | Some v => _get_type v
  | None => ret None
  end.

Definition get_list_type_opt (value : option expr) : M PyState (option PoolModel) :=
  match value with
  | Some v => _get_list_type v
  | None => ret None
  end.

Definition leave_AnnAssign (m : Meta) (target : expr) (value : option expr)
  : M PyState unit :=
  match target with
  | Name target_name =>
      let target := n_value target_name in
      let node : node_key := inr (nid m) in
      value_type <- get_type_opt value;;
      s <- get;;
      (match value_type, _node_mappings s !! node with
       | Some new, Some previous =>
           if negb (same_model new previous) then
             add_diagnostic
               (init_from_analyzer
                  (ChangeVariableModel (name previous) (name new))
                  (n_meta target_name))
           else ret tt
       | _, _ => ret tt
       end);;;
      s <- get;;
      match value_type, _node_mappings s !! node with
      | Some new, _ => set_mapping (inl target) new
      | None, Some declared => set_mapping (inl target) declared
      | None, None =>
          value_type <- get_list_type_opt value;;
          s <- get;;
          (match value_type, _node_list_mappings s !! node with
           | Some new, Some previous =>
               if negb (same_model new previous) then
                 (* previous_model=self._node_mappings[node].name *)
                 wrong <- of_option (_node_mappings s !! node) KeyError;;
                 add_diagnostic
                   (init_from_analyzer
                      (ChangeVariableModel (name wrong) (name new))
                      (n_meta target_name))
               else ret tt
           | _, _ => ret tt
           end);;;
          s <- get;;
          match value_type, _node_list_mappings s !! node with
          | Some new, _ => set_list_mapping (inl target) new
          | None, Some declared => set_list_mapping (inl target) declared
          | None, None => pop_both target
          end
      end
  | _ => ret tt
  end.

(** The model an annotation stands for, shared by [visit_AnnAssign] and
    [_check_parameters]: the named model (or an [UnknownModel]
    diagnostic), else the model of the enclosing class. *)
Definition annotated_model (pool : Pool) (model_name : option (Meta * string))
  : M PyState (option PoolModel) :=
  match model_name with
  | Some (name_meta, literal) =>
      match Pool_get companion pool (Py.unquote literal) MODEL with
      | inr model => ret (Some model)
      | inl e =>
          if is_KeyError e then
            add_diagnostic
              (init_from_analyzer (UnknownModel (Py.unquote literal)) name_meta);;;
            ret None
          else raise e
      end
  | None =>
      s <- get;;
      match _class_metadata s with
      | Some metadata => ret (_model metadata)
      | None => ret None
      end
  end.

Definition _check_parameters (node : FunctionDef) : M PyState unit :=
  pool <- PythonAnalyzer_get_pool;;
  match pool with
  | None => ret tt
  | Some pool =>
      for_each (params node) (fun p =>
        match p_annotation p ≫= match_annotation with
        | None => ret tt
        | Some (annotation_name, model_name) =>
            model <- annotated_model pool model_name;;
            match model with
            | None => ret tt
            | Some model =>
                if String.eqb annotation_name "Record"
                then set_mapping (inl (n_value (p_name p))) model
                else set_list_mapping (inl (n_value (p_name p))) model
            end
        end)
  end.

(** *** [_check_depends] *)

(** The two locals of [_check_depends] that outlive the argument that
    binds them; [None] is an unbound local. *)
Record depends_locals : Type := {
  cur_model : option PoolModel;
  field_name : option string
}.

Definition is_depends_decorator (decorator : expr) : option (list (arg expr)) :=
  match decorator with
  | Call _ (Attribute _ (Name v) attr) args =>
      if String.eqb (n_value v) "fields" && String.eqb (n_value attr) "depends"
      then Some args else None
  | _ => None
  end.

Definition unknown_attribute (at_ : Meta) (model : PoolModel) (attr : string)
  : M PyState unit :=
  add_diagnostic (init_from_analyzer (UnknownAttribute attr (name model)) at_).

(** The loop over [field_names[:-1]]. The result tells whether the loop
    ran to its end (so that its [else] clause runs) and gives the locals
    at its exit. *)
Fixpoint depends_parents (pool : Pool) (at_ : Meta) (cur : PoolModel)
    (last_name : option string) (segments : list string)
  : M PyState (bool * PoolModel * option string) :=
  match segments with
  | [] => ret (true, cur, last_name)
  | segment :: rest =>
      if negb (Py.startswith segment "_parent_") then
        unknown_attribute at_ cur segment;;;
        ret (false, cur, Some segment)
      else
        let stripped := Py.drop 8 segment in
        match fields cur !! stripped with
        | None =>
            unknown_attribute at_ cur stripped;;;
            ret (false, cur, Some stripped)
        | Some field =>
            if negb (String.eqb (f_type field) "many2one") then
              unknown_attribute at_ cur stripped;;;
              ret (false, cur, Some stripped)
            else
              relation <- of_option (f_relation field) KeyError;;
              match Pool_get companion pool relation MODEL with
              | inr target => depends_parents pool at_ target (Some stripped) rest
              | inl e =>
                  if is_KeyError e then
                    add_diagnostic
                      (init_from_analyzer (UnknownModel relation) at_);;;
                    ret (false, cur, Some stripped)
                  else raise e
              end
        end
  end.

(** One plain string argument of the decorator. *)
Definition check_depends_entry (pool : Pool) (model : PoolModel)
    (at_ : Meta) (literal : string) (locals : depends_locals)
  : M PyState depends_locals :=
  let field_names := Py.split "." (Py.unquote literal) in
  r <- depends_parents pool at_ model (field_name locals) (Py.init field_names);;
  let '(completed, cur, last_name) := r in
  if (completed : bool) then
    final <- of_option (last field_names) IndexError;;
    (if bool_decide (is_Some (fields cur !! final)) then ret tt
     else unknown_attribute at_ cur final);;;
    ret {| cur_model := Some cur; field_name := Some final |}
  else ret {| cur_model := Some cur; field_name := last_name |}.

(** One argument of the decorator. *)
Definition check_depends_arg (pool : Pool) (model : PoolModel)
    (a : arg expr) (locals : depends_locals) : M PyState depends_locals :=
  match a with
  | Arg None (SimpleString m literal) =>
      check_depends_entry pool model m literal locals
  | Arg (Some keyword) (List_ m elements) =>
      if negb (String.eqb (n_value keyword) "methods") then
        cur <- of_option (cur_model locals) (NameError "cur_model");;
        attr <- of_option (field_name locals) (NameError "field_name");;
        unknown_attribute m cur attr;;;
        ret locals
      else
        for_each elements (fun method =>
          match method with
          | Element (SimpleString _ literal) =>
              let method_name := Py.unquote literal in
              if has_attribute model method_name then ret tt
              else unknown_attribute m model method_name
          | _ => ret tt
          end);;;
        ret locals
  | _ => ret locals
  end.

Fixpoint fold_args (pool : Pool) (model : PoolModel) (args : list (arg expr))
    (locals : depends_locals) : M PyState depends_locals :=
  match args with
  | [] => ret locals
  | a :: rest =>
      locals <- check_depends_arg pool model a locals;;
      fold_args pool model rest locals
  end.

Fixpoint fold_decorators (pool : Pool) (model : PoolModel) (ds : list expr)
    (locals : depends_locals) : M PyState depends_locals :=
  match ds with
  | [] => ret locals
  | d :: rest =>
      locals <- match is_depends_decorator d with
                | Some args => fold_args pool model args locals
                | None => ret locals
                end;;
      fold_decorators pool model rest locals
  end.

Definition _check_depends (node : FunctionDef) : M PyState unit :=
  s <- get;;
  match _class_metadata s with
  | None => ret tt
  | Some metadata =>
      match _model metadata with
      | None => ret tt
      | Some model =>
          fold_decorators (_pool metadata) model (decorators node)
            {| cur_model := None; field_name := None |};;;
          ret tt
      end
  end.

(** *** [_check_super_call] *)

Definition get_current_function_name : M PyState string :=
  s <- get;;
  ret (match _cur_function s with Some n => n_value n | None => "" end).

Definition get_current_class_name : M PyState string :=
  s <- get;;
  ret (match _class_metadata s with Some md => _class_name md | None => "" end).

(** [get_import_path]. *)
Definition get_import_path : M PyState string :=
  s <- get;;
  match _class_metadata s with
  | None => ret (_import_path env)
  | Some md => ret ("'" +:+ _import_path env +:+ "." +:+ _class_name md +:+ "'")
  end.

(** The loop over the super information.  The result is [found_super] at
    the exit of the loop, by exhaustion or by [break]. *)
Fixpoint check_chain (has_super : bool) (at_ : Meta)
    (chain : list (string * super_details)) (found_base found_super : bool)
  : M PyState bool :=
  match chain with
  | [] => ret found_super
  | (klass_str, details) :: rest =>
      path <- get_import_path;;
      if Py.contains path klass_str then
        check_chain has_super at_ rest true found_super
      else
        if found_base && negb has_super && negb (is_NoDetails details) then
          match details with
          | Defined parent_file_name first_line_no =>
              match find_parent env parent_file_name first_line_no with
              | ParentRaises e => raise e
              | ParentUnparsed => ret found_super
              | ParentNotFound => ret found_super
              | ParentFound comments =>
                  (if negb (ignore_error_code comments "1004") then
                     add_diagnostic (init_from_analyzer MissingSuperCall at_)
                   else ret tt);;;
                  ret found_super
              end
          | _ => ret found_super
          end
        else if found_base && has_super && negb found_super
                && negb (is_NoDetails details) then
          check_chain has_super at_ rest found_base true
        else check_chain has_super at_ rest found_base found_super
  end.

Definition _check_super_call (node : FunctionDef) : M PyState unit :=
  let super_call := extract_super_calls node in
  for_each super_call (fun cur_call =>
    (match super_invocation_args cur_call with
     | [] => ret tt
     | _ :: _ =>
         add_diagnostic
           (init_from_analyzer SuperInvocationWithParams (super_invocation cur_call))
     end);;;
    if negb (String.eqb (n_value (super_name cur_call)) (n_value (fn_name node)))
    then add_diagnostic
           (init_from_analyzer
              (SuperInvocationMismatchedName (n_value (fn_name node)))
              (n_meta (super_name cur_call)))
    else ret tt);;;
  s <- get;;
  match _class_metadata s with
  | None => ret tt
  | Some metadata =>
      match _model metadata with
      | None => ret tt
      | Some model =>
          let has_super := match super_call with [] => false | _ => true end in
          function_name <- get_current_function_name;;
          found_super <-
            check_chain has_super (n_meta (fn_name node))
              (get_super_information companion model function_name) false false;;
          if has_super && negb found_super then
            add_diagnostic
              (init_from_analyzer SuperWithoutParent (n_meta (fn_name node)))
          else ret tt
      end
  end.

Definition analyze_function (node : FunctionDef) : M PyState unit :=
  _check_parameters node;;;
  _check_super_call node;;;
  _check_depends node.

(** *** Scopes *)

Definition check_range (metadata r : CodeRange) : bool :=
  if line (end_ r) <? line (start metadata) then false
  else if (line (end_ r) =? line (start metadata))
          && (column (end_ r) <? column (start metadata)) then false
  else if line (end_ metadata) <? line (start r) then false
  else if (line (start r) =? line (end_ metadata))
          && (column (end_ metadata) <? column (start r)) then false
  else true.

(** [_must_analyze], of [PythonAnalyzer] or of [PythonCompletioner]. *)
Definition _must_analyze (m : Meta) : bool :=
  match completion_at env with
  | Some (l, _) => (line (start (range m)) <=? l) && (l <=? line (end_ (range m)))
  | None =>
      match _ranges env with
      | [] => true
      | rs => existsb (check_range (range m)) rs
      end
  end.

Definition clear_names : M PyState unit :=
  modify (fun s =>
    set_function_pool_vars ∅
      (set_node_mappings ∅ (set_node_list_mappings ∅ s))).

Definition visit_FunctionDef (node : FunctionDef) : M PyState bool :=
  if negb (_must_analyze (fn_meta node)) then ret false
  else
    modify (set_cur_function (Some (fn_name node)));;;
    clear_names;;;
    s <- get;;
    (match _class_metadata s ≫= _model with
     | Some model =>
         modify (set_node_mappings
                   (<[(inl "cls" : node_key) := model]>
                      (<[(inl "self" : node_key) := model]> ∅)))
     | None => ret tt
     end);;;
    analyze_function node;;;
    ret true.

Definition leave_FunctionDef : M PyState unit :=
  modify (set_cur_function None);;;
  clear_names.

(** [_model_name]: the first [__name__] literal of the class, after the
    diagnostics on the other ones. *)
Definition class_model_name (node : ClassDef) : M PyState (option (Meta * string)) :=
  match omap match_name_assign (class_statements node) with
  | [] => ret None
  | (m, literal) :: extra_matches =>
      for_each extra_matches (fun '(extra_meta, extra_literal) =>
        if String.eqb literal extra_literal
        then add_diagnostic (Some {| d_class := DuplicateName;
                                     _position := range extra_meta |})
        else add_diagnostic (Some {| d_class := ConflictingName;
                                     _position := range extra_meta |}));;;
      ret (Some (m, literal))
  end.

Definition visit_ClassDef (node : ClassDef) : M PyState bool :=
  if negb (_must_analyze (cls_meta node)) then ret false
  else
    model_node <- class_model_name node;;
    (match model_node, _module env with
     | Some (m, literal), Some module =>
         let model_name := Py.unquote literal in
         let class_name := n_value (cls_name node) in
         match get_module_list_for_import module (_filename env) class_name with
         | None =>
             modify (set_class_metadata (Some
               {| _pool := get_pool companion [mod_name module];
                  _model := None; _model_name := model_name;
                  _kind := None; _class_name := class_name |}));;;
             add_diagnostic (init_from_analyzer MissingRegisterInInit m)
         | Some (kind, module_list) =>
             let pool := get_pool companion module_list in
             found <- pool_get_of_kind pool model_name kind;;
             let model := match found with
                          | inr model => Some model
                          | inl _ => None
                          end in
             modify (set_class_metadata (Some
               {| _pool := pool; _model := model; _model_name := model_name;
                  _kind := Some kind; _class_name := class_name |}));;;
             match model with
             | None => add_diagnostic (init_from_analyzer (UnknownModel model_name) m)
             | Some _ => ret tt
             end
         end
     | None, Some module =>
         modify (set_class_metadata (Some
           {| _pool := get_pool companion [mod_name module];
              _model := None; _model_name := ""; _kind := None;
              _class_name := "" |}))
     | _, None => modify (set_class_metadata None)
     end);;;
    ret true.

Definition leave_ClassDef : M PyState unit :=
  modify (set_class_metadata None).

(** *** The walk *)

(** [PythonCompletioner.visit_Attribute]; nothing for [PythonAnalyzer]. *)
Definition visit_Attribute (m : Meta) : M PyState unit :=
  match completion_at env with
  | Some (l, c) =>
      let metadata := range m in
      if (line (start metadata) =? l) && (l =? line (end_ metadata))
         && (column (start metadata) <=? c) && (c <=? column (end_ metadata))
      then modify (set_target_node (Some (nid m)))
      else ret tt
  | None => ret tt
  end.

(** [leave_Attribute] as the walk calls it: [PythonCompletioner] extends
    the one of [PythonAnalyzer]. *)
Definition on_leave_Attribute (m : Meta) (value : expr) (attr : NameNode)
  : M PyState unit :=
  leave_Attribute m value attr;;;
  match completion_at env with
  | Some _ =>
      s <- get;;
      if bool_decide (_target_node s = Some (nid m)) then
        model <- _get_type value;;
        modify (set_target_model model);;;
        raise CompletionTargetFoundError
      else ret tt
  | None => ret tt
  end.

Definition walk_option {A} (walk : A -> M PyState unit) (o : option A)
  : M PyState unit :=
  match o with
  | Some a => walk a
  | None => ret tt
  end.

(** [node.visit(self)] on an expression. *)
Fixpoint walk_expr (e : expr) : M PyState unit :=
  match e with
  | Name _ | SimpleString _ _ | Atom _ => ret tt
  | Attribute m value attr =>
      visit_Attribute m;;;
      walk_expr value;;;
      on_leave_Attribute m value attr
  | Subscript m value slice =>
      walk_expr value;;;
      (fix go (l : list (subscript_element expr)) : M PyState unit :=
         match l with
         | [] => ret tt
         | Index v :: rest => walk_expr v;;; go rest
         | Slice lower upper step :: rest =>
             walk_option walk_expr lower;;;
             walk_option walk_expr upper;;;
             walk_option walk_expr step;;;
             go rest
         end) slice;;;
      leave_Subscript m value slice
  | Call m func args =>
      visit_Call m func;;;
      walk_expr func;;;
      (fix go (l : list (arg expr)) : M PyState unit :=
         match l with
         | [] => ret tt
         | Arg _ v :: rest => walk_expr v;;; go rest
         end) args
  | Tuple _ elements | List_ _ elements =>
      (fix go (l : list (element expr)) : M PyState unit :=
         match l with
         | [] => ret tt
         | Element v :: rest | StarredElement v :: rest => walk_expr v;;; go rest
         end) elements
  | Lambda _ _ => ret tt
  | Operation _ operands =>
      (fix go (l : list expr) : M PyState unit :=
         match l with
         | [] => ret tt
         | v :: rest => walk_expr v;;; go rest
         end) operands
  end.

Definition walk_stmt (s : stmt) : M PyState unit :=
  match s with
  | Expr value => walk_expr value
  | Assign _ targets value =>
      for_each targets walk_expr;;;
      walk_expr value;;;
      leave_Assign targets value
  | AnnAssign m target annotation value =>
      visit_AnnAssign m annotation;;;
      walk_expr target;;;
      walk_expr annotation;;;
      walk_option walk_expr value;;;
      leave_AnnAssign m target value
  | Other exprs => for_each exprs walk_expr
  end.

Definition walk_function (node : FunctionDef) : M PyState unit :=
  visit_children <- visit_FunctionDef node;;
  (if (visit_children : bool) then
     for_each (decorators node) walk_expr;;;
     for_each (params node) (fun p =>
       walk_option walk_expr (p_annotation p);;;
       walk_option walk_expr (p_default p));;;
     walk_option walk_expr (returns node);;;
     for_each (body node) walk_stmt
   else ret tt);;;
  leave_FunctionDef.

Definition walk_class (node : ClassDef) : M PyState unit :=
  visit_children <- visit_ClassDef node;;
  (if (visit_children : bool) then
     for_each (cls_bases node) walk_expr;;;
     for_each (cls_body node) (fun i =>
       match i with
       | Method_ f => walk_function f
       | Statement s => walk_stmt s
       end)
   else ret tt);;;
  leave_ClassDef.

Definition walk_module (items : list module_item) : M PyState unit :=
  for_each items (fun i =>
    match i with
    | TopClass c => walk_class c
    | TopFunction f => walk_function f
    | TopStatement s => walk_stmt s
    end).

(** [PythonAnalyzer.analyze]: the outcome of the walk and the analyzer
    it leaves. *)
Definition analyze (parsed : list module_item) : outcome unit * PyState :=
  walk_module parsed (set_wizard_kinds (cached_kinds env) initial_state).

(** [PoolManager.generate_diagnostics] on a Python file. *)
Definition generate_diagnostics (parsed : list module_item)
  : outcome (list Diagnostic) :=
  match analyze parsed with
  | (Return _, s) => Return (_diagnostics s)
  | (Raise e, _) => Raise e
  end.

(** [PoolManager._get_completions]: [env] is the one of a
    [PythonCompletioner]. *)
Definition _get_completions (parsed : list module_item)
  : outcome (list CompletionItem) :=
  match analyze parsed with
  | (Raise CompletionTargetFoundError, s) =>
      match _target_model s with
      | Some model =>
          match generate_completions companion model with
          | inr items => Return items
          | inl e => Raise e
          end
      | None => Return []
      end
  | (Raise e, _) => Raise e
  | (Return _, _) => Return []
  end.

End PythonAnalyzer.

(** ** analyzer.py: [XMLAnalyzer] *)

(** An [etree] element as the analyzer reads it. *)
Record Element_ : Type := {
  tag : string;
  attrib : gmap string string;
  text : option string;
  sourceline : Z
}.

(** The events of [etree.iterparse]. *)
Inductive action : Type := start_event | comment_event | end_event.

Record XmlState : Type := {
  x_diagnostics : list Diagnostic;
  _fs_ids : gmap string Z;
  _found_tryton_tag : bool;
  _tag_stack : list Element_;
  _current_pool : option Pool;
  _current_model : option PoolModel;
  _cur_prefix : Z
}.

Definition set_x_diagnostics (ds : list Diagnostic) (s : XmlState) : XmlState :=
  {| x_diagnostics := ds; _fs_ids := _fs_ids s;
     _found_tryton_tag := _found_tryton_tag s; _tag_stack := _tag_stack s;
     _current_pool := _current_pool s; _current_model := _current_model s;
     _cur_prefix := _cur_prefix s |}.

Definition set_fs_ids (ids : gmap string Z) (s : XmlState) : XmlState :=
  {| x_diagnostics := x_diagnostics s; _fs_ids := ids;
     _found_tryton_tag := _found_tryton_tag s; _tag_stack := _tag_stack s;
     _current_pool := _current_pool s; _current_model := _current_model s;
     _cur_prefix := _cur_prefix s |}.

Definition set_found_tryton_tag (b : bool) (s : XmlState) : XmlState :=
  {| x_diagnostics := x_diagnostics s; _fs_ids := _fs_ids s;
     _found_tryton_tag := b; _tag_stack := _tag_stack s;
     _current_pool := _current_pool s; _current_model := _current_model s;
     _cur_prefix := _cur_prefix s |}.

Definition set_tag_stack (st : list Element_) (s : XmlState) : XmlState :=
  {| x_diagnostics := x_diagnostics s; _fs_ids := _fs_ids s;
     _found_tryton_tag := _found_tryton_tag s; _tag_stack := st;
     _current_pool := _current_pool s; _current_model := _current_model s;
     _cur_prefix := _cur_prefix s |}.

Definition set_current_pool (p : option Pool) (s : XmlState) : XmlState :=
  {| x_diagnostics := x_diagnostics s; _fs_ids := _fs_ids s;
     _found_tryton_tag := _found_tryton_tag s; _tag_stack := _tag_stack s;
     _current_pool := p; _current_model := _current_model s;
     _cur_prefix := _cur_prefix s |}.

Definition set_current_model (m : option PoolModel) (s : XmlState) : XmlState :=
  {| x_diagnostics := x_diagnostics s; _fs_ids := _fs_ids s;
     _found_tryton_tag := _found_tryton_tag s; _tag_stack := _tag_stack s;
     _current_pool := _current_pool s; _current_model := m;
     _cur_prefix := _cur_prefix s |}.

Definition set_cur_prefix (p : Z) (s : XmlState) : XmlState :=
  {| x_diagnostics := x_diagnostics s; _fs_ids := _fs_ids s;
     _found_tryton_tag := _found_tryton_tag s; _tag_stack := _tag_stack s;
     _current_pool := _current_pool s; _current_model := _current_model s;
     _cur_prefix := p |}.

(** The analyzer as [XMLAnalyzer.__init__] leaves it. *)
Definition xml_initial_state : XmlState :=
  {| x_diagnostics := []; _fs_ids := ∅; _found_tryton_tag := false;
     _tag_stack := []; _current_pool := None; _current_model := None;
     _cur_prefix := 0 |}.

Record XmlEnv : Type := {
  x_raw_lines : list string;
  x_filename : string;
  x_module : option Module;
  (* the lines of the module's tryton.cfg *)
  tryton_cfg : list string
}.

Module XMLAnalyzer.
Section XMLAnalyzer.

Variable companion : Companion.
Variable env : XmlEnv.

(** [Analyzer.add_diagnostic] with [XMLAnalyzer.ignored]. *)
Definition add_diagnostic (diagnostic : option Diagnostic) : M XmlState unit :=
  fun s =>
    match add_diagnostic_to XMLAnalyzerC (x_raw_lines env) diagnostic
            (x_diagnostics s) with
    | Return ds => (Return tt, set_x_diagnostics ds s)
    | Raise e => (Raise e, s)
    end.

Definition get_node_position (cur_prefix : Z) (node : Element_) : CodeRange :=
  {| start := {| line := sourceline node; column := cur_prefix |};
     end_ := {| line := sourceline node; column := 99 |} |}.

(** [X.init_from_analyzer(self, node, **data)]. *)
Definition init_from_analyzer (c : DiagnosticClass) (node : Element_)
  : M XmlState (option Diagnostic) :=
  s <- get;;
  ret (Some {| d_class := c;
               _position := get_node_position (_cur_prefix s) node |}).

Definition report (c : DiagnosticClass) (node : Element_) : M XmlState unit :=
  d <- init_from_analyzer c node;;
  add_diagnostic d.

Definition _analyze_tryton_start (node : Element_) : M XmlState unit :=
  modify (set_found_tryton_tag true).

Definition _analyze_data_start (node : Element_) : M XmlState unit :=
  s <- get;;
  (if bool_decide (length (_tag_stack s) ≠ 2%nat)
   then report (UnexpectedXMLTag (tag node)) node
   else ret tt);;;
  match x_module env with
  | None => ret tt
  | Some module =>
      let modules :=
        mod_name module ::
        match attrib node !! "depends" with
        | Some depends => map Py.strip (Py.split "," depends)
        | None => []
        end in
      modify (set_current_pool (Some (get_pool companion modules)))
  end.

Definition _analyze_record_start (node : Element_) : M XmlState unit :=
  s <- get;;
  (if bool_decide (length (_tag_stack s) ≠ 3%nat)
   then report (UnexpectedXMLTag (tag node)) node
   else ret tt);;;
  (match attrib node !! "model" with
   | None => report (RecordMissingAttribute "model") node
   | Some _ => ret tt
   end);;;
  (match attrib node !! "id" with
   | None => report (RecordMissingAttribute "id") node
   | Some id =>
       s <- get;;
       match _fs_ids s !! id with
       | Some other_line =>
           report (RecordDuplicateId id (Py.str_of_Z other_line)) node
       | None =>
           modify (fun s => set_fs_ids (<[id := sourceline node]> (_fs_ids s)) s)
       end
   end);;;
  s <- get;;
  match _current_pool s, attrib node !! "model" with
  | Some pool, Some model_name =>
      if String.eqb model_name "" then ret tt
      else
        match Pool_get companion pool model_name MODEL with
        | inr model => modify (set_current_model (Some model))
        | inl e =>
            if is_KeyError e
            then report (RecordUnknownModel model_name) node
            else raise e
        end
  | _, _ => ret tt
  end.

Definition _analyze_field_start (node : Element_) : M XmlState unit :=
  s <- get;;
  (if bool_decide (length (_tag_stack s) ≠ 4%nat)
   then report (UnexpectedXMLTag (tag node)) node
   else ret tt);;;
  (match attrib node !! "name" with
   | None => report (RecordMissingAttribute "name") node
   | Some _ => ret tt
   end);;;
  s <- get;;
  match _current_model s, attrib node !! "name" with
  | Some model, Some field =>
      match fields model !! field with
      | None => report (RecordUnknownField (name model) field) node
      | Some _ =>
          match _current_pool s with
          | None => ret tt
          | Some pool =>
              if String.eqb (name model) "ir.ui.view" && String.eqb field "model"
              then
                (* [node.text] may be [None], which no pool knows and
                   which the message prints as [None] *)
                match text node ≫= (fun t =>
                        match Pool_get companion pool t MODEL with
                        | inr m => Some m
                        | inl _ => None
                        end) with
                | Some _ => ret tt
                | None =>
                    report (RecordUnknownModel (default "None" (text node))) node
                end
              else ret tt
          end
      end
  | _, _ => ret tt
  end.

Definition _analyze_record_end (node : Element_) : M XmlState unit :=
  modify (set_current_model None).

Definition _analyze_data_end (node : Element_) : M XmlState unit :=
  modify (set_current_pool None).

(** [getattr(self, f"_analyze_{element.tag}_start", None)]. *)
Definition start_handler (t : string) : option (Element_ -> M XmlState unit) :=
  if String.eqb t "tryton" then Some _analyze_tryton_start
  else if String.eqb t "data" then Some _analyze_data_start
  else if String.eqb t "record" then Some _analyze_record_start
  else if String.eqb t "field" then Some _analyze_field_start
  else None.

Definition end_handler (t : string) : option (Element_ -> M XmlState unit) :=
  if String.eqb t "record" then Some _analyze_record_end
  else if String.eqb t "data" then Some _analyze_data_end
  else None.

Definition newline_char : string := String (ascii_of_nat 10) EmptyString.

Definition analyze_node_start (element : Element_) : M XmlState unit :=
  modify (fun s => set_tag_stack (_tag_stack s ++ [element]) s);;;
  (match text element with
   | Some t =>
       if Py.startswith t newline_char
       then modify (set_cur_prefix (Py.len t - 1))
       else ret tt
   | None => ret tt
   end);;;
  match start_handler (tag element) with
  | None => ret tt
  | Some analyze_func => analyze_func element
  end.

Definition analyze_node_end (element : Element_) : M XmlState unit :=
  (match end_handler (tag element) with
   | Some analyze_func => analyze_func element
   | None => ret tt
   end);;;
  s <- get;;
  match _tag_stack s with
  | [] => raise IndexError
  | st => modify (set_tag_stack (removelast st))
  end.

Definition check_is_tryton_xml_file : bool :=
  existsb (fun l => String.eqb (x_filename env +:+ ".xml") (Py.strip l))
    (tryton_cfg env).

Definition on_event (ev : action * Element_) : M XmlState unit :=
  match ev.1 with
  | start_event => analyze_node_start ev.2
  | end_event => analyze_node_end ev.2
  | comment_event => ret tt
  end.

(** [XMLAnalyzer.analyze]. [_parsed] lists the events that [iterparse]
    yields before it stops, at the end of the file or at a syntax error
    (which [analyze] swallows). *)
Definition analyze (_parsed : list (action * Element_))
  : outcome (list Diagnostic) :=
  let is_tryton_xml := check_is_tryton_xml_file in
  match for_each _parsed on_event xml_initial_state with
  | (Raise e, _) => Raise e
  | (Return _, s) =>
      let ds := x_diagnostics s in
      let ds :=
        if is_tryton_xml && negb (_found_tryton_tag s)
        then ds ++ [{| d_class := TrytonTagNotFound;
                       _position := first_line_range |}]
        else ds in
      let ds :=
        if negb is_tryton_xml && _found_tryton_tag s
        then ds ++ [{| d_class := TrytonXmlFileUnregistered;
                       _position := first_line_range |}]
        else ds in
      Return ds
  end.

End XMLAnalyzer.
End XMLAnalyzer.

(** * Specification vocabulary *)

(** The text of line [L] of a file (lines count from one). *)
Definition line_text (raw_lines : list string) (L : Z) : option string :=
  if 1 <=? L then raw_lines !! Z.to_nat (L - 1) else None.

(** The marker for [code] occurs in the line [l]. *)
Definition has_marker (code : string) (l : string) : Prop :=
  ∃ pre post, l = pre +:+ marker code +:+ post.

(** The blank characters of Python ([str.isspace]), by code point: the
    controls 9 to 13 and 28 to 31, the space, U+0085, U+00A0, U+1680,
    U+2000 to U+200A, U+2028, U+2029, U+202F, U+205F and U+3000. *)
Definition blank_code_points : list N :=
  [9; 10; 11; 12; 13; 28; 29; 30; 31; 32; 133; 160; 5760;
   8192; 8193; 8194; 8195; 8196; 8197; 8198; 8199; 8200; 8201; 8202;
   8232; 8233; 8239; 8287; 12288]%N.

(** The UTF-8 bytes of a code point below 65536. *)
Definition utf8 (n : N) : string :=
  if (n <? 128)%N then String (ascii_of_N n) ""
  else if (n <? 2048)%N then
    String (ascii_of_N (192 + n / 64))
      (String (ascii_of_N (128 + n mod 64)) "")
  else
    String (ascii_of_N (224 + n / 4096))
      (String (ascii_of_N (128 + (n / 64) mod 64))
         (String (ascii_of_N (128 + n mod 64)) "")).

Definition is_blank (w : string) : Prop := w ∈ map utf8 blank_code_points.

(** [s] is made of blank characters only. *)
Definition all_space (s : string) : Prop :=
  ∃ ws, Forall is_blank ws ∧ s = foldr String.append "" ws.

(** [l] is a comment line: blanks, then the comment opener. *)
Definition is_comment_line (opener : string) (l : string) : Prop :=
  ∃ indent rest, all_space indent ∧ l = indent +:+ opener +:+ rest.

(** The marker for [code] is on line [L] or on a comment line right above
    it. *)
Definition suppressed_at (opener : string) (raw_lines : list string)
    (code : string) (L : Z) : Prop :=
  (∃ l, line_text raw_lines L = Some l ∧ has_marker code l)
  ∨ (∃ l, line_text raw_lines (L - 1) = Some l
          ∧ is_comment_line opener l ∧ has_marker code l).

(** The node [m] starts on a line of the file. *)
Definition in_file (raw_lines : list string) (L : Z) : Prop :=
  1 <= L <= Z.of_nat (length raw_lines).

(** [d] reports a duplicate of the identifier [X]. *)
Definition is_dup (X : string) (d : Diagnostic) : bool :=
  match d_class d with
  | RecordDuplicateId id _ => String.eqb id X
  | _ => false
  end.

(** The event opens a [<record>] with the identifier [X]. *)
Definition opens_record (X : string) (ev : action * Element_) : bool :=
  match ev.1 with
  | start_event =>
      String.eqb (tag ev.2) "record" && bool_decide (attrib ev.2 !! "id" = Some X)
  | _ => false
  end.

Definition opens_tryton (ev : action * Element_) : bool :=
  match ev.1 with
  | start_event => String.eqb (tag ev.2) "tryton"
  | _ => false
  end.

(** The events never close more elements than they opened, [depth] being
    the number of elements open before them. *)
Fixpoint well_nested (depth : nat) (events : list (action * Element_)) : Prop :=
  match events with
  | [] => True
  | (start_event, _) :: rest => well_nested (S depth) rest
  | (comment_event, _) :: rest => well_nested depth rest
  | (end_event, _) :: rest =>
      match depth with
      | O => False
      | S d => well_nested d rest
      end
  end.

(** Where the events leave the depth. *)
Fixpoint depth_after (depth : nat) (events : list (action * Element_)) : nat :=
  match events with
  | [] => depth
  | (start_event, _) :: rest => depth_after (S depth) rest
  | (comment_event, _) :: rest => depth_after depth rest
  | (end_event, _) :: rest => depth_after (pred depth) rest
  end.

Definition is_missing (d : Diagnostic) : bool :=
  match d_class d with
  | RecordMissingAttribute _ => true
  | _ => false
  end.

(** The [RecordMissingAttribute] due for a [<record>]: one for each of
    [model] and [id] that it lacks, at the position of the record. *)
Definition missing_attributes (node : Element_) (p : CodeRange) : list Diagnostic :=
  match attrib node !! "model" with
  | Some _ => []
  | None => [{| d_class := RecordMissingAttribute "model"; _position := p |}]
  end
  ++ match attrib node !! "id" with
     | Some _ => []
     | None => [{| d_class := RecordMissingAttribute "id"; _position := p |}]
     end.

(** The two wrapper diagnostics, which [XMLAnalyzer.analyze] decides from
    the manifest and from the events alone. *)
Definition wrapper_mismatch (registered found : bool) : list Diagnostic :=
  (if registered && negb found
   then [{| d_class := TrytonTagNotFound; _position := first_line_range |}]
   else [])
  ++ (if negb registered && found
      then [{| d_class := TrytonXmlFileUnregistered; _position := first_line_range |}]
      else []).

Definition is_field (i : CompletionItem) : bool :=
  match kind i with Field => true | Method => false end.

(** The completion listing only holds the three types of entries that the
    companion builds. *)
Definition known_type (info : CompletionInfo) : Prop :=
  ci_type info = "field" ∨ ci_type info = "state" ∨ ci_type info = "method".

(** The keys of the selection of a field entry are all [str]. *)
Definition str_selection (info : CompletionInfo) : Prop :=
  ci_type info = "field" → Forall is_Some (ci_selection info).

(** The completion walk stopped on the attribute access under the cursor
    and captured [model] there. *)
Definition captured (companion : Companion) (env : Env)
    (parsed : list module_item) (model : PoolModel) : Prop :=
  ∃ s, analyze companion env parsed = (Raise CompletionTargetFoundError, s)
       ∧ _target_model s = Some model.

(** A plain string argument of [fields.depends]: the only kind of
    argument that binds the locals [cur_model] and [field_name]. *)
Definition binds_locals (a : arg expr) : bool :=
  match a with
  | Arg None (SimpleString _ _) => true
  | _ => false
  end.

(** A list-valued keyword argument whose keyword is not [methods]. *)
Definition foreign_list_keyword (a : arg expr) : bool :=
  match a with
  | Arg (Some keyword) (List_ _ _) => negb (String.eqb (n_value keyword) "methods")
  | _ => false
  end.

(** The line on which the diagnostics about an argument are put. *)
Definition arg_line (a : arg expr) : Z :=
  match a with
  | Arg _ value => line (start (range (meta_of value)))
  end.

(** ** Dependency lists *)

(** [reaches companion pool model segments target]: every segment carries
    the prefix [_parent_] and names a to-one field of the model reached so
    far, whose target is known to the pool; [target] is the model reached
    at the end. *)
Inductive reaches (companion : Companion) (pool : Pool)
  : PoolModel → list string → PoolModel → Prop :=
  | reaches_nil cur : reaches companion pool cur [] cur
  | reaches_cons cur stripped field relation next rest target :
      fields cur !! stripped = Some field →
      f_type field = "many2one" →
      f_relation field = Some relation →
      Pool_get companion pool relation MODEL = inr next →
      reaches companion pool next rest target →
      reaches companion pool cur (("_parent_" +:+ stripped) :: rest) target.

(** The companion gives every to-one field its target. *)
Definition to_one_has_relation (model : PoolModel) : Prop :=
  ∀ f field, fields model !! f = Some field →
             f_type field = "many2one" → is_Some (f_relation field).

Definition well_formed_pool (companion : Companion) (pool : Pool) : Prop :=
  ∀ name model, Pool_get companion pool name MODEL = inr model →
                to_one_has_relation model.

Definition unknown_reference (c : DiagnosticClass) : Prop :=
  match c with
  | UnknownAttribute _ _ | UnknownModel _ => True
  | _ => False
  end.

(** ** Relation chains *)



(** ** Override chains *)

(** The entries of a chain beyond the current definition: those after the
    first entry of the class [path], the class itself left out. *)
Fixpoint beyond (path : string) (chain : list (string * super_details))
  : list (string * super_details) :=
  match chain with
  | [] => []
  | (klass_str, _) :: rest =>
      if Py.contains path klass_str
      then List.filter (fun e => negb (Py.contains path e.1)) rest
      else beyond path rest
  end.

(** The first entry beyond the current definition that defines the method
    at all (with a body or without), if there is one. *)
Definition next_definition (path : string) (chain : list (string * super_details))
  : option super_details :=
  head (List.filter (fun d => negb (is_NoDetails d)) (map snd (beyond path chain))).

(** ** Assignments *)

(** [value] is a call [Pool(...)]. *)
Definition pool_call (value : expr) : Prop :=
  ∃ m f args, value = Call m (Name f) args ∧ n_value f = "Pool".

(** ** Chain calls *)

(** [inner] is [outer] or a node below it. *)
Inductive inside (inner : expr) : expr → Prop :=
  | inside_here : inside inner inner
  | inside_attribute m value attr :
      inside inner value → inside inner (Attribute m value attr)
  | inside_subscript m value slice :
      inside inner value → inside inner (Subscript m value slice)
  | inside_index m value slice v :
      Index v ∈ slice → inside inner v → inside inner (Subscript m value slice)
  | inside_slice m value slice lower upper step v :
      Slice lower upper step ∈ slice →
      lower = Some v ∨ upper = Some v ∨ step = Some v →
      inside inner v → inside inner (Subscript m value slice)
  | inside_func m func args :
      inside inner func → inside inner (Call m func args)
  | inside_arg m func args keyword v :
      Arg keyword v ∈ args → inside inner v → inside inner (Call m func args)
  | inside_tuple m elements v :
      Element v ∈ elements ∨ StarredElement v ∈ elements →
      inside inner v → inside inner (Tuple m elements)
  | inside_list m elements v :
      Element v ∈ elements ∨ StarredElement v ∈ elements →
      inside inner v → inside inner (List_ m elements)
  | inside_lambda m body :
      inside inner body → inside inner (Lambda m body)
  | inside_operand m operands v :
      v ∈ operands → inside inner v → inside inner (Operation m operands).

(** [e] is a chain call [super(<args>).<attr>(...)], the node of
    [super(<args>)] being [invocation]. *)
Definition chain_call (e : expr) (invocation : Meta) (args : list (arg expr))
    (attr : NameNode) : Prop :=
  ∃ m m' f args',
    e = Call m (Attribute m' (Call invocation (Name f) args) attr) args'
    ∧ n_value f = "super".

(** [top] is one of the expressions of the statement. *)
Definition in_statement (top : expr) (st : stmt) : Prop :=
  match st with
  | Expr value => top = value
  | Assign _ targets value => top ∈ targets ∨ top = value
  | AnnAssign _ target annotation value =>
      top = target ∨ top = annotation ∨ value = Some top
  | Other exprs => top ∈ exprs
  end.

(** [top] is one of the expressions of the function: a decorator, the
    annotation or the default value of a parameter, the annotation of the
    result, or an expression of a statement of the body. *)
Definition in_function (top : expr) (f : FunctionDef) : Prop :=
  top ∈ decorators f
  ∨ (∃ p, p ∈ params f ∧ (p_annotation p = Some top ∨ p_default p = Some top))
  ∨ returns f = Some top
  ∨ (∃ st, st ∈ body f ∧ in_statement top st).

(** The occurrences of a chain call in the function. *)
Definition chain_call_in (f : FunctionDef) (invocation : Meta)
    (args : list (arg expr)) (attr : NameNode) : Prop :=
  ∃ top e, in_function top f ∧ inside e top ∧ chain_call e invocation args attr.

Definition has_chain_call (f : FunctionDef) : Prop :=
  ∃ invocation args attr, chain_call_in f invocation args attr.

(** The chain calls of the function start on lines of the file. *)
Definition chain_calls_in_file (raw_lines : list string) (f : FunctionDef) : Prop :=
  ∀ invocation args attr,
    chain_call_in f invocation args attr →
    in_file raw_lines (line (start (range invocation)))
    ∧ in_file raw_lines (line (start (range (n_meta attr)))).

(** The qualified, quoted name under which the class of [metadata] shows
    in a chain. *)
Definition class_path (env : Env) (metadata : TrytonMetadata) : string :=
  "'" +:+ _import_path env +:+ "." +:+ _class_name metadata +:+ "'".

Definition is_override_diagnostic (d : Diagnostic) : bool :=
  match d_class d with
  | SuperWithoutParent | MissingSuperCall => true
  | _ => false
  end.

(** * A sample module

    The models of the test module: [author] has the to-many field [books]
    to [book], [book] the to-one field [author] to [author]. *)
Module Sample.

Definition char_field (label : string) : FieldInfo :=
  {| f_string := label; f_type := "char"; f_relation := None |}.

Definition common_attrs : list string :=
  ["id"; "rec_name"; "create"; "search"; "browse"; "get_rec_name"].

Definition author_data : ModelData :=
  {| attrs := list_to_set (["name"; "books"; "test_function"] ++ common_attrs);
     data_fields :=
       list_to_map
         [("name", char_field "Author");
          ("books", {| f_string := "Books"; f_type := "one2many";
                       f_relation := Some "book" |})];
     data_states := ∅ |}.

Definition book_data : ModelData :=
  {| attrs := list_to_set (["name"; "author"; "test_depends"] ++ common_attrs);
     data_fields :=
       list_to_map
         [("name", char_field "Name");
          ("author", {| f_string := "Author"; f_type := "many2one";
                        f_relation := Some "author" |})];
     data_states := ∅ |}.

Definition no_data : ModelData :=
  {| attrs := ∅; data_fields := ∅; data_states := ∅ |}.

Definition field_entry (label : string) : CompletionInfo :=
  {| ci_type := "field"; ci_class_name := "Field"; ci_string := label;
     ci_function := false; ci_selection := []; ci_domain := "";
     ci_states := ""; ci_documentation := None |}.

Definition method_entry (doc : string) : CompletionInfo :=
  {| ci_type := "method"; ci_class_name := ""; ci_string := "";
     ci_function := false; ci_selection := []; ci_domain := "";
     ci_states := ""; ci_documentation := Some doc |}.

Definition book_completions : list (string * CompletionInfo) :=
  [("author", field_entry "Author");
   ("create", method_entry "Create records");
   ("name", field_entry "Name");
   ("test_depends", method_entry "")].

(** The override chains of three methods of [author], as seen from
    [AuthorOverride]: [create] has a parent with a body, [orphan] has none
    and the first parent of [validate] has no body. *)
Definition own_class : string :=
  "<class 'trytond.modules.sample_module.module.AuthorOverride'>".

Definition create_chain : list (string * super_details) :=
  [(own_class, Defined "module.py" 3);
   ("<class 'trytond.modules.sample_module.module.Author'>", Defined "module.py" 19);
   ("<class 'trytond.model.modelsql.ModelSQL'>", Defined "modelsql.py" 100)].

Definition orphan_chain : list (string * super_details) :=
  [(own_class, Defined "module.py" 3);
   ("<class 'trytond.model.modelsql.ModelSQL'>", NoDetails)].

Definition validate_chain : list (string * super_details) :=
  [(own_class, Defined "module.py" 3);
   ("<class 'trytond.modules.sample_module.module.Author'>", NoDetails);
   ("<class 'trytond.model.model.Model'>", NoCode);
   ("<class 'trytond.model.modelstorage.ModelStorage'>", Defined "modelstorage.py" 10)].

Definition companion : Companion :=
  {| init_pool := fun _ => (["author"; "book"], []);
     fetch_model := fun _ name _ =>
       if String.eqb name "author" then author_data
       else if String.eqb name "book" then book_data
       else no_data;
     fetch_super_information := fun _ _ _ function_name =>
       if String.eqb function_name "create" then create_chain
       else if String.eqb function_name "orphan" then orphan_chain
       else if String.eqb function_name "validate" then validate_chain
       else [];
     fetch_completions := fun _ name _ =>
       if String.eqb name "book" then book_completions else [] |}.

(** The same models when [book] has the selection field [state] with
    the selection [[(None, ''), ('draft', 'Draft')]]. *)
Definition state_entry : CompletionInfo :=
  {| ci_type := "field"; ci_class_name := "Selection"; ci_string := "State";
     ci_function := false; ci_selection := [None; Some "draft"];
     ci_domain := ""; ci_states := ""; ci_documentation := None |}.

Definition selection_companion : Companion :=
  {| init_pool := init_pool companion;
     fetch_model := fetch_model companion;
     fetch_super_information := fetch_super_information companion;
     fetch_completions := fun _ name _ =>
       if String.eqb name "book"
       then book_completions ++ [("state", state_entry)]
       else [] |}.

Definition sample_module : Module :=
  {| mod_name := "sample_module";
     _modules_per_class :=
       list_to_map
         [(("module", "Author"), ("model", ["sample_module"]));
          (("module", "Book"), ("model", ["sample_module"]));
          (("module", "AuthorOverride"), ("model", ["res"; "sample_module"]));
          (("module", "BookOverride"), ("model", ["res"; "sample_module"]))];
     _model_data := ∅ |}.

(** ** A data file

    The second record repeats the identifier of the first, the third has
    none; the first line carries markers for the two wrapper codes. *)
Definition data_lines : list string :=
  ["<tryton> <!-- IGNORE-TRYTON-LS-5000 IGNORE-TRYTON-LS-5001 -->";
   "  <data>";
   "    <record model='book' id='X'/>";
   "    <record model='book' id='X'/>";
   "    <record model='book'/>";
   "  </data>";
   "</tryton>"].

Definition el (t : string) (attributes : list (string * string)) (l : Z)
  : Element_ :=
  {| tag := t; attrib := list_to_map attributes; text := None; sourceline := l |}.

Definition r1 : Element_ := el "record" [("model", "book"); ("id", "X")] 3.
Definition r2 : Element_ := el "record" [("model", "book"); ("id", "X")] 4.
Definition r3 : Element_ := el "record" [("model", "book")] 5.

Definition data_pre : list (action * Element_) :=
  [(start_event, el "tryton" [] 1); (start_event, el "data" [] 2)].
Definition data_mid : list (action * Element_) := [(end_event, r1)].
Definition data_post : list (action * Element_) :=
  [(end_event, r2); (start_event, r3); (end_event, r3);
   (end_event, el "data" [] 2); (end_event, el "tryton" [] 1)].

Definition data_env (registered : bool) : XmlEnv :=
  {| x_raw_lines := data_lines;
     x_filename := "module";
     x_module := Some sample_module;
     tryton_cfg := if registered
                   then ["[tryton]"; "xml:"; "    module.xml"]
                   else ["[tryton]"; "xml:"] |}.

(** The same file without its [<tryton>] wrapper. *)
Definition bare_events : list (action * Element_) :=
  [(start_event, el "data" [] 2); (end_event, el "data" [] 2)].

(** ** A source file

    [class AuthorOverride] with [__name__ = 'author'] and one method whose
    body is the statement [self.books[0].<attr>] on line 4. *)
Definition source_lines (attr : string) : list string :=
  ["class AuthorOverride(metaclass=PoolMeta):";
   "    __name__ = 'author'";
   "    def test_function(self):";
   "        self.books[0]." +:+ attr].

Definition at_ (i : nat) (l c1 c2 : Z) : Meta :=
  {| nid := i;
     range := {| start := {| line := l; column := c1 |};
                 end_ := {| line := l; column := c2 |} |} |}.

Definition name_ (i : nat) (l c1 c2 : Z) (v : string) : NameNode :=
  {| n_meta := at_ i l c1 c2; n_value := v |}.

(** [self.books[0].<attr>] on line 4, from column 8. *)
Definition chain (attr : string) : expr :=
  let w := Z.of_nat (String.length attr) in
  Attribute (at_ 1 4 8 (22 + w))
    (Subscript (at_ 2 4 8 21)
       (Attribute (at_ 3 4 8 18) (Name (name_ 4 4 8 12 "self"))
          (name_ 5 4 13 18 "books"))
       [Index (Atom (at_ 6 4 19 20))])
    (name_ 7 4 22 (22 + w) attr).

Definition test_function (attr : string) : FunctionDef :=
  {| fn_meta := {| nid := 10;
                   range := {| start := {| line := 3; column := 4 |};
                               end_ := {| line := 5; column := 0 |} |} |};
     fn_name := name_ 11 3 8 21 "test_function";
     decorators := [];
     params := [{| p_name := name_ 12 3 22 26 "self";
                   p_annotation := None; p_default := None |}];
     returns := None;
     body := [Expr (chain attr)] |}.

Definition AuthorOverride (attr : string) : ClassDef :=
  {| cls_meta := {| nid := 20;
                    range := {| start := {| line := 1; column := 0 |};
                                end_ := {| line := 5; column := 0 |} |} |};
     cls_name := name_ 21 1 6 20 "AuthorOverride";
     cls_bases := [Name (name_ 22 1 31 39 "PoolMeta")];
     cls_body :=
       [Statement (Assign (at_ 23 2 4 23) [Name (name_ 24 2 4 12 "__name__")]
                     (SimpleString (at_ 25 2 15 23) "'author'"));
        Method_ (test_function attr)] |}.

Definition source (attr : string) : list module_item :=
  [TopClass (AuthorOverride attr)].

(** The analyzer of that file; [cursor] is the position of a completion
    request, if any. *)
Definition source_env (attr : string) (cursor : option (Z * Z)) : Env :=
  {| _raw_lines := source_lines attr;
     _filename := "module";
     _import_path := "trytond.modules.sample_module.module";
     _module := Some sample_module;
     _ranges := [];
     find_parent := fun _ _ => ParentUnparsed;
     completion_at := cursor;
     keys_swapped := false;
     cached_kinds := ∅ |}.

(** [@fields.depends(<keyword>=['name'])] on line 3 and the function it
    decorates. *)
Definition depends_keyword (keyword : string) : expr :=
  Call (at_ 30 3 5 30)
    (Attribute (at_ 31 3 5 19) (Name (name_ 32 3 5 11 "fields"))
       (name_ 33 3 12 19 "depends"))
    [Arg (Some (name_ 34 3 20 23 keyword))
       (List_ (at_ 35 3 24 32) [Element (SimpleString (at_ 36 3 25 31) "'name'")])].

Definition on_change (keyword : string) : FunctionDef :=
  {| fn_meta := {| nid := 40;
                   range := {| start := {| line := 3; column := 4 |};
                               end_ := {| line := 5; column := 12 |} |} |};
     fn_name := name_ 41 4 8 17 "on_change";
     decorators := [depends_keyword keyword];
     params := [{| p_name := name_ 42 4 18 22 "self";
                   p_annotation := None; p_default := None |}];
     returns := None;
     body := [Other []] |}.

Definition depends_lines : list string :=
  ["class BookOverride(metaclass=PoolMeta):";
   "    __name__ = 'book'";
   "    @fields.depends(foo=['name'])";
   "    def on_change(self):";
   "        pass"].

Definition BookOverride (keyword : string) : ClassDef :=
  {| cls_meta := {| nid := 50;
                    range := {| start := {| line := 1; column := 0 |};
                                end_ := {| line := 5; column := 12 |} |} |};
     cls_name := name_ 51 1 6 18 "BookOverride";
     cls_bases := [];
     cls_body :=
       [Statement (Assign (at_ 53 2 4 21) [Name (name_ 54 2 4 12 "__name__")]
                     (SimpleString (at_ 55 2 15 21) "'book'"));
        Method_ (on_change keyword)] |}.

Definition depends_env : Env :=
  {| _raw_lines := depends_lines;
     _filename := "module";
     _import_path := "trytond.modules.sample_module.module";
     _module := Some sample_module;
     _ranges := [];
     find_parent := fun _ _ => ParentUnparsed;
     completion_at := None;
     keys_swapped := false;
     cached_kinds := ∅ |}.

(** The pool and the model of [BookOverride], and the analyzer inside it. *)
Definition res_pool : Pool := get_pool companion ["res"; "sample_module"].

Definition book : PoolModel :=
  {| pm_pool := ["res"; "sample_module"]; type := "model"; name := "book";
     _dir := attrs book_data; fields := data_fields book_data;
     states := data_states book_data |}.

Definition author : PoolModel :=
  {| pm_pool := ["res"; "sample_module"]; type := "model"; name := "author";
     _dir := attrs author_data; fields := data_fields author_data;
     states := data_states author_data |}.

Definition metadata_of (class_name : string) (model : PoolModel)
  : TrytonMetadata :=
  {| _pool := res_pool; _model := Some model; _model_name := name model;
     _kind := Some "model"; _class_name := class_name |}.

Definition in_class (class_name : string) (model : PoolModel) : PyState :=
  set_class_metadata (Some (metadata_of class_name model)) initial_state.

(** The analyzer inside a method of [AuthorOverride]: [self] and [cls]
    are bound to [author]; [x] is bound to [author] too and [b] to
    [book]. *)
Definition in_method : PyState :=
  set_node_mappings
    (<[(inl "b" : node_key) := book]>
       (<[(inl "x" : node_key) := author]>
          (<[(inl "cls" : node_key) := author]>
             (<[(inl "self" : node_key) := author]> ∅))))
    (in_class "AuthorOverride" author).

(** ** Assignments

    On line 4 of the method: the plain assignment [x = b] and the
    annotated one [x: Record = b]. *)
Definition assign_lines : list string :=
  ["class AuthorOverride(metaclass=PoolMeta):";
   "    __name__ = 'author'";
   "    def method(self, b: Record['book']):";
   "        x = self";
   "        x = b";
   "        y: Record = b"].

Definition x_target (l : Z) : NameNode := name_ (Z.to_nat l * 10) l 8 9 "x".

Definition y_target (l : Z) : NameNode := name_ (Z.to_nat l * 10) l 8 9 "y".

Definition value_ (l c : Z) (value : string) : NameNode :=
  name_ (Z.to_nat l * 10 + 2) l c (c + Z.of_nat (String.length value)) value.

Definition plain_assign (l : Z) (value : string) : stmt :=
  Assign (at_ (Z.to_nat l * 10 + 1) l 8 (12 + Z.of_nat (String.length value)))
    [Name (x_target l)] (Name (value_ l 12 value)).

Definition record_annotation (l : Z) : expr :=
  Name (name_ (Z.to_nat l * 10 + 3) l 11 17 "Record").

Definition annotated_assign (l : Z) (value : string) : stmt :=
  AnnAssign (at_ (Z.to_nat l * 10 + 1) l 8 (20 + Z.of_nat (String.length value)))
    (Name (y_target l)) (record_annotation l) (Some (Name (value_ l 20 value))).

Definition assigning (statements : list stmt) : list module_item :=
  [TopClass
     {| cls_meta := {| nid := 170;
                       range := {| start := {| line := 1; column := 0 |};
                                   end_ := {| line := 6; column := 21 |} |} |};
        cls_name := name_ 171 1 6 20 "AuthorOverride";
        cls_bases := [];
        cls_body :=
          [Statement (Assign (at_ 173 2 4 23) [Name (name_ 174 2 4 12 "__name__")]
                        (SimpleString (at_ 175 2 15 23) "'author'"));
           Method_
             {| fn_meta := {| nid := 160;
                              range := {| start := {| line := 3; column := 4 |};
                                          end_ := {| line := 6; column := 21 |} |} |};
                fn_name := name_ 161 3 8 14 "method";
                decorators := [];
                params :=
                  [{| p_name := name_ 162 3 15 19 "self";
                      p_annotation := None; p_default := None |};
                   {| p_name := name_ 163 3 21 22 "b";
                      p_annotation :=
                        Some (Subscript (at_ 164 3 24 38)
                                (Name (name_ 165 3 24 30 "Record"))
                                [Index (SimpleString (at_ 166 3 31 37) "'book'")]);
                      p_default := None |}];
                returns := None;
                body := statements |}] |}].

Definition assign_env : Env :=
  {| _raw_lines := assign_lines;
     _filename := "module";
     _import_path := "trytond.modules.sample_module.module";
     _module := Some sample_module;
     _ranges := [];
     find_parent := fun _ _ => ParentUnparsed;
     completion_at := None;
     keys_swapped := false;
     cached_kinds := ∅ |}.

(** The same method with [x: Record['book'] = b] on line 6. *)
Definition redeclare_lines : list string :=
  ["class AuthorOverride(metaclass=PoolMeta):";
   "    __name__ = 'author'";
   "    def method(self, b: Record['book']):";
   "        x = self";
   "        x = b";
   "        x: Record['book'] = b"].

Definition book_annotation (l : Z) : expr :=
  Subscript (at_ (Z.to_nat l * 10 + 3) l 11 25)
    (Name (name_ (Z.to_nat l * 10 + 4) l 11 17 "Record"))
    [Index (SimpleString (at_ (Z.to_nat l * 10 + 5) l 18 24) "'book'")].

Definition redeclared_assign (l : Z) (value : string) : stmt :=
  AnnAssign (at_ (Z.to_nat l * 10 + 1) l 8 (28 + Z.of_nat (String.length value)))
    (Name (x_target l)) (book_annotation l) (Some (Name (value_ l 28 value))).

Definition redeclare_env : Env :=
  {| _raw_lines := redeclare_lines;
     _filename := "module";
     _import_path := "trytond.modules.sample_module.module";
     _module := Some sample_module;
     _ranges := [];
     find_parent := fun _ _ => ParentUnparsed;
     completion_at := None;
     keys_swapped := false;
     cached_kinds := ∅ |}.

(** Inside the method, once the annotated assignment of line 6 has been
    entered. *)
Definition declared_in_method : PyState :=
  (visit_AnnAssign companion assign_env (at_ 61 6 8 21) (record_annotation 6)
     in_method).2.

(** ** Overriding methods

    [def <name>(self):] on line 3 of [AuthorOverride], with a one-line body
    on line 4: [pass], or the chain call [super().<name>()]. *)
Definition override_lines : list string :=
  ["class AuthorOverride(metaclass=PoolMeta):";
   "    __name__ = 'author'";
   "    def method(self):";
   "        pass"].

Definition super_call (fname : string) : expr :=
  Call (at_ 62 4 8 24)
    (Attribute (at_ 63 4 8 22)
       (Call (at_ 64 4 8 15) (Name (name_ 65 4 8 13 "super")) [])
       (name_ 66 4 16 22 fname))
    [].

Definition method_ (fname : string) (statements : list stmt) : FunctionDef :=
  {| fn_meta := {| nid := 60;
                   range := {| start := {| line := 3; column := 4 |};
                               end_ := {| line := 4; column := 24 |} |} |};
     fn_name := name_ 61 3 8 14 fname;
     decorators := [];
     params := [{| p_name := name_ 67 3 15 19 "self";
                   p_annotation := None; p_default := None |}];
     returns := None;
     body := statements |}.

Definition overriding (f : FunctionDef) : list module_item :=
  [TopClass
     {| cls_meta := {| nid := 70;
                       range := {| start := {| line := 1; column := 0 |};
                                   end_ := {| line := 4; column := 24 |} |} |};
        cls_name := name_ 71 1 6 20 "AuthorOverride";
        cls_bases := [];
        cls_body :=
          [Statement (Assign (at_ 73 2 4 23) [Name (name_ 74 2 4 12 "__name__")]
                        (SimpleString (at_ 75 2 15 23) "'author'"));
           Method_ f] |}].

(** The parents in [module.py] and [modelstorage.py] are found, without
    marker. *)
Definition override_env : Env :=
  {| _raw_lines := override_lines;
     _filename := "module";
     _import_path := "trytond.modules.sample_module.module";
     _module := Some sample_module;
     _ranges := [];
     find_parent := fun file_name _ =>
       if String.eqb file_name "module.py" then ParentFound []
       else if String.eqb file_name "modelstorage.py" then ParentFound []
       else ParentUnparsed;
     completion_at := None;
     keys_swapped := false;
     cached_kinds := ∅ |}.

(** The analyzer inside [AuthorOverride], entering the method [f]. *)
Definition entering (f : FunctionDef) : PyState :=
  set_cur_function (Some (fn_name f)) (in_class "AuthorOverride" author).

(** The chains of three more methods of [author]: [delete] has two
    parents with a body, [states] a single parent without body, and the
    parent of [export] lies in a file that cannot be opened. *)
Definition delete_chain : list (string * super_details) :=
  [(own_class, Defined "module.py" 3);
   ("<class 'trytond.modules.sample_module.module.Author'>", Defined "module.py" 19);
   ("<class 'trytond.model.modelsql.ModelSQL'>", Defined "modelsql.py" 100)].

Definition states_chain : list (string * super_details) :=
  [(own_class, Defined "module.py" 3);
   ("<class 'trytond.model.model.Model'>", NoCode)].

Definition export_chain : list (string * super_details) :=
  [(own_class, Defined "module.py" 3);
   ("<class 'trytond.model.modelstorage.ModelStorage'>", Defined "removed.py" 10)].

Definition chains_companion : Companion :=
  {| init_pool := init_pool companion;
     fetch_model := fetch_model companion;
     fetch_super_information := fun _ _ _ function_name =>
       if String.eqb function_name "delete" then delete_chain
       else if String.eqb function_name "states" then states_chain
       else if String.eqb function_name "export" then export_chain
       else [];
     fetch_completions := fetch_completions companion |}.

(** The parent in [module.py] carries the marker of [MissingSuperCall] in
    a comment of its body, the one in [modelsql.py] has none, and opening
    [removed.py] fails. *)
Definition marked_parent_env : Env :=
  {| _raw_lines := override_lines;
     _filename := "module";
     _import_path := "trytond.modules.sample_module.module";
     _module := Some sample_module;
     _ranges := [];
     find_parent := fun file_name _ =>
       if String.eqb file_name "module.py"
       then ParentFound ["# IGNORE-TRYTON-LS-1004"]
       else if String.eqb file_name "modelsql.py" then ParentFound []
       else if String.eqb file_name "removed.py" then ParentRaises OSError
       else ParentUnparsed;
     completion_at := None;
     keys_swapped := false;
     cached_kinds := ∅ |}.

(** ** Dependency lists

    [@fields.depends(<entry>)] on line 3 of [BookOverride]. *)
Definition entry_at : Meta := at_ 80 3 20 40.


(** The same file when the marker sits on a comment line above, which
    starts with a no-break space (U+00A0, in UTF-8). *)
Definition no_break_space : string :=
  String (ascii_of_nat 194) (String (ascii_of_nat 160) "").

Definition wide_marked_lines : list string :=
  [no_break_space +:+ "# IGNORE-TRYTON-LS-1007";
   "[x.whatever for x in menus]"].

Definition unknown_whatever (l : Z) : Diagnostic :=
  {| d_class := UnknownAttribute "whatever" "ir.ui.menu";
     _position := {| start := {| line := l; column := 3 |};
                     end_ := {| line := l; column := 11 |} |} |}.

End Sample.

(** * Further vocabulary *)

(** Positions in reading order. *)
Definition pos_lt (a b : CodePosition) : Prop :=
  line a < line b ∨ (line a = line b ∧ column a < column b).


(** The order of [sorted] on [str]. *)
Definition str_le (a b : string) : Prop := String.leb a b = true.

(** The keyword is a [type_=<constant>] of a [Pool.register] call. *)
Definition sets_type (k : init_keyword) : bool :=
  match kw_arg k, kw_value k with
  | Some "type_", KwConstant _ => true
  | _, _ => false
  end.

(** [d] reports a repeat of the identifier [X] and cites the line [L]. *)
Definition cites (X : string) (L : Z) (d : Diagnostic) : Prop :=
  ∃ p, d = {| d_class := RecordDuplicateId X (Py.str_of_Z L); _position := p |}.

(** No marker suppresses the report of a repeat of [X] on the records
    that carry it. *)
Definition repeats_reported (raw_lines : list string) (X : string)
    (events : list (action * Element_)) : Prop :=
  Forall (fun ev => opens_record X ev = true →
                    ignored XMLAnalyzerC raw_lines "5006" (sourceline ev.2)
                    = Some false) events.

(** The names listed by a [methods=[...]] keyword of [fields.depends]. *)
Definition method_names (elements : list (element expr)) : list string :=
  omap (fun e => match e with
                 | Element (SimpleString _ literal) => Some (Py.unquote literal)
                 | _ => None
                 end) elements.

(** What one [super(...).name(...)] call of a function is reported for. *)
Definition call_findings (node : FunctionDef) (c : super_match) : list Diagnostic :=
  match super_invocation_args c with
  | [] => []
  | _ :: _ => [{| d_class := SuperInvocationWithParams;
                  _position := range (super_invocation c) |}]
  end
  ++ (if String.eqb (n_value (super_name c)) (n_value (fn_name node)) then []
      else [{| d_class := SuperInvocationMismatchedName (n_value (fn_name node));
               _position := range (n_meta (super_name c)) |}]).

(** The report due for a further [__name__] of a class whose first one
    is [literal]. *)
Definition name_finding (literal : string) (extra : Meta * string) : Diagnostic :=
  {| d_class := if String.eqb literal extra.2 then DuplicateName
                else ConflictingName;
     _position := range extra.1 |}.

(** No marker suppresses [d] in the file. *)
Definition kept (raw_lines : list string) (d : Diagnostic) : Prop :=
  ignored PythonAnalyzerC raw_lines (err_code (d_class d))
    (line (start (_position d))) = Some false.

(** The walker once a function has been left. *)
Definition no_names (s : PyState) : Prop :=
  _node_mappings s = ∅ ∧ _node_list_mappings s = ∅
  ∧ _function_pool_vars s = ∅ ∧ _cur_function s = None.

Module Fixture.

(** A data file whose second line is a comment carrying a marker. *)
Definition marked_data : list string :=
  ["<tryton>";
   "  <!-- IGNORE-TRYTON-LS-5003 -->";
   "  <record id='a'/>";
   "  <record id='b'/>";
   "</tryton>"].

(** The same file when the comment line starts with an ideographic space
    (U+3000, in UTF-8) and a tabulation. *)
Definition ideographic_space : string :=
  String (ascii_of_nat 227) (String (ascii_of_nat 128)
    (String (ascii_of_nat 128) "")).

Definition tabulation : string := String (ascii_of_nat 9) "".

Definition wide_marked_data : list string :=
  ["<tryton>";
   ideographic_space +:+ tabulation +:+ "<!-- IGNORE-TRYTON-LS-5003 -->";
   "  <record id='a'/>";
   "  <record id='b'/>";
   "</tryton>"].

Definition missing_model (l : Z) : Diagnostic :=
  {| d_class := RecordMissingAttribute "model";
     _position := {| start := {| line := l; column := 0 |};
                     end_ := {| line := l; column := 2 |} |} |}.

(** An entry point in which the second call gives no [type_]. *)
Definition keyword_ (arg value : string) : init_keyword :=
  {| kw_arg := Some arg; kw_value := KwConstant value |}.

Definition register_models : init_stmt :=
  PoolRegister [ClassRef "module" "Book"; ClassRef "module" "Author"]
    [keyword_ "module" "sample_module"; keyword_ "type_" "model"].

Definition register_untyped : init_stmt :=
  PoolRegister [ClassRef "wizard" "Print"]
    [{| kw_arg := Some "depends"; kw_value := KwList [Some "res"; None] |};
     keyword_ "module" "sample_module"].

(** A data file with two sections. *)
Definition record_ (id : option string) (l : Z) : record_node :=
  {| r_attrib := match id with
                 | Some id => {[ "id" := id; "model" := "book" ]}
                 | None => {[ "model" := "book" ]}
                 end;
     r_sourceline := l |}.

Definition two_sections : xml_parse :=
  XmlParsed
    [{| data_depends := None;
        data_records := [record_ (Some "a") 3; record_ None 4] |};
     {| data_depends := Some "res, ir";
        data_records := [record_ (Some "b") 7; record_ (Some "a") 8] |}].

(** Inside a method of [AuthorOverride] in which [bs] is a sequence of
    [book], once [ys: Records = bs] on line 6 has been entered. *)
Definition with_sequence : PyState :=
  set_node_list_mappings
    (<[(inl "bs" : node_key) := Sample.book]> (_node_list_mappings Sample.in_method))
    Sample.in_method.

Definition records_annotation : expr :=
  Name (Sample.name_ 63 6 12 19 "Records").

Definition declared_sequence : PyState :=
  (visit_AnnAssign Sample.companion Sample.assign_env (Sample.at_ 61 6 8 24)
     records_annotation with_sequence).2.

(** [Pool().get('book', 'report')] on line 5. *)
Definition report_lookup : expr :=
  Call (Sample.at_ 50 5 8 36)
    (Attribute (Sample.at_ 51 5 8 18)
       (Call (Sample.at_ 52 5 8 14) (Name (Sample.name_ 53 5 8 12 "Pool")) [])
       (Sample.name_ 54 5 15 18 "get"))
    [Arg None (SimpleString (Sample.at_ 55 5 19 25) "'book'");
     Arg None (SimpleString (Sample.at_ 56 5 27 35) "'report'")].

(** A data file in which three records carry the identifier [X]. *)
Definition repeated_lines : list string :=
  ["<tryton>";
   "  <data>";
   "    <record model='book' id='X'/>";
   "    <record model='author' id='Y'/>";
   "    <record model='book' id='X'/>";
   "    <record model='book' id='X'/>";
   "  </data>";
   "</tryton>"].

Definition record_at (id model : string) (l : Z) : Element_ :=
  Sample.el "record" [("model", model); ("id", id)] l.

Definition repeated_events : list (action * Element_) :=
  [(start_event, Sample.el "tryton" [] 1); (start_event, Sample.el "data" [] 2);
   (start_event, record_at "X" "book" 3); (end_event, record_at "X" "book" 3);
   (start_event, record_at "Y" "author" 4); (end_event, record_at "Y" "author" 4);
   (start_event, record_at "X" "book" 5); (end_event, record_at "X" "book" 5);
   (start_event, record_at "X" "book" 6); (end_event, record_at "X" "book" 6);
   (end_event, Sample.el "data" [] 2); (end_event, Sample.el "tryton" [] 1)].

Definition repeated_env : XmlEnv :=
  {| x_raw_lines := repeated_lines;
     x_filename := "module";
     x_module := Some Sample.sample_module;
     tryton_cfg := ["[tryton]"; "xml:"; "    module.xml"] |}.

(** A data file with a record of an unknown model and a field that the
    model of its record does not have. *)
Definition unknown_lines : list string :=
  ["<tryton>";
   "  <data>";
   "    <record model='publisher' id='p1'>";
   "      <field name='title'>T</field>";
   "    </record>";
   "    <record model='book' id='b1'>";
   "      <field name='pages'>3</field>";
   "    </record>";
   "  </data>";
   "</tryton>"].

Definition unknown_env : XmlEnv :=
  {| x_raw_lines := unknown_lines;
     x_filename := "module";
     x_module := Some Sample.sample_module;
     tryton_cfg := ["[tryton]"; "xml:"; "    module.xml"] |}.

Definition publisher_record : Element_ := record_at "p1" "publisher" 3.
Definition book_record : Element_ := record_at "b1" "book" 6.

Definition field_at (name : string) (l : Z) : Element_ :=
  Sample.el "field" [("name", name)] l.

(** The walker once it has entered the events, and then pushed [node]. *)
Definition entered (events : list (action * Element_)) (node : Element_)
  : XmlState :=
  let s := (for_each events (XMLAnalyzer.on_event Sample.companion unknown_env)
              xml_initial_state).2 in
  set_tag_stack (_tag_stack s ++ [node]) s.

Definition in_data : list (action * Element_) :=
  [(start_event, Sample.el "tryton" [] 1); (start_event, Sample.el "data" [] 2)].

(** At the field [pages] of the record of [book]. *)
Definition at_pages : XmlState :=
  entered (in_data ++ [(start_event, book_record)]) (field_at "pages" 7).

(** The method of the assignment sample on its own, and a request for
    the first two lines of the file only. *)
Definition small_method : FunctionDef :=
  {| fn_meta := {| nid := 160;
                   range := {| start := {| line := 3; column := 4 |};
                               end_ := {| line := 5; column := 13 |} |} |};
     fn_name := Sample.name_ 161 3 8 14 "method";
     decorators := [];
     params := [{| p_name := Sample.name_ 162 3 15 19 "self";
                   p_annotation := None; p_default := None |}];
     returns := None;
     body := [Sample.plain_assign 4 "self"; Sample.plain_assign 5 "b"] |}.

Definition first_lines_only : Env :=
  {| _raw_lines := Sample.assign_lines;
     _filename := "module";
     _import_path := "trytond.modules.sample_module.module";
     _module := Some Sample.sample_module;
     _ranges := [{| start := {| line := 1; column := 0 |};
                    end_ := {| line := 2; column := 23 |} |}];
     find_parent := fun _ _ => ParentUnparsed;
     completion_at := None;
     keys_swapped := false;
     cached_kinds := ∅ |}.

(** A class with three [__name__] assignments. *)
Definition named_lines : list string :=
  ["class Book(ModelSQL):";
   "    __name__ = 'book'";
   "    __name__ = 'book'";
   "    __name__ = 'library.book'"].

Definition name_assign (i : nat) (l : Z) (literal : string) : class_item :=
  Statement
    (Assign (Sample.at_ i l 4 (15 + Z.of_nat (String.length literal)))
       [Name (Sample.name_ (i + 1) l 4 12 "__name__")]
       (SimpleString (Sample.at_ (i + 2) l 15 (15 + Z.of_nat (String.length literal)))
          literal)).

Definition named_class : ClassDef :=
  {| cls_meta := {| nid := 100;
                    range := {| start := {| line := 1; column := 0 |};
                                end_ := {| line := 4; column := 31 |} |} |};
     cls_name := Sample.name_ 101 1 6 10 "Book";
     cls_bases := [Name (Sample.name_ 102 1 11 19 "ModelSQL")];
     cls_body := [name_assign 110 2 "'book'"; name_assign 120 3 "'book'";
                  name_assign 130 4 "'library.book'"] |}.

Definition named_env : Env :=
  {| _raw_lines := named_lines;
     _filename := "module";
     _import_path := "trytond.modules.sample_module.module";
     _module := Some Sample.sample_module;
     _ranges := [];
     find_parent := fun _ _ => ParentUnparsed;
     completion_at := None;
     keys_swapped := false;
     cached_kinds := ∅ |}.

(** A class that names a model and is not registered. *)
Definition magazine_lines : list string :=
  ["class Magazine(ModelSQL):";
   "    __name__ = 'magazine'"].

Definition Magazine : ClassDef :=
  {| cls_meta := {| nid := 100;
                    range := {| start := {| line := 1; column := 0 |};
                                end_ := {| line := 2; column := 25 |} |} |};
     cls_name := Sample.name_ 101 1 6 14 "Magazine";
     cls_bases := [Name (Sample.name_ 102 1 15 23 "ModelSQL")];
     cls_body := [name_assign 110 2 "'magazine'"] |}.

Definition magazine_env : Env :=
  {| _raw_lines := magazine_lines;
     _filename := "module";
     _import_path := "trytond.modules.sample_module.module";
     _module := Some Sample.sample_module;
     _ranges := [];
     find_parent := fun _ _ => ParentUnparsed;
     completion_at := None;
     keys_swapped := false;
     cached_kinds := ∅ |}.

(** A pool that knows [book] only, whose field [author] targets a model
    outside it, and the walker inside a method of a class bound to
    [book]. *)
Definition narrow_companion : Companion :=
  {| init_pool := fun _ => (["book"], []);
     fetch_model := fetch_model Sample.companion;
     fetch_super_information := fun _ _ _ _ => [];
     fetch_completions := fun _ _ _ => [] |}.

Definition narrow_book : PoolModel :=
  {| pm_pool := ["sample_module"]; type := "model"; name := "book";
     _dir := attrs Sample.book_data; fields := data_fields Sample.book_data;
     states := data_states Sample.book_data |}.

Definition narrow_metadata : TrytonMetadata :=
  {| _pool := get_pool narrow_companion ["sample_module"];
     _model := Some narrow_book; _model_name := "book";
     _kind := Some "model"; _class_name := "Book" |}.

Definition in_narrow_method : PyState :=
  set_node_mappings
    (<[(inl "cls" : node_key) := narrow_book]>
       (<[(inl "self" : node_key) := narrow_book]> ∅))
    (set_class_metadata (Some narrow_metadata) initial_state).

Definition narrow_lines : list string :=
  ["class Book(ModelSQL):";
   "    __name__ = 'book'";
   "    def writer(self):";
   "        self.author"].

Definition narrow_env : Env :=
  {| _raw_lines := narrow_lines;
     _filename := "module";
     _import_path := "trytond.modules.sample_module.module";
     _module := Some Sample.sample_module;
     _ranges := [];
     find_parent := fun _ _ => ParentUnparsed;
     completion_at := None;
     keys_swapped := false;
     cached_kinds := ∅ |}.

Definition narrow_class : ClassDef :=
  {| cls_meta := {| nid := 100;
                    range := {| start := {| line := 1; column := 0 |};
                                end_ := {| line := 4; column := 19 |} |} |};
     cls_name := Sample.name_ 101 1 6 10 "Book";
     cls_bases := [Name (Sample.name_ 102 1 11 19 "ModelSQL")];
     cls_body :=
       [name_assign 110 2 "'book'";
        Method_
          {| fn_meta := {| nid := 140;
                           range := {| start := {| line := 3; column := 4 |};
                                       end_ := {| line := 4; column := 19 |} |} |};
             fn_name := Sample.name_ 141 3 8 14 "writer";
             decorators := [];
             params := [{| p_name := Sample.name_ 142 3 15 19 "self";
                           p_annotation := None; p_default := None |}];
             returns := None;
             body := [Expr (Attribute (Sample.at_ 150 4 8 19)
                              (Name (Sample.name_ 151 4 8 12 "self"))
                              (Sample.name_ 152 4 13 19 "author"))] |}] |}.

(** The list of a [methods] keyword on line 3 of [BookOverride]. *)
Definition methods_lines : list string :=
  ["class BookOverride(metaclass=PoolMeta):";
   "    __name__ = 'book'";
   "    @fields.depends(methods=['create', 'on_change_title', name, 'compute'])";
   "    def on_change(self):";
   "        pass"].

Definition methods_env : Env :=
  {| _raw_lines := methods_lines;
     _filename := "module";
     _import_path := "trytond.modules.sample_module.module";
     _module := Some Sample.sample_module;
     _ranges := [];
     find_parent := fun _ _ => ParentUnparsed;
     completion_at := None;
     keys_swapped := false;
     cached_kinds := ∅ |}.

Definition listed_methods : list (element expr) :=
  [Element (SimpleString (Sample.at_ 36 3 29 37) "'create'");
   Element (SimpleString (Sample.at_ 37 3 39 56) "'on_change_title'");
   Element (Name (Sample.name_ 38 3 58 62 "name"));
   Element (SimpleString (Sample.at_ 39 3 64 73) "'compute'")].

End Fixture.

(** * Properties *)

(** ** Strings *)

Lemma append_cons c a b : String c a +:+ b = String c (a +:+ b).
Proof. reflexivity. Qed.

Lemma append_nil b : "" +:+ b = b.
Proof. reflexivity. Qed.

Lemma prefix_spec p s :
  String.prefix p s = true ↔ ∃ rest, s = p +:+ rest.
Proof.
  revert s. induction p as [|c p IH]; intros s.
  - split; [intros _; exists s; reflexivity | intros _; destruct s; reflexivity].
  - destruct s as [|c' s]; simpl.
    + split; [discriminate | intros [rest H]; discriminate].
    + destruct (ascii_dec c c') as [->|Hne].
      * rewrite IH. split; intros [rest H]; exists rest.
        -- rewrite append_cons. congruence.
        -- rewrite append_cons in H. congruence.
      * split; [discriminate |].
        intros [rest H]. rewrite append_cons in H. congruence.
Qed.

Lemma contains_spec needle hay :
  Py.contains needle hay = true ↔ ∃ pre post, hay = pre +:+ needle +:+ post.
Proof.
  induction hay as [|c hay IH]; cbn [Py.contains].
  - rewrite orb_false_r, prefix_spec. split.
    + intros [rest H]. exists "", rest. exact H.
    + intros [pre [post H]]. destruct pre; [exists post; exact H | discriminate].
  - rewrite orb_true_iff, prefix_spec, IH. split.
    + intros [[rest H] | [pre [post H]]].
      * exists "", rest. exact H.
      * exists (String c pre), post. rewrite append_cons. congruence.
    + intros [pre [post H]]. destruct pre as [|c' pre].
      * left. exists post. exact H.
      * right. exists pre, post. rewrite append_cons in H. congruence.
Qed.

Lemma marker_spec code l :
  Py.contains (marker code) l = true ↔ has_marker code l.
Proof. apply contains_spec. Qed.

Ltac listed :=
  solve [unfold is_blank; vm_compute;
         repeat first [apply list_elem_of_here | apply list_elem_of_further]].

(** The blank characters, by their bytes. *)
Lemma blank_shapes w :
  is_blank w
  ↔ (∃ c, Py.isspace c = true ∧ w = String c "")
    ∨ (∃ c d, Py.isspace2 c d = true ∧ w = String c (String d ""))
    ∨ (∃ c d e, Py.isspace3 c d e = true ∧ w = String c (String d (String e ""))).
Proof.
  split.
  - unfold is_blank, blank_code_points. cbn [map]. intros H.
    repeat (apply elem_of_cons in H as [-> | H]);
      [.. | by apply elem_of_nil in H];
      first [ left; eexists; (split; [| reflexivity]); reflexivity
            | right; left; eexists _, _; (split; [| reflexivity]); reflexivity
            | right; right; eexists _, _, _; (split; [| reflexivity]);
              reflexivity ].
  - assert (∀ c n, nat_of_ascii c = n → c = ascii_of_nat n) as Hbyte.
    { intros c n <-. symmetry. apply ascii_nat_embedding. }
    intros [(c & Hc & ->) | [(c & d & Hcd & ->) | (c & d & e & Hcde & ->)]].
    + unfold Py.isspace in Hc. cbv zeta in Hc.
      assert (nat_of_ascii c = 9 ∨ nat_of_ascii c = 10 ∨ nat_of_ascii c = 11
              ∨ nat_of_ascii c = 12 ∨ nat_of_ascii c = 13 ∨ nat_of_ascii c = 28
              ∨ nat_of_ascii c = 29 ∨ nat_of_ascii c = 30 ∨ nat_of_ascii c = 31
              ∨ nat_of_ascii c = 32)%nat as Hn.
      { apply orb_true_iff in Hc as [Hc | Hc];
          apply andb_true_iff in Hc as [H1 H2];
          apply Nat.leb_le in H1; apply Nat.leb_le in H2; lia. }
      repeat (destruct Hn as [Hn | Hn]; [apply Hbyte in Hn; subst c; listed |]).
      apply Hbyte in Hn. subst c. listed.
    + unfold Py.isspace2 in Hcd. cbv zeta in Hcd.
      apply andb_true_iff in Hcd as [Hc Hd]. apply Nat.eqb_eq, Hbyte in Hc. subst c.
      apply orb_true_iff in Hd as [Hd | Hd]; apply Nat.eqb_eq, Hbyte in Hd;
        subst d; listed.
    + unfold Py.isspace3 in Hcde. cbv zeta in Hcde.
      repeat match type of Hcde with
             | (_ || _) = true => apply orb_true_iff in Hcde as [Hcde | Hcde]
             end;
        repeat match goal with
               | H : (_ && _) = true |- _ => apply andb_true_iff in H as [? ?]
               | H : (_ || _) = true |- _ => apply orb_true_iff in H as [? | ?]
               | H : (_ =? _)%nat = true |- _ => apply Nat.eqb_eq, Hbyte in H; subst
               end;
        try listed.
      match goal with
      | H1 : (128 <=? ?n)%nat = true, H2 : (?n <=? 138)%nat = true |- _ =>
          apply Nat.leb_le in H1; apply Nat.leb_le in H2;
          assert (n = 128 ∨ n = 129 ∨ n = 130 ∨ n = 131 ∨ n = 132
                  ∨ n = 133 ∨ n = 134 ∨ n = 135 ∨ n = 136 ∨ n = 137
                  ∨ n = 138)%nat as Hn by lia
      end.
      repeat (destruct Hn as [Hn | Hn]; [apply Hbyte in Hn; subst e; listed |]).
      apply Hbyte in Hn. subst e. listed.
Qed.

(** A byte below 128 that is no blank starts no blank character. *)
Definition plain (c : ascii) : Prop :=
  Py.isspace c = false ∧ (nat_of_ascii c <? 128)%nat = true.

Lemma plain_wide c :
  plain c → (∀ d, Py.isspace2 c d = false) ∧ (∀ d e, Py.isspace3 c d e = false).
Proof.
  intros [_ H]. apply Nat.ltb_lt in H. unfold Py.isspace2, Py.isspace3. cbv zeta.
  assert ((nat_of_ascii c =? 194)%nat = false) as -> by (apply Nat.eqb_neq; lia).
  assert ((nat_of_ascii c =? 225)%nat = false) as -> by (apply Nat.eqb_neq; lia).
  assert ((nat_of_ascii c =? 226)%nat = false) as -> by (apply Nat.eqb_neq; lia).
  assert ((nat_of_ascii c =? 227)%nat = false) as -> by (apply Nat.eqb_neq; lia).
  split; reflexivity.
Qed.

Lemma lstrip_plain c x : plain c → Py.lstrip (String c x) = String c x.
Proof.
  intros Hc. destruct (plain_wide c Hc) as [H2 H3]. destruct Hc as [Hc _].
  cbn [Py.lstrip]. rewrite Hc.
  destruct x as [|d [|e x]]; rewrite ?H2, ?H3; reflexivity.
Qed.

Lemma wide_not_narrow :
  (∀ c d, Py.isspace2 c d = true → Py.isspace c = false)
  ∧ (∀ c d e, Py.isspace3 c d e = true →
              Py.isspace c = false ∧ Py.isspace2 c d = false).
Proof.
  split.
  - intros c d H. unfold Py.isspace2 in H. cbv zeta in H.
    apply andb_true_iff in H as [H _]. apply Nat.eqb_eq in H.
    unfold Py.isspace. rewrite H. reflexivity.
  - intros c d e H. unfold Py.isspace3 in H. cbv zeta in H.
    unfold Py.isspace, Py.isspace2. cbv zeta.
    destruct (nat_of_ascii c =? 225)%nat eqn:E1;
      [apply Nat.eqb_eq in E1; rewrite E1; split; reflexivity |].
    destruct (nat_of_ascii c =? 226)%nat eqn:E2;
      [apply Nat.eqb_eq in E2; rewrite E2; split; reflexivity |].
    destruct (nat_of_ascii c =? 227)%nat eqn:E3;
      [apply Nat.eqb_eq in E3; rewrite E3; split; reflexivity |].
    cbn in H. discriminate.
Qed.

Lemma lstrip_blank w x : is_blank w → Py.lstrip (w +:+ x) = Py.lstrip x.
Proof.
  intros H. apply blank_shapes in H
    as [(c & Hc & ->) | [(c & d & Hcd & ->) | (c & d & e & Hcde & ->)]];
    rewrite !append_cons, append_nil; cbn [Py.lstrip].
  - rewrite Hc. reflexivity.
  - rewrite (proj1 wide_not_narrow c d Hcd), Hcd. reflexivity.
  - destruct (proj2 wide_not_narrow c d e Hcde) as [-> ->]. rewrite Hcde.
    reflexivity.
Qed.

Lemma lstrip_cases s :
  (Py.lstrip s = s ∧ ∀ w x, is_blank w → s ≠ w +:+ x)
  ∨ ∃ w x, is_blank w ∧ s = w +:+ x ∧ Py.lstrip s = Py.lstrip x.
Proof.
  assert (∀ w x c y, is_blank w → String c y = w +:+ x →
            (Py.isspace c = true)
            ∨ (∃ d y', y = String d y' ∧ Py.isspace2 c d = true)
            ∨ (∃ d e y', y = String d (String e y') ∧ Py.isspace3 c d e = true))
    as Hhead.
  { intros w x c y Hw E. apply blank_shapes in Hw
      as [(a & Ha & ->) | [(a & b & Hab & ->) | (a & b & e & Habe & ->)]];
      rewrite !append_cons, append_nil in E; injection E as -> ->; eauto 10. }
  destruct s as [|c rest]; [left; split; [reflexivity |] |].
  { intros w x Hw E. apply blank_shapes in Hw
      as [(a & _ & ->) | [(a & b & _ & ->) | (a & b & e & _ & ->)]];
      discriminate. }
  cbn [Py.lstrip]. destruct (Py.isspace c) eqn:Hc.
  { right. exists (String c ""), rest. split; [| auto].
    apply blank_shapes. left. eauto. }
  destruct rest as [|d rest2].
  { left. split; [reflexivity |]. intros w x Hw E.
    destruct (Hhead w x c "" Hw E) as [H | [(? & ? & ? & _) | (? & ? & ? & ? & _)]];
      congruence. }
  destruct (Py.isspace2 c d) eqn:Hcd.
  { right. exists (String c (String d "")), rest2. split; [| auto].
    apply blank_shapes. right. left. eauto. }
  destruct rest2 as [|e rest3].
  { left. split; [reflexivity |]. intros w x Hw E.
    destruct (Hhead w x c _ Hw E)
      as [H | [(? & ? & [= <- <-] & H) | (? & ? & ? & ? & _)]]; congruence. }
  destruct (Py.isspace3 c d e) eqn:Hcde.
  { right. exists (String c (String d (String e ""))), rest3. split; [| auto].
    apply blank_shapes. right. right. eauto 10. }
  left. split; [reflexivity |]. intros w x Hw E.
  destruct (Hhead w x c _ Hw E)
    as [H | [(? & ? & [= <- <-] & H) | (? & ? & ? & [= <- <- <-] & H)]];
    congruence.
Qed.

Lemma lstrip_spec opener c l :
  plain c →
  Py.startswith (Py.lstrip l) (String c opener) = true
  ↔ is_comment_line (String c opener) l.
Proof.
  intros Hc. unfold Py.startswith, is_comment_line, all_space. split.
  - remember (String.length l) as n eqn:Hn. revert l Hn.
    induction n as [n IH] using lt_wf_ind. intros l Hn H.
    destruct (lstrip_cases l) as [[E _] | (w & x & Hw & -> & E)].
    + rewrite E in H. apply prefix_spec in H as [rest ->].
      exists "", rest. split; [exists []; split; [constructor | reflexivity] |].
      reflexivity.
    + rewrite E in H.
      assert (String.length x < n)%nat as Hlt.
      { subst n. apply blank_shapes in Hw
          as [(a & _ & ->) | [(a & b & _ & ->) | (a & b & e & _ & ->)]];
          rewrite !append_cons, append_nil; cbn [String.length]; lia. }
      destruct (IH _ Hlt x eq_refl H) as (indent & rest & (ws & Hws & ->) & ->).
      exists (w +:+ foldr String.append "" ws), rest.
      split; [exists (w :: ws); split; [by constructor | reflexivity] |].
      clear. induction w as [|a w IHw]; [reflexivity |].
      rewrite !append_cons. by f_equal.
  - intros (indent & rest & (ws & Hws & ->) & ->).
    induction Hws as [|w ws Hw Hws IH]; cbn [foldr].
    + rewrite append_nil, append_cons, (lstrip_plain _ _ Hc).
      apply prefix_spec. exists rest. reflexivity.
    + assert (∀ a b c0 : string, (a +:+ b) +:+ c0 = a +:+ (b +:+ c0)) as Hassoc.
      { intros a b c0. induction a as [|ch a IHa]; [reflexivity |].
        rewrite !append_cons. by f_equal. }
      rewrite Hassoc, (lstrip_blank _ _ Hw). exact IH.
Qed.

(** ** Subscripts *)

Lemma getitem_line {A} (l : list A) (L : Z) :
  1 <= L <= Z.of_nat (length l) →
  Py.getitem l (L - 1) = l !! Z.to_nat (L - 1)
  ∧ is_Some (l !! Z.to_nat (L - 1)).
Proof.
  intros H. unfold Py.getitem.
  assert ((0 <=? L - 1) && (L - 1 <? Z.of_nat (length l)) = true) as ->.
  { apply andb_true_iff. split; [apply Z.leb_le | apply Z.ltb_lt]; lia. }
  split; [reflexivity |]. apply lookup_lt_is_Some. lia.
Qed.

(** ** Suppression markers *)

Lemma ignored_base_spec raw code L :
  in_file raw L →
  ∃ b, Analyzer.ignored raw code L = Some b
       ∧ (b = true ↔ ∃ l, line_text raw L = Some l ∧ has_marker code l).
Proof.
  intros HL. destruct (getitem_line raw L HL) as [Hget [l Hl]].
  unfold Analyzer.ignored. rewrite Hget, Hl. simpl.
  eexists; split; [reflexivity |].
  unfold line_text. destruct HL as [HL1 _].
  apply Z.leb_le in HL1. rewrite HL1, Hl, marker_spec.
  split; [intros H; exists l; auto | intros (l' & [= <-] & H); exact H].
Qed.

Lemma ignored_above_spec opener c raw code L :
  plain c →
  in_file raw L →
  ∃ b, Analyzer.ignored_above (String c opener) raw code L = Some b
       ∧ (b = true ↔ suppressed_at (String c opener) raw code L).
Proof.
  intros Hc HL.
  destruct (ignored_base_spec raw code L HL) as (here & Hhere & Hspec).
  unfold Analyzer.ignored_above. rewrite Hhere. simpl.
  destruct here.
  { eexists; split; [reflexivity |]. split; [intros _ | reflexivity].
    left. apply Hspec. reflexivity. }
  destruct (1 <? L) eqn:H1; simpl.
  - assert (in_file raw (L - 1)) as HL'.
    { apply Z.ltb_lt in H1. unfold in_file in *. lia. }
    destruct (getitem_line raw (L - 1) HL') as [Hget [l Hl]].
    replace (L - 1 - 1) with (L - 2) in * by lia.
    rewrite Hget, Hl. simpl. eexists; split; [reflexivity |].
    rewrite andb_true_iff, lstrip_spec, marker_spec by assumption.
    unfold suppressed_at.
    assert (line_text raw (L - 1) = Some l) as Hline.
    { unfold line_text. destruct HL' as [HL1 _]. apply Z.leb_le in HL1.
      rewrite HL1. replace (L - 1 - 1) with (L - 2) by lia. exact Hl. }
    split.
    + intros [Hcom Hm]. right. exists l. auto.
    + intros [Habs | (l' & Hl' & Hcom & Hm)].
      * apply Hspec in Habs. discriminate.
      * rewrite Hline in Hl'. injection Hl' as <-. auto.
  - eexists; split; [reflexivity |]. split; [discriminate |].
    intros [Habs | (l' & Hl' & _)].
    + apply Hspec in Habs. discriminate.
    + apply Z.ltb_ge in H1. unfold line_text in Hl'.
      assert ((1 <=? L - 1) = false) as Hf by (apply Z.leb_gt; lia).
      rewrite Hf in Hl'. discriminate.
Qed.


Lemma ignored_in_file k raw code L :
  in_file raw L → is_Some (ignored k raw code L).
Proof.
  intros HL. destruct k; simpl.
  - destruct (ignored_above_spec "" "#" raw code L (conj eq_refl eq_refl) HL) as (b & -> & _); eauto.
  - destruct (ignored_above_spec "!--" "<" raw code L (conj eq_refl eq_refl) HL) as (b & -> & _); eauto.
  - destruct (ignored_base_spec raw code L HL) as (b & -> & _); eauto.
Qed.


(** The blanks before the comment sign are the ones of [str.lstrip]: a
    comment line that starts with a no-break space carries the marker for
    the line below it. *)
Example marker_after_no_break_space :
  suppressed_at "#" Sample.wide_marked_lines "1007" 2
  ∧ add_diagnostic_to PythonAnalyzerC Sample.wide_marked_lines
      (Some (Sample.unknown_whatever 2)) [] = Return [].
Proof.
  split; [| vm_compute; reflexivity].
  right. eexists. split; [reflexivity |]. split.
  - exists Sample.no_break_space, " IGNORE-TRYTON-LS-1007".
    split; [| reflexivity].
    exists [Sample.no_break_space]. split; [| reflexivity].
    constructor; [listed | constructor].
  - exists (Sample.no_break_space +:+ "# "), "". reflexivity.
Qed.

(** ** A logic of total steps for the analyzer monad *)

Section Steps.
Context {S : Type}.

(** [m] returns from every state, and relates the states by [T]. *)
Definition total {A} (T : S → S → Prop) (m : M S A) : Prop :=
  ∀ s, ∃ a s', m s = (Return a, s') ∧ T s s'.

Context (T : S → S → Prop) `{!PreOrder T}.

Lemma total_ret {A} (a : A) : total T (ret a).
Proof. intros s. exists a, s. split; reflexivity. Qed.

Lemma total_get : total T get.
Proof. intros s. exists s, s. split; reflexivity. Qed.

Lemma total_modify (f : S → S) : (∀ s, T s (f s)) → total T (modify f).
Proof. intros H s. exists tt, (f s). split; [reflexivity | apply H]. Qed.

Lemma total_bind {A B} (m : M S A) (k : A → M S B) :
  total T m → (∀ a, total T (k a)) → total T (bind m k).
Proof.
  intros Hm Hk s. destruct (Hm s) as (a & s1 & E1 & T1).
  destruct (Hk a s1) as (b & s2 & E2 & T2).
  exists b, s2. unfold bind. rewrite E1. split; [exact E2 | by etrans].
Qed.

Lemma total_for_each {A} (l : list A) (body : A → M S unit) :
  Forall (fun x => total T (body x)) l → total T (for_each l body).
Proof.
  induction 1; simpl; [apply total_ret | apply total_bind; auto].
Qed.

Lemma total_of_option {A} (o : option A) e :
  is_Some o → total T (of_option o e).
Proof. intros [a ->]. apply total_ret. Qed.
End Steps.

Lemma for_each_app {S A} (l1 l2 : list A) (body : A → M S unit) s :
  for_each (l1 ++ l2) body s =
  match for_each l1 body s with
  | (Return _, s') => for_each l2 body s'
  | (Raise e, s') => (Raise e, s')
  end.
Proof.
  revert s. induction l1 as [|x l1 IH]; intros s; simpl; [reflexivity |].
  unfold bind. destruct (body x s) as [[[]|e] s1]; [apply IH | reflexivity].
Qed.

Lemma total_bind_seq {S A B} (T1 T2 T3 : S → S → Prop)
    (m : M S A) (k : A → M S B) :
  (∀ s1 s2 s3, T1 s1 s2 → T2 s2 s3 → T3 s1 s3) →
  total T1 m → (∀ a, total T2 (k a)) → total T3 (bind m k).
Proof.
  intros HT Hm Hk s. destruct (Hm s) as (a & s1 & E1 & R1).
  destruct (Hk a s1) as (b & s2 & E2 & R2).
  exists b, s2. unfold bind. rewrite E1. eauto.
Qed.

Lemma total_weaken {S A} (T1 T2 : S → S → Prop) (m : M S A) :
  (∀ s s', T1 s s' → T2 s s') → total T1 m → total T2 m.
Proof.
  intros HT Hm s. destruct (Hm s) as (a & s' & E & R). eauto.
Qed.

(** [Pool.get] raises nothing but [UnknownModelException]. *)
Lemma Pool_get_exn companion pool name kind e :
  Pool_get companion pool name kind = inl e → is_KeyError e = true.
Proof.
  unfold Pool_get. case_match; [discriminate |]. intros [= <-]. reflexivity.
Qed.

Ltac pool_get_exn :=
  match goal with
  | H : Pool_get _ _ _ _ = inl ?e, H' : is_KeyError ?e = false |- _ =>
      exfalso; apply Pool_get_exn in H; congruence
  end.

(** ** The structured-data walker *)

Section XML_steps.
Variable companion : Companion.
Variable env : XmlEnv.
Variable X : string.

Definition dups (s : XmlState) : list Diagnostic :=
  List.filter (is_dup X) (x_diagnostics s).

(** A step that leaves alone the identifier [X], the duplicates reported
    for it, the open elements and the wrapper flag. *)
Definition quiet (s s' : XmlState) : Prop :=
  _fs_ids s' !! X = _fs_ids s !! X
  ∧ dups s' = dups s
  ∧ _tag_stack s' = _tag_stack s
  ∧ _found_tryton_tag s' = _found_tryton_tag s.

#[local] Instance quiet_preorder : PreOrder quiet.
Proof.
  split.
  - intros s. unfold quiet. auto.
  - intros s1 s2 s3 (A1 & A2 & A3 & A4) (B1 & B2 & B3 & B4).
    unfold quiet. repeat split; congruence.
Qed.

Lemma report_total (c : DiagnosticClass) (node : Element_) s :
  in_file (x_raw_lines env) (sourceline node) →
  ∃ b, ignored XMLAnalyzerC (x_raw_lines env) (err_code c) (sourceline node) = Some b
       ∧ XMLAnalyzer.report env c node s =
         (Return tt,
          if b then s
          else set_x_diagnostics
                 (x_diagnostics s ++
                  [{| d_class := c;
                      _position := XMLAnalyzer.get_node_position (_cur_prefix s) node |}])
                 s).
Proof.
  intros HL.
  destruct (ignored_in_file XMLAnalyzerC _ (err_code c) _ HL) as [b Hb].
  exists b. split; [exact Hb |].
  unfold XMLAnalyzer.report, XMLAnalyzer.init_from_analyzer,
    XMLAnalyzer.add_diagnostic, add_diagnostic_to, bind, get, ret.
  cbn [d_class _position start line XMLAnalyzer.get_node_position].
  rewrite Hb. destruct b; [|reflexivity].
  destruct s; reflexivity.
Qed.

Lemma report_quiet (c : DiagnosticClass) (node : Element_) :
  in_file (x_raw_lines env) (sourceline node) →
  (∀ p, is_dup X {| d_class := c; _position := p |} = false) →
  total quiet (XMLAnalyzer.report env c node).
Proof.
  intros HL Hc s. destruct (report_total c node s HL) as (b & _ & E).
  eexists tt, _. split; [exact E |].
  destruct b; [reflexivity |].
  unfold quiet, dups. cbn. rewrite List.filter_app. cbn.
  rewrite Hc, app_nil_r. auto.
Qed.

Ltac quiet_step :=
  repeat first
    [ apply quiet_preorder
    | pool_get_exn
    | apply report_quiet; [assumption | reflexivity]
    | apply total_ret
    | apply total_get
    | apply total_modify; intros ?; unfold quiet, dups; cbn; by auto
    | apply (@total_bind _ quiet quiet_preorder); [| intros ?]
    | case_match ].

Lemma data_start_quiet node :
  in_file (x_raw_lines env) (sourceline node) →
  total quiet (XMLAnalyzer._analyze_data_start companion env node).
Proof. intros HL. unfold XMLAnalyzer._analyze_data_start. quiet_step. Qed.

Lemma field_start_quiet node :
  in_file (x_raw_lines env) (sourceline node) →
  total quiet (XMLAnalyzer._analyze_field_start companion env node).
Proof. intros HL. unfold XMLAnalyzer._analyze_field_start. quiet_step. Qed.

Lemma record_end_quiet node :
  total quiet (XMLAnalyzer._analyze_record_end node).
Proof. unfold XMLAnalyzer._analyze_record_end. quiet_step. Qed.

Lemma data_end_quiet node :
  total quiet (XMLAnalyzer._analyze_data_end node).
Proof. unfold XMLAnalyzer._analyze_data_end. quiet_step. Qed.

(** What opening a [<record>] with the identifier [X] does to the
    identifier and to the duplicates reported for it. *)
Definition id_part (node : Element_) (s s' : XmlState) : Prop :=
  (∀ l0, _fs_ids s !! X = Some l0 →
     _fs_ids s' !! X = Some l0
     ∧ (ignored XMLAnalyzerC (x_raw_lines env) "5006" (sourceline node)
          = Some false →
        ∃ p, line (start p) = sourceline node
             ∧ dups s' = dups s ++
                 [{| d_class := RecordDuplicateId X (Py.str_of_Z l0);
                     _position := p |}]))
  ∧ (_fs_ids s !! X = None →
       _fs_ids s' !! X = Some (sourceline node) ∧ dups s' = dups s).

Definition records (node : Element_) (s s' : XmlState) : Prop :=
  _tag_stack s' = _tag_stack s
  ∧ _found_tryton_tag s' = _found_tryton_tag s
  ∧ id_part node s s'.

Lemma quiet_records node s1 s2 s3 :
  quiet s1 s2 → records node s2 s3 → records node s1 s3.
Proof.
  intros (A1 & A2 & A3 & A4) (B1 & B2 & B3 & B4).
  unfold records, id_part in *. rewrite <- A1, <- A2, <- A3, <- A4. auto.
Qed.

Lemma records_quiet node s1 s2 s3 :
  records node s1 s2 → quiet s2 s3 → records node s1 s3.
Proof.
  intros (A1 & A2 & A3 & A4) (B1 & B2 & B3 & B4).
  unfold records, id_part in *. rewrite B1, B2, B3, B4. auto.
Qed.

Lemma record_start_again node :
  in_file (x_raw_lines env) (sourceline node) →
  attrib node !! "id" = Some X →
  total (records node) (XMLAnalyzer._analyze_record_start companion env node).
Proof.
  intros HL Hid. unfold XMLAnalyzer._analyze_record_start.
  apply (total_bind_seq quiet (records node) (records node));
    [apply quiet_records | quiet_step | intros s0].
  apply (total_bind_seq quiet (records node) (records node));
    [apply quiet_records | quiet_step | intros _].
  apply (total_bind_seq quiet (records node) (records node));
    [apply quiet_records | quiet_step | intros _].
  apply (total_bind_seq (records node) quiet (records node));
    [apply records_quiet | | intros _; quiet_step].
  rewrite Hid. intros s. unfold bind, get.
  destruct (_fs_ids s !! X) as [l0|] eqn:Hfs.
  - destruct (report_total (RecordDuplicateId X (Py.str_of_Z l0)) node s HL)
      as (b & Hb & E).
    eexists tt, _. split; [exact E |].
    unfold records, id_part. destruct b; cbn.
    + split; [reflexivity |]. split; [reflexivity |]. split; [| congruence].
      intros l1 Hl1. split; [congruence |].
      intros Habs. cbn in Hb. congruence.
    + split; [reflexivity |]. split; [reflexivity |]. split; [| congruence].
      intros l1 Hl1. split; [congruence |]. intros _.
      exists (XMLAnalyzer.get_node_position (_cur_prefix s) node).
      split; [reflexivity |].
      unfold dups. cbn. rewrite List.filter_app. cbn.
      rewrite String.eqb_refl. repeat f_equal. congruence.
  - eexists tt, _. split; [reflexivity |].
    unfold records, id_part, dups. cbn.
    split; [reflexivity |]. split; [reflexivity |]. split; [congruence |].
    intros _. split; [apply lookup_insert_eq | reflexivity].
Qed.

Lemma record_start_other node :
  in_file (x_raw_lines env) (sourceline node) →
  attrib node !! "id" ≠ Some X →
  total quiet (XMLAnalyzer._analyze_record_start companion env node).
Proof.
  intros HL Hid. unfold XMLAnalyzer._analyze_record_start.
  apply (@total_bind _ quiet quiet_preorder); [quiet_step | intros s0].
  apply (@total_bind _ quiet quiet_preorder); [quiet_step | intros _].
  apply (@total_bind _ quiet quiet_preorder); [quiet_step | intros _].
  apply (@total_bind _ quiet quiet_preorder); [| intros _; quiet_step].
  destruct (attrib node !! "id") as [Y|] eqn:HY; [| quiet_step].
  assert (Y ≠ X) as Hne by congruence.
  apply (@total_bind _ quiet quiet_preorder); [quiet_step | intros s1].
  destruct (_fs_ids s1 !! Y).
  - apply report_quiet; [assumption |]. intros p. unfold is_dup. cbn.
    apply String.eqb_neq. exact Hne.
  - apply total_modify. intros s. unfold quiet, dups. cbn.
    rewrite lookup_insert_ne by exact Hne. auto.
Qed.

(** The effect of one event on the identifier [X], on the depth and on
    the wrapper flag. *)
Definition ev_rel (ev : action * Element_) (s s' : XmlState) : Prop :=
  length (_tag_stack s') = depth_after (length (_tag_stack s)) [ev]
  ∧ _found_tryton_tag s' = _found_tryton_tag s || opens_tryton ev
  ∧ (if opens_record X ev then id_part ev.2 s s'
     else _fs_ids s' !! X = _fs_ids s !! X ∧ dups s' = dups s).

Lemma start_handler_total el s1 :
  in_file (x_raw_lines env) (sourceline el) →
  ∃ s',
    match XMLAnalyzer.start_handler companion env (tag el) with
    | None => ret tt
    | Some analyze_func => analyze_func el
    end s1 = (Return tt, s')
    ∧ _tag_stack s' = _tag_stack s1
    ∧ _found_tryton_tag s' = _found_tryton_tag s1 || String.eqb (tag el) "tryton"
    ∧ (if opens_record X (start_event, el) then id_part el s1 s'
       else _fs_ids s' !! X = _fs_ids s1 !! X ∧ dups s' = dups s1).
Proof.
  intros HL. unfold XMLAnalyzer.start_handler, opens_record. cbn [fst snd].
  destruct (String.eqb (tag el) "tryton") eqn:Et.
  { assert ((tag el =? "record")%string = false) as ->.
    { apply String.eqb_eq in Et. rewrite Et. reflexivity. }
    cbn [andb]. eexists. split; [reflexivity |]. cbn. rewrite orb_true_r. auto. }
  destruct (String.eqb (tag el) "data") eqn:Ed.
  { assert ((tag el =? "record")%string = false) as ->.
    { apply String.eqb_eq in Ed. rewrite Ed. reflexivity. }
    cbn [andb].
    destruct (data_start_quiet el HL s1) as ([] & s' & E & Q1 & Q2 & Q3 & Q4).
    exists s'. rewrite orb_false_r. auto. }
  destruct (String.eqb (tag el) "record") eqn:Er.
  { cbn [andb].
    destruct (bool_decide_reflect (attrib el !! "id" = Some X)) as [Hid|Hid].
    - destruct (record_start_again el HL Hid s1) as ([] & s' & E & R1 & R2 & R3).
      exists s'. rewrite orb_false_r. auto.
    - destruct (record_start_other el HL Hid s1) as ([] & s' & E & Q1 & Q2 & Q3 & Q4).
      exists s'. rewrite orb_false_r. auto. }
  destruct (String.eqb (tag el) "field") eqn:Ef.
  { cbn [andb]. destruct (field_start_quiet el HL s1) as ([] & s' & E & Q1 & Q2 & Q3 & Q4).
    exists s'. rewrite orb_false_r. auto. }
  cbn [andb]. exists s1. rewrite orb_false_r. auto.
Qed.

Lemma end_handler_total el :
  total quiet
    match XMLAnalyzer.end_handler (tag el) with
    | Some analyze_func => analyze_func el
    | None => ret tt
    end.
Proof.
  unfold XMLAnalyzer.end_handler.
  repeat case_match; simplify_eq;
    auto using record_end_quiet, data_end_quiet.
  apply total_ret. apply quiet_preorder.
Qed.

Lemma on_event_step ev s :
  in_file (x_raw_lines env) (sourceline ev.2) →
  (ev.1 = end_event → _tag_stack s ≠ []) →
  ∃ s', XMLAnalyzer.on_event companion env ev s = (Return tt, s')
        ∧ ev_rel ev s s'.
Proof.
  intros HL Hst. destruct ev as [[| |] el]; cbn [fst snd] in *.
  - unfold XMLAnalyzer.on_event. cbn [fst snd].
    unfold XMLAnalyzer.analyze_node_start.
    unfold bind at 1. cbn [modify].
    set (s0 := set_tag_stack (_tag_stack s ++ [el]) s).
    assert (∃ s1,
      (match text el with
       | Some t =>
           if Py.startswith t XMLAnalyzer.newline_char
           then modify (set_cur_prefix (Py.len t - 1))
           else ret tt
       | None => ret tt
       end) s0 = (Return tt, s1)
      ∧ _fs_ids s1 = _fs_ids s ∧ x_diagnostics s1 = x_diagnostics s
      ∧ _tag_stack s1 = _tag_stack s ++ [el]
      ∧ _found_tryton_tag s1 = _found_tryton_tag s) as (s1 & E1 & F1 & F2 & F3 & F4).
    { repeat case_match; eexists; (split; [reflexivity |]); cbn; auto. }
    unfold bind. rewrite E1.
    destruct (start_handler_total el s1 HL) as (s' & E & G1 & G2 & G3).
    exists s'. split; [exact E |].
    unfold ev_rel. cbn [depth_after fst snd opens_tryton].
    rewrite G1, G2, F3, F4, length_app. cbn [length].
    split; [lia |]. split; [reflexivity |].
    unfold id_part, dups in *. rewrite F1, F2 in G3. exact G3.
  - unfold XMLAnalyzer.on_event. cbn [fst snd]. exists s.
    split; [reflexivity |]. unfold ev_rel. cbn. rewrite orb_false_r. auto.
  - unfold XMLAnalyzer.on_event. cbn [fst snd].
    unfold XMLAnalyzer.analyze_node_end.
    destruct (end_handler_total el s) as ([] & s1 & E1 & Q1 & Q2 & Q3 & Q4).
    unfold bind at 1. rewrite E1. unfold bind, get.
    destruct (_tag_stack s1) as [|e st] eqn:Est.
    { exfalso. apply Hst; [reflexivity | congruence]. }
    eexists. split; [reflexivity |].
    unfold ev_rel, dups in *. cbn -[removelast].
    rewrite orb_false_r, <- Q3.
    split; [| auto].
    rewrite removelast_firstn_len, length_firstn. lia.
Qed.

Lemma well_nested_app d l1 l2 :
  well_nested d (l1 ++ l2) ↔ well_nested d l1 ∧ well_nested (depth_after d l1) l2.
Proof.
  revert d. induction l1 as [|[[| |] el] l1 IH]; intros d; cbn.
  - tauto.
  - apply IH.
  - apply IH.
  - destruct d; [tauto | apply IH].
Qed.

Lemma depth_after_app d l1 l2 :
  depth_after d (l1 ++ l2) = depth_after (depth_after d l1) l2.
Proof.
  revert d. induction l1 as [|[[| |] el] l1 IH]; intros d; cbn; auto.
Qed.

(** A run of events none of which opens a [<record>] with the
    identifier [X]. *)
Lemma events_quiet events : ∀ s,
  Forall (fun ev => in_file (x_raw_lines env) (sourceline ev.2)) events →
  well_nested (length (_tag_stack s)) events →
  Forall (fun ev => opens_record X ev = false) events →
  ∃ s', for_each events (XMLAnalyzer.on_event companion env) s = (Return tt, s')
        ∧ _fs_ids s' !! X = _fs_ids s !! X
        ∧ dups s' = dups s
        ∧ length (_tag_stack s') = depth_after (length (_tag_stack s)) events
        ∧ _found_tryton_tag s' = _found_tryton_tag s || existsb opens_tryton events.
Proof.
  induction events as [|ev events IH]; intros s Hin Hwn Hno.
  - exists s. cbn. rewrite orb_false_r. auto.
  - inversion Hin as [|? ? Hin1 Hin2]; subst.
    inversion Hno as [|? ? Hno1 Hno2]; subst.
    destruct (on_event_step ev s Hin1) as (s1 & E1 & D1 & F1 & I1).
    { intros Hend Hnil. destruct ev as [a el]. cbn in Hend. subst a.
      rewrite Hnil in Hwn. exact Hwn. }
    rewrite Hno1 in I1. destruct I1 as [I1 I2].
    destruct (IH s1 Hin2) as (s' & E & A1 & A2 & A3 & A4); [| exact Hno2 |].
    { rewrite D1. destruct ev as [[| |] el]; cbn in *; auto.
      destruct (length (_tag_stack s)); [contradiction | exact Hwn]. }
    exists s'. cbn [for_each]. unfold bind. rewrite E1.
    split; [exact E |]. rewrite A1, A2, A3, A4, I1, I2, D1, F1.
    split; [reflexivity |]. split; [reflexivity |].
    split; [| cbn [existsb]; rewrite orb_assoc; reflexivity].
    destruct ev as [[| |] el]; reflexivity.
Qed.

(** The first, then a second [<record>] with the identifier [X]. *)
Lemma duplicate_reported pre mid post r1 r2 s :
  let events :=
    pre ++ [(start_event, r1)] ++ mid ++ [(start_event, r2)] ++ post in
  Forall (fun ev => in_file (x_raw_lines env) (sourceline ev.2)) events →
  well_nested (length (_tag_stack s)) events →
  Forall (fun ev => opens_record X ev = false) (pre ++ mid ++ post) →
  opens_record X (start_event, r1) = true →
  opens_record X (start_event, r2) = true →
  _fs_ids s !! X = None →
  ignored XMLAnalyzerC (x_raw_lines env) "5006" (sourceline r2) = Some false →
  ∃ s' p,
    for_each events (XMLAnalyzer.on_event companion env) s = (Return tt, s')
    ∧ line (start p) = sourceline r2
    ∧ dups s' = dups s ++
        [{| d_class := RecordDuplicateId X (Py.str_of_Z (sourceline r1));
            _position := p |}].
Proof.
  intros events Hin Hwn Hno H1 H2 Hfresh Hign. subst events.
  apply Forall_app in Hin as [Hin_pre Hin].
  apply Forall_app in Hin as [Hin_r1 Hin].
  apply Forall_app in Hin as [Hin_mid Hin].
  apply Forall_app in Hin as [Hin_r2 Hin_post].
  apply Forall_app in Hno as [Hno_pre Hno].
  apply Forall_app in Hno as [Hno_mid Hno_post].
  apply well_nested_app in Hwn as [Hwn_pre Hwn].
  apply well_nested_app in Hwn as [Hwn_r1 Hwn].
  apply well_nested_app in Hwn as [Hwn_mid Hwn].
  apply well_nested_app in Hwn as [Hwn_r2 Hwn_post].
  inversion Hin_r1 as [|? ? Hin1 _]; subst.
  inversion Hin_r2 as [|? ? Hin2 _]; subst.
  destruct (events_quiet pre s Hin_pre Hwn_pre Hno_pre)
    as (sa & Ea & Fa & Da & La & _).
  destruct (on_event_step (start_event, r1) sa Hin1) as (sb & Eb & Lb & _ & Ib);
    [discriminate |].
  rewrite H1 in Ib. destruct Ib as [_ Ib].
  destruct Ib as [Fb Db]; [congruence |].
  destruct (events_quiet mid sb Hin_mid) as (sc & Ec & Fc & Dc & Lc & _);
    [| exact Hno_mid |].
  { rewrite Lb, La. exact Hwn_mid. }
  destruct (on_event_step (start_event, r2) sc Hin2) as (sd & Ed & Ld & _ & Id);
    [discriminate |].
  rewrite H2 in Id. destruct Id as [Id _].
  cbn [snd] in *.
  destruct (Id (sourceline r1)) as [Fd Dd]; [congruence |].
  destruct (Dd Hign) as (p & Hp & Dd').
  destruct (events_quiet post sd Hin_post) as (se & Ee & Fe & De & Le & _);
    [| exact Hno_post |].
  { rewrite Ld, Lc, Lb, La. exact Hwn_post. }
  cbn [snd] in *.
  exists se, p. split; [| split; [exact Hp | congruence]].
  rewrite for_each_app, Ea. cbv beta iota.
  change ([(start_event, r1)] ++ mid ++ [(start_event, r2)] ++ post)
    with ((start_event, r1) :: mid ++ (start_event, r2) :: post).
  cbn [for_each]. unfold bind at 1. rewrite Eb. cbv beta iota.
  rewrite for_each_app, Ec. cbv beta iota.
  cbn [for_each]. unfold bind at 1. rewrite Ed. exact Ee.
Qed.
End XML_steps.

Section XML_missing.
Variable companion : Companion.
Variable env : XmlEnv.

(** A step that appends diagnostics, of which [L] are the
    [RecordMissingAttribute] ones, and keeps the indentation. *)
Definition emits (L : Z → list Diagnostic) (s s' : XmlState) : Prop :=
  ∃ new, x_diagnostics s' = x_diagnostics s ++ new
         ∧ List.filter is_missing new = L (_cur_prefix s)
         ∧ _cur_prefix s' = _cur_prefix s.

Definition calm : XmlState → XmlState → Prop := emits (fun _ => []).

Lemma emits_seq L1 L2 s1 s2 s3 :
  emits L1 s1 s2 → emits L2 s2 s3 → emits (fun p => L1 p ++ L2 p) s1 s3.
Proof.
  intros (n1 & D1 & F1 & P1) (n2 & D2 & F2 & P2).
  exists (n1 ++ n2). rewrite D2, D1, app_assoc, List.filter_app, F1, F2, P1, P2.
  auto.
Qed.

#[local] Instance calm_preorder : PreOrder calm.
Proof.
  split.
  - intros s. exists []. rewrite app_nil_r. auto.
  - intros s1 s2 s3 H1 H2. apply (emits_seq _ _ _ _ _ H1 H2).
Qed.

Lemma report_calm c node :
  in_file (x_raw_lines env) (sourceline node) →
  (∀ p, is_missing {| d_class := c; _position := p |} = false) →
  total calm (XMLAnalyzer.report env c node).
Proof.
  intros HL Hc s. destruct (report_total env c node s HL) as (b & _ & E).
  eexists tt, _. split; [exact E |].
  destruct b; [reflexivity |].
  eexists. cbn. split; [reflexivity |]. cbn. rewrite Hc. auto.
Qed.

Lemma report_missing a node :
  in_file (x_raw_lines env) (sourceline node) →
  ignored XMLAnalyzerC (x_raw_lines env) "5003" (sourceline node) = Some false →
  total (emits (fun p =>
           [{| d_class := RecordMissingAttribute a;
               _position := XMLAnalyzer.get_node_position p node |}]))
    (XMLAnalyzer.report env (RecordMissingAttribute a) node).
Proof.
  intros HL Hign s.
  destruct (report_total env (RecordMissingAttribute a) node s HL) as (b & Hb & E).
  change (err_code (RecordMissingAttribute a)) with "5003" in Hb.
  rewrite Hign in Hb. injection Hb as <-.
  eexists tt, _. split; [exact E |].
  eexists. cbn. split; [reflexivity |]. cbn. auto.
Qed.

Ltac calm_step :=
  repeat first
    [ apply calm_preorder
    | pool_get_exn
    | apply report_calm; [assumption | reflexivity]
    | apply total_ret
    | apply total_get
    | apply total_modify; intros ?; exists []; cbn; rewrite app_nil_r; by auto
    | apply (@total_bind _ calm calm_preorder); [| intros ?]
    | case_match ].

Lemma record_start_missing node :
  in_file (x_raw_lines env) (sourceline node) →
  ignored XMLAnalyzerC (x_raw_lines env) "5003" (sourceline node) = Some false →
  total (emits (fun p =>
           missing_attributes node (XMLAnalyzer.get_node_position p node)))
    (XMLAnalyzer._analyze_record_start companion env node).
Proof.
  intros HL Hign. unfold XMLAnalyzer._analyze_record_start.
  eapply total_weaken; cycle 1.
  - eapply (total_bind_seq (emits (fun _ => [])) (emits _) (emits _));
      [apply emits_seq | change (total calm get); calm_step | intros s0].
    eapply (total_bind_seq (emits (fun _ => [])) (emits _) (emits _));
      [apply emits_seq | fold calm; calm_step | intros _].
    eapply (total_bind_seq
             (emits (fun p =>
                match attrib node !! "model" with
                | Some _ => []
                | None =>
                    [{| d_class := RecordMissingAttribute "model";
                        _position := XMLAnalyzer.get_node_position p node |}]
                end))
             (emits _) (emits _)); [apply emits_seq | | intros _].
    { destruct (attrib node !! "model"); [fold calm; calm_step |].
      apply report_missing; assumption. }
    eapply (total_bind_seq
             (emits (fun p =>
                match attrib node !! "id" with
                | Some _ => []
                | None =>
                    [{| d_class := RecordMissingAttribute "id";
                        _position := XMLAnalyzer.get_node_position p node |}]
                end))
             (emits (fun _ => [])) (emits _)); [apply emits_seq | | intros _].
    { destruct (attrib node !! "id"); [fold calm; calm_step |].
      apply report_missing; assumption. }
    fold calm. calm_step.
  - intros s s' (new & D & F & P). exists new.
    split; [exact D |]. split; [| exact P].
    rewrite F. cbn. rewrite app_nil_r. reflexivity.
Qed.
End XML_missing.

Section XML_pass.
Variable companion : Companion.
Variable env : XmlEnv.

(** Depth and wrapper flag after any well-formed run of events. *)
Lemma events_total events : ∀ s,
  Forall (fun ev => in_file (x_raw_lines env) (sourceline ev.2)) events →
  well_nested (length (_tag_stack s)) events →
  ∃ s', for_each events (XMLAnalyzer.on_event companion env) s = (Return tt, s')
        ∧ length (_tag_stack s') = depth_after (length (_tag_stack s)) events
        ∧ _found_tryton_tag s' = _found_tryton_tag s || existsb opens_tryton events.
Proof.
  induction events as [|ev events IH]; intros s Hin Hwn.
  - exists s. cbn. rewrite orb_false_r. auto.
  - inversion Hin as [|? ? Hin1 Hin2]; subst.
    destruct (on_event_step companion env "" ev s Hin1) as (s1 & E1 & D1 & F1 & _).
    { intros Hend Hnil. destruct ev as [a el]. cbn in Hend. subst a.
      rewrite Hnil in Hwn. exact Hwn. }
    destruct (IH s1 Hin2) as (s' & E & A1 & A2).
    { rewrite D1. destruct ev as [[| |] el]; cbn in *; auto.
      destruct (length (_tag_stack s)); [contradiction | exact Hwn]. }
    exists s'. cbn [for_each]. unfold bind. rewrite E1.
    split; [exact E |]. rewrite A1, A2, D1, F1.
    split; [| cbn [existsb]; rewrite orb_assoc; reflexivity].
    destruct ev as [[| |] el]; reflexivity.
Qed.

(** [analyze] is the walk followed by the wrapper check. *)
Lemma analyze_unfold events s :
  for_each events (XMLAnalyzer.on_event companion env) xml_initial_state
    = (Return tt, s) →
  XMLAnalyzer.analyze companion env events
  = Return (x_diagnostics s
            ++ wrapper_mismatch (XMLAnalyzer.check_is_tryton_xml_file env)
                 (_found_tryton_tag s)).
Proof.
  intros E. unfold XMLAnalyzer.analyze, wrapper_mismatch. rewrite E.
  destruct (XMLAnalyzer.check_is_tryton_xml_file env),
    (_found_tryton_tag s); cbn; rewrite ?app_nil_r; reflexivity.
Qed.
End XML_pass.

(** C7. In a pass over a data file in which exactly two [<record>]
    elements carry the identifier [X], exactly one [RecordDuplicateId] is
    reported for [X]: it is positioned on the line of the second record
    and cites the line of the first.  And a [<record>] yields one
    [RecordMissingAttribute] for each of [model] and [id] that it lacks,
    at its own position.  (Every element is on a line of the file, the
    events are well nested, and no marker suppresses the code on the line
    concerned.) *)
Theorem C7_record_identifiers (companion : Companion) (env : XmlEnv) :
  (∀ X pre mid post r1 r2,
     let events :=
       pre ++ [(start_event, r1)] ++ mid ++ [(start_event, r2)] ++ post in
     Forall (fun ev => in_file (x_raw_lines env) (sourceline ev.2)) events →
     well_nested 0 events →
     tag r1 = "record" → attrib r1 !! "id" = Some X →
     tag r2 = "record" → attrib r2 !! "id" = Some X →
     Forall (fun ev => opens_record X ev = false) (pre ++ mid ++ post) →
     ignored XMLAnalyzerC (x_raw_lines env) "5006" (sourceline r2) = Some false →
     ∃ ds p,
       XMLAnalyzer.analyze companion env events = Return ds
       ∧ line (start p) = sourceline r2
       ∧ List.filter (is_dup X) ds =
           [{| d_class := RecordDuplicateId X (Py.str_of_Z (sourceline r1));
               _position := p |}])
  ∧ (∀ node s,
       in_file (x_raw_lines env) (sourceline node) →
       ignored XMLAnalyzerC (x_raw_lines env) "5003" (sourceline node) = Some false →
       ∃ s' new,
         XMLAnalyzer._analyze_record_start companion env node s = (Return tt, s')
         ∧ x_diagnostics s' = x_diagnostics s ++ new
         ∧ List.filter is_missing new =
             missing_attributes node
               (XMLAnalyzer.get_node_position (_cur_prefix s) node)).
Proof.
  split.
  - intros X pre mid post r1 r2 events Hin Hwn Ht1 Hi1 Ht2 Hi2 Hno Hign.
    assert (∀ r, tag r = "record" → attrib r !! "id" = Some X →
                 opens_record X (start_event, r) = true) as Hopen.
    { intros r Ht Hi. unfold opens_record. cbn [fst snd].
      rewrite Ht, bool_decide_eq_true_2 by exact Hi. reflexivity. }
    destruct (duplicate_reported companion env X pre mid post r1 r2
                xml_initial_state Hin Hwn Hno (Hopen _ Ht1 Hi1) (Hopen _ Ht2 Hi2)
                (lookup_empty _) Hign) as (s' & p & E & Hp & D).
    exists (x_diagnostics s'
            ++ wrapper_mismatch (XMLAnalyzer.check_is_tryton_xml_file env)
                 (_found_tryton_tag s')), p.
    split; [apply analyze_unfold; exact E |]. split; [exact Hp |].
    rewrite List.filter_app. unfold dups in D. cbn in D. rewrite D.
    unfold wrapper_mismatch.
    destruct (XMLAnalyzer.check_is_tryton_xml_file env), (_found_tryton_tag s');
      reflexivity.
  - intros node s HL Hign.
    destruct (record_start_missing companion env node HL Hign s)
      as ([] & s' & E & new & D & F & _).
    exists s', new. auto.
Qed.

Lemma C7_witness :
  (∃ ds p,
     XMLAnalyzer.analyze Sample.companion (Sample.data_env true)
       (Sample.data_pre ++ [(start_event, Sample.r1)] ++ Sample.data_mid
        ++ [(start_event, Sample.r2)] ++ Sample.data_post) = Return ds
     ∧ line (start p) = 4
     ∧ List.filter (is_dup "X") ds =
         [{| d_class := RecordDuplicateId "X" "3"; _position := p |}])
  ∧ (∃ s' new,
       XMLAnalyzer._analyze_record_start Sample.companion (Sample.data_env true)
         Sample.r3 xml_initial_state = (Return tt, s')
       ∧ x_diagnostics s' = [] ++ new
       ∧ List.filter is_missing new =
           [{| d_class := RecordMissingAttribute "id";
               _position :=
                 {| start := {| line := 5; column := 0 |};
                    end_ := {| line := 5; column := 99 |} |} |}]).
Proof.
  split.
  - apply (proj1 (C7_record_identifiers Sample.companion (Sample.data_env true))
             "X" Sample.data_pre Sample.data_mid Sample.data_post
             Sample.r1 Sample.r2).
    + repeat (constructor; [unfold in_file; cbn; lia |]). constructor.
    + cbn. exact I.
    + reflexivity.
    + reflexivity.
    + reflexivity.
    + reflexivity.
    + repeat (constructor; [vm_compute; reflexivity |]). constructor.
    + vm_compute. reflexivity.
  - apply (proj2 (C7_record_identifiers Sample.companion (Sample.data_env true))
             Sample.r3 xml_initial_state).
    + unfold in_file. cbn. lia.
    + vm_compute. reflexivity.
Defined.

(** C10. The two wrapper diagnostics of the structured-data walker are
    decided by the manifest and by the presence of a [<tryton>] element
    alone: whatever the lines of the file hold, the result of [analyze]
    ends with them.  A diagnostic routed through [add_diagnostic], on the
    contrary, is dropped as soon as [ignored] answers for its code and
    line. *)
Theorem C10_wrapper_diagnostics_bypass_markers
    (companion : Companion) (env : XmlEnv) (events : list (action * Element_)) :
  Forall (fun ev => in_file (x_raw_lines env) (sourceline ev.2)) events →
  well_nested 0 events →
  (∃ walked,
     XMLAnalyzer.analyze companion env events
     = Return (walked
               ++ wrapper_mismatch (XMLAnalyzer.check_is_tryton_xml_file env)
                    (existsb opens_tryton events)))
  ∧ (∀ (d : Diagnostic) (recorded : list Diagnostic),
       ignored XMLAnalyzerC (x_raw_lines env) (err_code (d_class d))
         (line (start (_position d))) = Some true →
       add_diagnostic_to XMLAnalyzerC (x_raw_lines env) (Some d) recorded
       = Return recorded).
Proof.
  intros Hin Hwn. split.
  - destruct (events_total companion env events xml_initial_state Hin Hwn)
      as (s & E & _ & F).
    exists (x_diagnostics s). rewrite (analyze_unfold _ _ _ _ E), F. reflexivity.
  - intros d recorded H. unfold add_diagnostic_to. rewrite H. reflexivity.
Qed.

Lemma C10_witness :
  ignored XMLAnalyzerC (x_raw_lines (Sample.data_env true)) "5000" 1 = Some true
  ∧ (∃ walked,
       XMLAnalyzer.analyze Sample.companion (Sample.data_env true)
         Sample.bare_events
       = Return (walked ++ [{| d_class := TrytonTagNotFound;
                               _position := first_line_range |}])).
Proof.
  split; [vm_compute; reflexivity |].
  apply (C10_wrapper_diagnostics_bypass_markers Sample.companion
           (Sample.data_env true) Sample.bare_events).
  - repeat (constructor; [unfold in_file; cbn; lia |]). constructor.
  - cbn. exact I.
Defined.


(** ** Completions *)

Lemma pair_from_fst {A B} (p : A * B) (a : A) : p.1 = a → p = (a, p.2).
Proof. destruct p. cbn. congruence. Qed.

Lemma insert_by_field x l :
  is_field x = true →
  Py_sort.insert_by completion_sort_key x l = x :: l.
Proof.
  intros Hx. destruct l as [|y l]; [reflexivity |]. cbn.
  unfold completion_sort_key, is_field in *.
  destruct (kind x); [| discriminate]. destruct (kind y); reflexivity.
Qed.

Lemma insert_by_method x fs ms :
  is_field x = false →
  Forall (fun i => is_field i = true) fs →
  Forall (fun i => is_field i = false) ms →
  Py_sort.insert_by completion_sort_key x (fs ++ ms) = fs ++ x :: ms.
Proof.
  intros Hx Hfs Hms. induction Hfs as [|y fs Hy Hfs IH]; cbn.
  - destruct Hms as [|y ms Hy Hms]; [reflexivity |]. cbn.
    unfold completion_sort_key, is_field in *.
    destruct (kind x); [discriminate |]. destruct (kind y); [discriminate | reflexivity].
  - unfold completion_sort_key, is_field in *.
    destruct (kind x); [discriminate |]. destruct (kind y); [| discriminate].
    cbn. f_equal. exact IH.
Qed.

(** The sort of [generate_completions] puts the fields first and keeps
    the order of the listing among the fields and among the methods. *)
Lemma sort_by_kind l :
  Py_sort.sort_by completion_sort_key l
  = List.filter is_field l ++ List.filter (fun i => negb (is_field i)) l.
Proof.
  induction l as [|x l IH]; [reflexivity |]. cbn [Py_sort.sort_by List.filter].
  rewrite IH. destruct (is_field x) eqn:Hx; cbn [negb].
  - apply insert_by_field. exact Hx.
  - apply insert_by_method; [exact Hx | |].
    + apply Forall_forall. intros i Hi. apply list_elem_of_In, List.filter_In in Hi. tauto.
    + apply Forall_forall. intros i Hi. apply list_elem_of_In, List.filter_In in Hi.
      apply negb_true_iff. tauto.
Qed.

Lemma filter_partition {A} (f : A → bool) (l : list A) :
  List.filter f l ++ List.filter (fun x => negb (f x)) l ≡ₚ l.
Proof.
  induction l as [|x l IH]; [reflexivity |]. cbn.
  destruct (f x); cbn.
  - by rewrite IH.
  - rewrite <- Permutation_middle. by rewrite IH.
Qed.

Lemma completion_item_label key info i :
  completion_item key info = inr (Some i) → label i = key.
Proof.
  unfold completion_item. repeat case_match; intros [= <-]; reflexivity.
Qed.

Lemma str_keys_all keys :
  Forall is_Some keys → ∃ l, str_keys keys = Some l.
Proof.
  induction 1 as [|key keys [k ->] _ [l IH]]; cbn; [eauto |].
  rewrite IH. cbn. eauto.
Qed.

Lemma str_keys_other keys : None ∈ keys → str_keys keys = None.
Proof.
  induction keys as [|[k|] keys IH]; intros Hin; cbn.
  - by apply elem_of_nil in Hin.
  - apply elem_of_cons in Hin as [? | Hin]; [discriminate |].
    by rewrite (IH Hin).
  - reflexivity.
Qed.

Lemma field_documentation_str info :
  Forall is_Some (ci_selection info) → ∃ d, field_documentation info = inr d.
Proof.
  intros Hsel. unfold field_documentation.
  destruct (ci_selection info) as [|key keys]; [eauto |].
  destruct (str_keys_all _ Hsel) as [l ->]. eauto.
Qed.

Lemma field_documentation_other info :
  None ∈ ci_selection info → field_documentation info = inl TypeError.
Proof.
  intros Hin. unfold field_documentation.
  destruct (ci_selection info) as [|key keys]; [by apply elem_of_nil in Hin |].
  by rewrite (str_keys_other _ Hin).
Qed.

(** The only error of the loop is the one of the join. *)
Lemma completion_item_error key info e :
  completion_item key info = inl e → e = TypeError.
Proof.
  unfold completion_item, field_documentation.
  repeat case_match; intros [= <-]; simplify_eq; reflexivity.
Qed.

Lemma completion_items_labels listing :
  Forall (fun e => known_type e.2) listing →
  Forall (fun e => str_selection e.2) listing →
  ∃ items, completion_items listing = inr items
           ∧ map label items = map fst listing.
Proof.
  induction 1 as [|[key info] listing Hk _ IH]; intros Hsel.
  - exists []. split; reflexivity.
  - apply Forall_cons in Hsel as [Hstr Hsel].
    destruct (IH Hsel) as (items & Hitems & Hlabels).
    cbn in Hk, Hstr.
    assert (∃ i, completion_item key info = inr (Some i)) as [i Hi].
    { unfold completion_item. destruct Hk as [Ht | [Ht | Ht]].
      - destruct (field_documentation_str info (Hstr Ht)) as [d ->].
        rewrite Ht. cbn. eauto.
      - rewrite Ht. cbn. eauto.
      - rewrite Ht. cbn. eauto. }
    exists (i :: items). cbn [completion_items]. rewrite Hi, Hitems.
    split; [reflexivity |]. cbn. rewrite Hlabels.
    f_equal. eapply completion_item_label. exact Hi.
Qed.

Lemma completion_items_raise listing key info :
  (key, info) ∈ listing →
  ci_type info = "field" →
  None ∈ ci_selection info →
  completion_items listing = inl TypeError.
Proof.
  intros Hin Ht Hsel. induction listing as [|[k i] listing IH].
  - by apply elem_of_nil in Hin.
  - cbn [completion_items]. apply elem_of_cons in Hin as [Heq | Hin].
    + simplify_eq. unfold completion_item.
      rewrite Ht, (field_documentation_other _ Hsel). reflexivity.
    + destruct (completion_item k i) as [e|item] eqn:Hi.
      * by rewrite (completion_item_error _ _ _ Hi).
      * by rewrite (IH Hin).
Qed.

(** C8 (the code departs from the claim on a selection whose key is not a
    [str]). When the completion walk captured a model at the attribute
    access under the cursor and every key of the selections of its fields
    is a [str], the completion list holds the members of the model's
    completion listing, each once, all the field-kind items before all
    the method-kind items; when the listing has a field with a selection
    key that is not a [str], as [(None, '')], the request raises
    [TypeError] instead of returning a list; when the walk captured no
    model, the list is empty. *)
Theorem C8_completions_fields_then_methods
    (companion : Companion) (env : Env) (parsed : list module_item) :
  (∀ model,
     captured companion env parsed model →
     Forall (fun e => known_type e.2) (get_completions companion model) →
     Forall (fun e => str_selection e.2) (get_completions companion model) →
     NoDup (map fst (get_completions companion model)) →
     ∃ field_items method_items,
       _get_completions companion env parsed = Return (field_items ++ method_items)
       ∧ Forall (fun i => kind i = Field) field_items
       ∧ Forall (fun i => kind i = Method) method_items
       ∧ map label (field_items ++ method_items)
           ≡ₚ map fst (get_completions companion model)
       ∧ NoDup (map label (field_items ++ method_items)))
  ∧ (∀ model key info,
       captured companion env parsed model →
       (key, info) ∈ get_completions companion model →
       ci_type info = "field" →
       None ∈ ci_selection info →
       _get_completions companion env parsed = Raise TypeError)
  ∧ ((∀ model, ¬ captured companion env parsed model) →
     ∀ items, _get_completions companion env parsed = Return items → items = []).
Proof.
  split; [| split].
  - intros model (s & E & Ht) Hknown Hstr Hnodup.
    destruct (completion_items_labels _ Hknown Hstr) as (items & Hitems & Hlabels).
    exists (List.filter is_field items),
      (List.filter (fun i => negb (is_field i)) items).
    assert (map label
              (List.filter is_field items
               ++ List.filter (fun i => negb (is_field i)) items)
            ≡ₚ map fst (get_completions companion model)) as Hperm.
    { rewrite filter_partition. by rewrite Hlabels. }
    split; [| split; [| split; [| split]]].
    + unfold _get_completions. rewrite E, Ht.
      unfold generate_completions. rewrite Hitems. by rewrite sort_by_kind.
    + apply Forall_forall. intros i Hi. apply list_elem_of_In, List.filter_In in Hi as [_ Hi].
      unfold is_field in Hi. destruct (kind i); [reflexivity | discriminate].
    + apply Forall_forall. intros i Hi. apply list_elem_of_In, List.filter_In in Hi as [_ Hi].
      unfold is_field in Hi. destruct (kind i); [discriminate | reflexivity].
    + exact Hperm.
    + by rewrite Hperm.
  - intros model key info (s & E & Ht) Hin Hfield Hsel.
    unfold _get_completions. rewrite E, Ht.
    unfold generate_completions.
    by rewrite (completion_items_raise _ _ _ Hin Hfield Hsel).
  - intros Hnone items. unfold _get_completions.
    destruct (analyze companion env parsed) as [[[]|e] s] eqn:E.
    + intros [= <-]. reflexivity.
    + destruct e; try discriminate.
      destruct (_target_model s) as [model|] eqn:Ht.
      * exfalso. apply (Hnone model). exists s. auto.
      * intros [= <-]. reflexivity.
Qed.

Lemma C8_witness :
  (∃ field_items method_items,
     _get_completions Sample.companion
       (Sample.source_env "author" (Some (4, 24))) (Sample.source "author")
     = Return (field_items ++ method_items)
     ∧ Forall (fun i => kind i = Field) field_items
     ∧ Forall (fun i => kind i = Method) method_items
     ∧ map label (field_items ++ method_items)
         ≡ₚ ["author"; "create"; "name"; "test_depends"]
     ∧ NoDup (map label (field_items ++ method_items)))
  ∧ _get_completions Sample.selection_companion
      (Sample.source_env "author" (Some (4, 24))) (Sample.source "author")
    = Raise TypeError.
Proof.
  split.
  - apply (proj1 (C8_completions_fields_then_methods Sample.companion
                    (Sample.source_env "author" (Some (4, 24)))
                    (Sample.source "author")) Sample.book).
    + exists (analyze Sample.companion (Sample.source_env "author" (Some (4, 24)))
                (Sample.source "author")).2.
      split; [| vm_compute; reflexivity].
      apply pair_from_fst. vm_compute. reflexivity.
    + repeat (constructor; [unfold known_type; cbn; auto |]). constructor.
    + repeat (constructor; [intros _; constructor |]). constructor.
    + apply (bool_decide_unpack _). vm_compute. exact I.
  - apply (proj1 (proj2 (C8_completions_fields_then_methods
                           Sample.selection_companion
                           (Sample.source_env "author" (Some (4, 24)))
                           (Sample.source "author")))
             Sample.book "state" Sample.state_entry).
    + exists (analyze Sample.selection_companion
                (Sample.source_env "author" (Some (4, 24)))
                (Sample.source "author")).2.
      split; [| vm_compute; reflexivity].
      apply pair_from_fst. vm_compute. reflexivity.
    + change (("state", Sample.state_entry)
              ∈ Sample.book_completions ++ [("state", Sample.state_entry)]).
      apply elem_of_app. right. apply list_elem_of_here.
    + reflexivity.
    + apply list_elem_of_here.
Defined.

(** The request on the sample with the selection [[(None, ''), ('draft',
    'Draft')]] on [book]: the join of the keys raises. *)
Example completion_with_none_key_raises :
  _get_completions Sample.selection_companion
    (Sample.source_env "author" (Some (4, 24))) (Sample.source "author")
  = Raise TypeError.
Proof. vm_compute. reflexivity. Qed.

(** ** The module index *)

(** C6 (the code departs from the claim). A syntax error in
    [__init__.py] is not absorbed: [_get_modules_per_class] raises it and
    so does [Module.__init__], whereas the sibling
    [_extract_fs_ids_infos] answers a data file that does not parse with
    an empty index. *)
Theorem C6_entry_point_syntax_error_raises (module_name : string)
    (xml : list xml_parse) :
  _get_modules_per_class module_name InitSyntaxError = inl SyntaxError
  ∧ Module_init module_name InitSyntaxError xml = inl SyntaxError
  ∧ _extract_fs_ids_infos module_name XmlSyntaxError = ∅.
Proof. repeat split. Qed.

(** ** The general walker: steps that only report *)

Section Python_steps.
Variable companion : Companion.
Variable env : Env.

(** The step appends diagnostics, all of them in [P], and changes nothing
    else. *)
Definition reporting (P : Diagnostic → Prop) (s s' : PyState) : Prop :=
  ∃ new, Forall P new ∧ s' = set_diagnostics (_diagnostics s ++ new) s.

Definition reports : PyState → PyState → Prop := reporting (fun _ => True).

Lemma set_diagnostics_same s : set_diagnostics (_diagnostics s ++ []) s = s.
Proof. rewrite app_nil_r. destruct s; reflexivity. Qed.

#[local] Instance reporting_preorder P : PreOrder (reporting P).
Proof.
  split.
  - intros s. exists []. split; [constructor | by rewrite set_diagnostics_same].
  - intros s1 s2 s3 (n1 & P1 & ->) (n2 & P2 & ->). exists (n1 ++ n2).
    split; [by apply Forall_app |]. cbn. rewrite app_assoc. reflexivity.
Qed.

#[local] Instance reports_preorder : PreOrder reports.
Proof. apply reporting_preorder. Qed.

Lemma add_diagnostic_total (d : Diagnostic) s :
  in_file (_raw_lines env) (line (start (_position d))) →
  ∃ b, ignored PythonAnalyzerC (_raw_lines env) (err_code (d_class d))
         (line (start (_position d))) = Some b
       ∧ add_diagnostic env (Some d) s =
         (Return tt, if b then s else set_diagnostics (_diagnostics s ++ [d]) s).
Proof.
  intros HL.
  destruct (ignored_in_file PythonAnalyzerC _ (err_code (d_class d)) _ HL) as [b Hb].
  exists b. split; [exact Hb |].
  unfold add_diagnostic, add_diagnostic_to. rewrite Hb.
  destruct b; [| reflexivity]. destruct s; reflexivity.
Qed.

Lemma add_diagnostic_reporting (P : Diagnostic → Prop) c m :
  in_file (_raw_lines env) (line (start (range m))) →
  P {| d_class := c; _position := range m |} →
  total (reporting P) (add_diagnostic env (init_from_analyzer c m)).
Proof.
  intros HL HP s. unfold init_from_analyzer.
  destruct (add_diagnostic_total {| d_class := c; _position := range m |} s HL)
    as (b & _ & E).
  eexists tt, _. split; [exact E |].
  destruct b; [reflexivity |].
  eexists. split; [| reflexivity]. by constructor.
Qed.

Lemma add_diagnostic_reports c m :
  in_file (_raw_lines env) (line (start (range m))) →
  total reports (add_diagnostic env (init_from_analyzer c m)).
Proof. intros HL. by apply add_diagnostic_reporting. Qed.

Lemma unknown_attribute_reports m model attr :
  in_file (_raw_lines env) (line (start (range m))) →
  total reports (unknown_attribute env m model attr).
Proof. apply add_diagnostic_reports. Qed.

(** An argument that is not a plain string leaves the locals alone, or
    raises [NameError] when it reads them unbound. *)
Lemma check_depends_arg_unbound pool model a s :
  binds_locals a = false →
  in_file (_raw_lines env) (arg_line a) →
  ∃ s', reports s s'
        ∧ check_depends_arg companion env pool model a
            {| cur_model := None; field_name := None |} s
          = (if foreign_list_keyword a then Raise (NameError "cur_model")
             else Return {| cur_model := None; field_name := None |}, s').
Proof.
  intros Hb HL. unfold check_depends_arg, foreign_list_keyword.
  destruct a as [[keyword|] value].
  - destruct value; try (exists s; split; reflexivity).
    cbn in HL. destruct (String.eqb (n_value keyword) "methods"); cbn [negb].
    + assert (total reports
                (for_each elements (fun method =>
                   match method with
                   | Element (SimpleString _ literal) =>
                       if has_attribute model (Py.unquote literal) then ret tt
                       else unknown_attribute env m model (Py.unquote literal)
                   | _ => ret tt
                   end))) as Hloop.
      { apply total_for_each; [apply reports_preorder |].
        apply Forall_forall. intros method _.
        repeat case_match; try (apply total_ret; apply reports_preorder).
        apply unknown_attribute_reports. exact HL. }
      destruct (Hloop s) as ([] & s' & E & R).
      exists s'. split; [exact R |]. unfold bind. rewrite E. reflexivity.
    + exists s. split; reflexivity.
  - destruct value; try discriminate; exists s; split; reflexivity.
Qed.

Lemma fold_args_unbound pool model prefix a rest : ∀ s,
  Forall (fun x => binds_locals x = false
                   ∧ in_file (_raw_lines env) (arg_line x)) prefix →
  foreign_list_keyword a = true →
  ∃ s', reports s s'
        ∧ fold_args companion env pool model (prefix ++ a :: rest)
            {| cur_model := None; field_name := None |} s
          = (Raise (NameError "cur_model"), s').
Proof.
  intros s Hprefix Ha. revert s.
  induction Hprefix as [|x prefix [Hx1 Hx2] _ IH]; intros s.
  - exists s. split; [reflexivity |]. cbn [app fold_args]. unfold bind.
    destruct a as [[keyword|] value]; try discriminate.
    destruct value; try discriminate. cbn in Ha. cbn.
    rewrite Ha. reflexivity.
  - destruct (check_depends_arg_unbound pool model x s Hx1 Hx2) as (s1 & R1 & E1).
    cbn [app fold_args]. unfold bind at 1. rewrite E1.
    destruct (foreign_list_keyword x).
    + exists s1. auto.
    + destruct (IH s1) as (s' & R & E). exists s'. split; [by etrans | exact E].
Qed.

(** Decorators other than [fields.depends] are passed over. *)
Lemma fold_decorators_skip pool model earlier decorator later args :
  Forall (fun d => is_depends_decorator d = None) earlier →
  is_depends_decorator decorator = Some args →
  ∀ locals s0,
    fold_decorators companion env pool model
      (earlier ++ decorator :: later) locals s0
    = match fold_args companion env pool model args locals s0 with
      | (Return locals', s1) =>
          fold_decorators companion env pool model later locals' s1
      | (Raise e, s1) => (Raise e, s1)
      end.
Proof.
  intros Hearlier Hd locals s0.
  induction Hearlier as [|d earlier Hnone _ IH].
  - cbn [app fold_decorators]. rewrite Hd. reflexivity.
  - cbn [app fold_decorators]. rewrite Hnone. unfold bind at 1. cbn [ret].
    exact IH.
Qed.

End Python_steps.

(** C9. A [fields.depends] decorator in which a list-valued keyword
    argument other than [methods] comes before any plain string argument
    (of this decorator or of an earlier one) makes [_check_depends] raise
    [NameError]: it reads the local [cur_model], which only a plain string
    argument binds.  This holds in every class bound to a model. *)
Theorem C9_depends_keyword_reads_unbound_local
    (companion : Companion) (env : Env) (node : FunctionDef) (s : PyState)
    (metadata : TrytonMetadata) (model : PoolModel)
    (earlier later : list expr) (decorator : expr)
    (prefix rest : list (arg expr)) (a : arg expr) :
  _class_metadata s = Some metadata →
  _model metadata = Some model →
  decorators node = earlier ++ decorator :: later →
  Forall (fun d => is_depends_decorator d = None) earlier →
  is_depends_decorator decorator = Some (prefix ++ a :: rest) →
  Forall (fun x => binds_locals x = false
                   ∧ in_file (_raw_lines env) (arg_line x)) prefix →
  foreign_list_keyword a = true →
  ∃ s', _check_depends companion env node s = (Raise (NameError "cur_model"), s').
Proof.
  intros Hmd Hmodel Hdec Hearlier Hd Hprefix Ha.
  unfold _check_depends, bind, get. rewrite Hmd, Hmodel, Hdec.
  rewrite (fold_decorators_skip _ _ _ _ _ _ _ _ Hearlier Hd).
  destruct (fold_args_unbound companion env (_pool metadata) model prefix a rest s
              Hprefix Ha) as (s' & _ & E).
  rewrite E. exists s'. reflexivity.
Qed.

Lemma C9_witness :
  ∃ s', _check_depends Sample.companion Sample.depends_env (Sample.on_change "foo")
          (Sample.in_class "BookOverride" Sample.book)
        = (Raise (NameError "cur_model"), s').
Proof.
  apply (C9_depends_keyword_reads_unbound_local Sample.companion Sample.depends_env
           (Sample.on_change "foo") (Sample.in_class "BookOverride" Sample.book)
           (Sample.metadata_of "BookOverride" Sample.book)
           Sample.book [] [] (Sample.depends_keyword "foo") [] []
           (Arg (Some (Sample.name_ 34 3 20 23 "foo"))
              (List_ (Sample.at_ 35 3 24 32)
                 [Element (SimpleString (Sample.at_ 36 3 25 31) "'name'")]))).
  - reflexivity.
  - reflexivity.
  - reflexivity.
  - constructor.
  - reflexivity.
  - constructor.
  - reflexivity.
Defined.

(** The same crash seen from the entry point: the analysis of the file
    raises instead of returning diagnostics. *)
Example depends_keyword_crashes_analysis :
  generate_diagnostics Sample.companion Sample.depends_env
    [TopClass (Sample.BookOverride "foo")]
  = Raise (NameError "cur_model").
Proof. vm_compute. reflexivity. Qed.

(** With the keyword [methods] the same file is analyzed without
    diagnostics. *)
Example depends_methods_is_checked :
  generate_diagnostics Sample.companion Sample.depends_env
    [TopClass (Sample.BookOverride "methods")]
  = Return [].
Proof. vm_compute. reflexivity. Qed.

(** ** Override discipline *)

(** *** The chain calls that the pattern extracts *)

Lemma elem_of_concat {A} (x : A) (ls : list (list A)) :
  x ∈ concat ls ↔ ∃ l, l ∈ ls ∧ x ∈ l.
Proof.
  induction ls as [|l ls IH]; cbn.
  - split; [intros H; by apply elem_of_nil in H |].
    intros (l & H & _). by apply elem_of_nil in H.
  - rewrite elem_of_app, IH. split.
    + intros [H | (l' & H1 & H2)].
      * exists l. split; [apply list_elem_of_here | exact H].
      * exists l'. split; [by apply list_elem_of_further | exact H2].
    + intros (l' & H1 & H2). apply elem_of_cons in H1 as [-> | H1]; eauto.
Qed.

Lemma elem_of_option_list {A} (x : A) (o : option A) :
  x ∈ option_list o ↔ o = Some x.
Proof.
  destruct o as [y|]; cbn.
  - rewrite list_elem_of_singleton. split; congruence.
  - rewrite elem_of_nil. split; [tauto | discriminate].
Qed.

Lemma subexprs_inside : ∀ top e, e ∈ subexprs top → inside e top.
Proof.
  fix IH 1. intros top e Hin.
  destruct top as [n|m value|m|m value attr|m value slice|m func args
                   |m elements|m elements|m body|m operands];
    cbn [subexprs] in Hin; apply elem_of_cons in Hin as [-> | Hin];
    try apply inside_here.
  - by apply elem_of_nil in Hin.
  - by apply elem_of_nil in Hin.
  - by apply elem_of_nil in Hin.
  - apply inside_attribute, IH, Hin.
  - apply elem_of_app in Hin as [Hin | Hin];
      [apply inside_subscript, IH, Hin |].
    assert (∃ v, inside e v
                 ∧ (Index v ∈ slice
                    ∨ ∃ lower upper step,
                        Slice lower upper step ∈ slice
                        ∧ (lower = Some v ∨ upper = Some v ∨ step = Some v)))
      as (v & Hv & [Hi | (lower & upper & step & Hs & Hor)]).
    { induction slice as [|[v|lower upper step] rest IHs].
      - by apply elem_of_nil in Hin.
      - apply elem_of_app in Hin as [Hin | Hin].
        + exists v. split; [apply IH, Hin |]. left. apply list_elem_of_here.
        + destruct (IHs Hin) as (v' & Hv' & [Hi | (lo & up & st & Hs & Hor)]).
          * exists v'. split; [exact Hv' |]. left. by apply list_elem_of_further.
          * exists v'. split; [exact Hv' |]. right. exists lo, up, st.
            split; [by apply list_elem_of_further | exact Hor].
      - rewrite !elem_of_app in Hin.
        destruct Hin as [Hin | [Hin | [Hin | Hin]]].
        + destruct lower as [v|]; [| by apply elem_of_nil in Hin].
          exists v. split; [apply IH, Hin |]. right.
          exists (Some v), upper, step. split; [apply list_elem_of_here | auto].
        + destruct upper as [v|]; [| by apply elem_of_nil in Hin].
          exists v. split; [apply IH, Hin |]. right.
          exists lower, (Some v), step. split; [apply list_elem_of_here | auto].
        + destruct step as [v|]; [| by apply elem_of_nil in Hin].
          exists v. split; [apply IH, Hin |]. right.
          exists lower, upper, (Some v). split; [apply list_elem_of_here | auto].
        + destruct (IHs Hin) as (v' & Hv' & [Hi | (lo & up & st & Hs & Hor)]).
          * exists v'. split; [exact Hv' |]. left. by apply list_elem_of_further.
          * exists v'. split; [exact Hv' |]. right. exists lo, up, st.
            split; [by apply list_elem_of_further | exact Hor]. }
    + eapply inside_index; eassumption.
    + eapply inside_slice; eassumption.
  - apply elem_of_app in Hin as [Hin | Hin]; [apply inside_func, IH, Hin |].
    assert (∃ keyword v, inside e v ∧ Arg keyword v ∈ args)
      as (keyword & v & Hv & Ha).
    { induction args as [|[keyword v] rest IHs].
      - by apply elem_of_nil in Hin.
      - apply elem_of_app in Hin as [Hin | Hin].
        + exists keyword, v. split; [apply IH, Hin | apply list_elem_of_here].
        + destruct (IHs Hin) as (k' & v' & Hv' & Ha').
          exists k', v'. split; [exact Hv' | by apply list_elem_of_further]. }
    eapply inside_arg; eassumption.
  - assert (∃ v, inside e v ∧ (Element v ∈ elements ∨ StarredElement v ∈ elements))
      as (v & Hv & Hel).
    { induction elements as [|[v|v] rest IHs].
      - by apply elem_of_nil in Hin.
      - apply elem_of_app in Hin as [Hin | Hin].
        + exists v. split; [apply IH, Hin |]. left. apply list_elem_of_here.
        + destruct (IHs Hin) as (v' & Hv' & Hel).
          exists v'. split; [exact Hv' |].
          destruct Hel; [left | right]; by apply list_elem_of_further.
      - apply elem_of_app in Hin as [Hin | Hin].
        + exists v. split; [apply IH, Hin |]. right. apply list_elem_of_here.
        + destruct (IHs Hin) as (v' & Hv' & Hel).
          exists v'. split; [exact Hv' |].
          destruct Hel; [left | right]; by apply list_elem_of_further. }
    eapply inside_tuple; eassumption.
  - assert (∃ v, inside e v ∧ (Element v ∈ elements ∨ StarredElement v ∈ elements))
      as (v & Hv & Hel).
    { induction elements as [|[v|v] rest IHs].
      - by apply elem_of_nil in Hin.
      - apply elem_of_app in Hin as [Hin | Hin].
        + exists v. split; [apply IH, Hin |]. left. apply list_elem_of_here.
        + destruct (IHs Hin) as (v' & Hv' & Hel).
          exists v'. split; [exact Hv' |].
          destruct Hel; [left | right]; by apply list_elem_of_further.
      - apply elem_of_app in Hin as [Hin | Hin].
        + exists v. split; [apply IH, Hin |]. right. apply list_elem_of_here.
        + destruct (IHs Hin) as (v' & Hv' & Hel).
          exists v'. split; [exact Hv' |].
          destruct Hel; [left | right]; by apply list_elem_of_further. }
    eapply inside_list; eassumption.
  - apply inside_lambda, IH, Hin.
  - assert (∃ v, inside e v ∧ v ∈ operands) as (v & Hv & Hop).
    { induction operands as [|v rest IHs].
      - by apply elem_of_nil in Hin.
      - apply elem_of_app in Hin as [Hin | Hin].
        + exists v. split; [apply IH, Hin | apply list_elem_of_here].
        + destruct (IHs Hin) as (v' & Hv' & Hop).
          exists v'. split; [exact Hv' | by apply list_elem_of_further]. }
    eapply inside_operand; eassumption.
Qed.

Lemma inside_subexprs e top : inside e top → e ∈ subexprs top.
Proof.
  induction 1 as [|m value attr _ IH|m value slice _ IH|m value slice v Hv _ IH
                  |m value slice lower upper step v Hs Hor _ IH
                  |m func args _ IH|m func args keyword v Ha _ IH
                  |m elements v Hel _ IH|m elements v Hel _ IH
                  |m body _ IH|m operands v Hop _ IH].
  - destruct e; apply list_elem_of_here.
  - cbn [subexprs]. by apply list_elem_of_further.
  - cbn [subexprs]. apply list_elem_of_further, elem_of_app. by left.
  - cbn [subexprs]. apply list_elem_of_further, elem_of_app. right.
    induction slice as [|x rest IHs]; [by apply elem_of_nil in Hv |].
    apply elem_of_cons in Hv as [<- | Hv].
    + apply elem_of_app. by left.
    + destruct x; rewrite ?elem_of_app; auto.
  - cbn [subexprs]. apply list_elem_of_further, elem_of_app. right.
    induction slice as [|x rest IHs]; [by apply elem_of_nil in Hs |].
    apply elem_of_cons in Hs as [<- | Hs].
    + rewrite !elem_of_app. destruct Hor as [-> | [-> | ->]]; cbn; auto.
    + destruct x; rewrite ?elem_of_app; auto.
  - cbn [subexprs]. apply list_elem_of_further, elem_of_app. by left.
  - cbn [subexprs]. apply list_elem_of_further, elem_of_app. right.
    induction args as [|x rest IHs]; [by apply elem_of_nil in Ha |].
    apply elem_of_cons in Ha as [<- | Ha].
    + apply elem_of_app. by left.
    + destruct x; rewrite ?elem_of_app; auto.
  - cbn [subexprs]. apply list_elem_of_further.
    induction elements as [|x rest IHs];
      [destruct Hel as [Hel | Hel]; by apply elem_of_nil in Hel |].
    destruct x as [w|w]; apply elem_of_app;
      destruct Hel as [Hel | Hel]; apply elem_of_cons in Hel as [Heq | Hel];
      simplify_eq; auto.
  - cbn [subexprs]. apply list_elem_of_further.
    induction elements as [|x rest IHs];
      [destruct Hel as [Hel | Hel]; by apply elem_of_nil in Hel |].
    destruct x as [w|w]; apply elem_of_app;
      destruct Hel as [Hel | Hel]; apply elem_of_cons in Hel as [Heq | Hel];
      simplify_eq; auto.
  - cbn [subexprs]. by apply list_elem_of_further.
  - cbn [subexprs]. apply list_elem_of_further.
    induction operands as [|x rest IHs]; [by apply elem_of_nil in Hop |].
    apply elem_of_app. apply elem_of_cons in Hop as [<- | Hop]; auto.
Qed.

Lemma stmt_exprs_spec top st : top ∈ stmt_exprs st ↔ in_statement top st.
Proof.
  destruct st as [value|m targets value|m target annotation value|exprs]; cbn.
  - apply list_elem_of_singleton.
  - by rewrite elem_of_app, list_elem_of_singleton.
  - by rewrite !elem_of_cons, elem_of_option_list.
  - reflexivity.
Qed.

Lemma elem_of_map {A B} (f : A → B) (l : list A) (y : B) :
  y ∈ map f l ↔ ∃ x, x ∈ l ∧ y = f x.
Proof.
  induction l as [|a l IH]; cbn.
  - split; [intros H; by apply elem_of_nil in H |].
    intros (x & H & _). by apply elem_of_nil in H.
  - rewrite elem_of_cons, IH. split.
    + intros [-> | (x & Hx & ->)].
      * exists a. split; [apply list_elem_of_here | reflexivity].
      * exists x. split; [by apply list_elem_of_further | reflexivity].
    + intros (x & Hx & ->). apply elem_of_cons in Hx as [-> | Hx]; eauto.
Qed.

Lemma function_exprs_spec top f : top ∈ function_exprs f ↔ in_function top f.
Proof.
  unfold function_exprs, in_function.
  rewrite !elem_of_app, !elem_of_concat, elem_of_option_list. split.
  - intros [H | [(l & Hl & Hin) | [H | (l & Hl & Hin)]]].
    + by left.
    + right; left. apply elem_of_map in Hl as (p & Hp & ->).
      exists p. split; [exact Hp |].
      by rewrite elem_of_app, !elem_of_option_list in Hin.
    + by right; right; left.
    + right; right; right. apply elem_of_map in Hl as (st & Hst & ->).
      exists st. split; [exact Hst | by apply stmt_exprs_spec].
  - intros [H | [(p & Hp & Hor) | [H | (st & Hst & Hin)]]].
    + by left.
    + right; left. eexists. split.
      * apply elem_of_map. exists p. split; [exact Hp | reflexivity].
      * by rewrite elem_of_app, !elem_of_option_list.
    + by right; right; left.
    + right; right; right. eexists. split.
      * apply elem_of_map. exists st. split; [exact Hst | reflexivity].
      * by apply stmt_exprs_spec.
Qed.

Lemma match_super_call_spec e c :
  match_super_call e = Some c
  ↔ chain_call e (super_invocation c) (super_invocation_args c) (super_name c).
Proof.
  split.
  - unfold match_super_call. intros H.
    repeat case_match; simplify_eq. cbn.
    eexists _, _, _, _. split; [reflexivity |]. by apply String.eqb_eq.
  - intros (m & m' & f & args' & -> & Hf). cbn. rewrite Hf. cbn.
    destruct c; reflexivity.
Qed.

(** The pattern of [_check_super_call] extracts the chain calls of the
    function, and nothing else. *)
Lemma extract_super_calls_spec f c :
  c ∈ extract_super_calls f
  ↔ chain_call_in f (super_invocation c) (super_invocation_args c) (super_name c).
Proof.
  unfold extract_super_calls, chain_call_in.
  rewrite list_elem_of_omap. split.
  - intros (e & He & Hc). apply elem_of_concat in He as (l & Hl & He).
    apply elem_of_map in Hl as (top & Htop & ->).
    exists top, e. split; [by apply function_exprs_spec |].
    split; [by apply subexprs_inside | by apply match_super_call_spec].
  - intros (top & e & Htop & He & Hc). exists e.
    split; [| by apply match_super_call_spec].
    apply elem_of_concat. exists (subexprs top).
    split; [| by apply inside_subexprs].
    apply elem_of_map. exists top.
    split; [by apply function_exprs_spec | reflexivity].
Qed.

Lemma has_chain_call_spec f : has_chain_call f ↔ extract_super_calls f ≠ [].
Proof.
  split.
  - intros (invocation & args & attr & H) Hnil.
    apply (extract_super_calls_spec f
             {| super_invocation := invocation; super_invocation_args := args;
                super_name := attr |}) in H.
    rewrite Hnil in H. by apply elem_of_nil in H.
  - destruct (extract_super_calls f) as [|c calls] eqn:E; [done |]. intros _.
    exists (super_invocation c), (super_invocation_args c), (super_name c).
    apply extract_super_calls_spec. rewrite E. apply list_elem_of_here.
Qed.

Lemma chain_calls_in_file_spec raw_lines f :
  chain_calls_in_file raw_lines f
  ↔ Forall (fun c =>
              in_file raw_lines (line (start (range (super_invocation c))))
              ∧ in_file raw_lines (line (start (range (n_meta (super_name c))))))
      (extract_super_calls f).
Proof.
  rewrite Forall_forall. split.
  - intros H c Hc. apply H with (super_invocation_args c).
    by apply extract_super_calls_spec.
  - intros H invocation args attr Hc.
    apply (H {| super_invocation := invocation; super_invocation_args := args;
                super_name := attr |}).
    by apply extract_super_calls_spec.
Qed.

Section Override.
Variable companion : Companion.
Variable env : Env.
Variable metadata : TrytonMetadata.

Let path : string := class_path env metadata.

(** The entries still to be considered as parents, [found_base] telling
    whether the current definition has been met. *)
Definition after (found_base : bool) (chain : list (string * super_details))
  : list (string * super_details) :=
  if found_base
  then List.filter (fun e => negb (Py.contains path e.1)) chain
  else beyond path chain.

Definition defined (d : super_details) : bool := negb (is_NoDetails d).

Lemma after_cons found_base klass_str details rest :
  after found_base ((klass_str, details) :: rest)
  = if Py.contains path klass_str then after true rest
    else if found_base then (klass_str, details) :: after true rest
    else after false rest.
Proof.
  unfold after. destruct found_base; cbn; destruct (Py.contains path klass_str);
    reflexivity.
Qed.

Lemma get_import_path_class s :
  _class_metadata s = Some metadata →
  get_import_path env s = (Return path, s).
Proof.
  intros H. unfold get_import_path, bind, get. rewrite H. reflexivity.
Qed.

(** With a chain call in the body the loop reports nothing; it finds a
    parent exactly when some entry beyond the current definition defines
    the method. *)
Lemma check_chain_with_super at_ s :
  _class_metadata s = Some metadata →
  ∀ chain found_base found_super,
    check_chain env true at_ chain found_base found_super s
    = (Return (found_super
               || existsb defined (map snd (after found_base chain))), s).
Proof.
  intros Hmd. induction chain as [|[klass_str details] chain IH];
    intros found_base found_super.
  - cbn. unfold after. destruct found_base; cbn; rewrite orb_false_r; reflexivity.
  - cbn [check_chain]. unfold bind at 1.
    rewrite (get_import_path_class s Hmd), after_cons.
    destruct (Py.contains path klass_str); [apply IH |].
    rewrite andb_false_r. cbn [andb negb].
    destruct found_base; cbn [andb].
    + destruct found_super; cbn [negb andb].
      * rewrite IH. reflexivity.
      * unfold defined at 1. cbn [map snd existsb].
        destruct (is_NoDetails details); cbn [negb andb orb]; rewrite IH;
          reflexivity.
    + rewrite IH. reflexivity.
Qed.

(** What the loop does with the first defined parent when the body has no
    chain call. *)
Definition on_parent (at_ : Meta) (found_super : bool) (d : super_details)
  : M PyState bool :=
  match d with
  | Defined parent_file_name first_line_no =>
      match find_parent env parent_file_name first_line_no with
      | ParentRaises e => raise e
      | ParentFound comments =>
          if negb (ignore_error_code comments "1004") then
            add_diagnostic env (init_from_analyzer MissingSuperCall at_);;;
            ret found_super
          else ret found_super
      | _ => ret found_super
      end
  | _ => ret found_super
  end.

Lemma check_chain_without_super at_ s :
  _class_metadata s = Some metadata →
  ∀ chain found_base found_super,
    check_chain env false at_ chain found_base found_super s
    = match head (List.filter defined (map snd (after found_base chain))) with
      | Some d => on_parent at_ found_super d s
      | None => (Return found_super, s)
      end.
Proof.
  intros Hmd. induction chain as [|[klass_str details] chain IH];
    intros found_base found_super.
  - cbn. unfold after. destruct found_base; reflexivity.
  - cbn [check_chain]. unfold bind at 1.
    rewrite (get_import_path_class s Hmd), after_cons.
    destruct (Py.contains path klass_str); [apply IH |].
    cbn [negb andb]. rewrite !andb_true_r.
    destruct found_base; cbn [andb].
    + cbn [map snd List.filter]. unfold defined at 1.
      destruct details; cbn [is_NoDetails negb head].
      * apply IH.
      * reflexivity.
      * unfold on_parent.
        destruct (find_parent env file_name first_line_no); try reflexivity.
        destruct (negb (ignore_error_code comments "1004")); reflexivity.
    + apply IH.
Qed.

End Override.

Lemma filter_none {A} (f : A → bool) (l : list A) :
  Forall (fun x => f x = false) l → List.filter f l = [].
Proof.
  induction 1 as [|x l Hx _ IH]; [reflexivity |]. cbn. rewrite Hx. exact IH.
Qed.

Lemma existsb_head_filter {A} (f : A → bool) (l : list A) :
  existsb f l = false ↔ head (List.filter f l) = None.
Proof.
  induction l as [|x l IH]; cbn; [tauto |].
  destruct (f x); cbn; [split; discriminate | exact IH].
Qed.

Lemma add_diagnostic_kept (companion : Companion) (env : Env) c m s :
  ignored PythonAnalyzerC (_raw_lines env) (err_code c) (line (start (range m)))
    = Some false →
  add_diagnostic env (init_from_analyzer c m) s
  = (Return tt,
     set_diagnostics
       (_diagnostics s ++ [{| d_class := c; _position := range m |}]) s).
Proof.
  intros H. unfold add_diagnostic, init_from_analyzer, add_diagnostic_to.
  cbn [d_class _position]. rewrite H. reflexivity.
Qed.

(** The first loop of [_check_super_call] only reports on the chain calls
    themselves. *)
Lemma super_calls_loop (env : Env) (node : FunctionDef) (calls : list super_match) :
  Forall (fun c =>
            in_file (_raw_lines env) (line (start (range (super_invocation c))))
            ∧ in_file (_raw_lines env)
                (line (start (range (n_meta (super_name c)))))) calls →
  total (reporting (fun d => is_override_diagnostic d = false))
    (for_each calls (fun cur_call =>
       (match super_invocation_args cur_call with
        | [] => ret tt
        | _ :: _ =>
            add_diagnostic env
              (init_from_analyzer SuperInvocationWithParams
                 (super_invocation cur_call))
        end);;;
       if negb (String.eqb (n_value (super_name cur_call)) (n_value (fn_name node)))
       then add_diagnostic env
              (init_from_analyzer
                 (SuperInvocationMismatchedName (n_value (fn_name node)))
                 (n_meta (super_name cur_call)))
       else ret tt)).
Proof.
  intros Hin. apply total_for_each; [apply reporting_preorder |].
  eapply Forall_impl; [exact Hin |]. intros c [H1 H2]. cbn beta.
  apply total_bind; [apply reporting_preorder | | intros _].
  - destruct (super_invocation_args c).
    + apply total_ret. apply reporting_preorder.
    + by apply add_diagnostic_reporting.
  - destruct (negb _).
    + by apply add_diagnostic_reporting.
    + apply total_ret. apply reporting_preorder.
Qed.

(** C4 (amended). In a method of a class bound to a model, with the
    override chain of the method: let the next definition be the first
    entry beyond the current definition that defines the method at all,
    with a body or without.

    A body with a chain call gets exactly one [SuperWithoutParent] when
    there is no next definition and none when there is one, be it a
    definition without body.

    A body without chain call is judged on the next definition alone,
    whatever the entries behind it: when it has a body, the function is
    found there and its comments do not hold the marker of the code, the
    method gets exactly one [MissingSuperCall]; when the comments hold the
    marker, when the file is not parsed, when the function is not found,
    when the next definition has no body or when there is none, the
    method gets no diagnostic; when reading the file of the parent
    raises, the check raises.

    Both diagnostics are positioned on the name of the method.  (The
    positions are lines of the file and no marker suppresses the two codes
    on the line of the name.) *)
Theorem C4_override_discipline (companion : Companion) (env : Env)
    (node : FunctionDef) (s : PyState)
    (metadata : TrytonMetadata) (model : PoolModel) :
  let chain := get_super_information companion model (n_value (fn_name node)) in
  let next := next_definition (class_path env metadata) chain in
  let at_ := n_meta (fn_name node) in
  _class_metadata s = Some metadata →
  _model metadata = Some model →
  _cur_function s = Some (fn_name node) →
  in_file (_raw_lines env) (line (start (range at_))) →
  chain_calls_in_file (_raw_lines env) node →
  ignored PythonAnalyzerC (_raw_lines env) "1003" (line (start (range at_)))
    = Some false →
  ignored PythonAnalyzerC (_raw_lines env) "1004" (line (start (range at_)))
    = Some false →
  (has_chain_call node →
   ∃ new,
     _check_super_call companion env node s
     = (Return tt, set_diagnostics (_diagnostics s ++ new) s)
     ∧ List.filter is_override_diagnostic new
       = match next with
         | None => [{| d_class := SuperWithoutParent; _position := range at_ |}]
         | Some NoCode => []
         | Some _ => []
         end)
  ∧ (¬ has_chain_call node →
     _check_super_call companion env node s
     = match next with
       | Some (Defined file_name first_line_no) =>
           match find_parent env file_name first_line_no with
           | ParentFound comments =>
               if ignore_error_code comments "1004" then (Return tt, s)
               else (Return tt,
                     set_diagnostics
                       (_diagnostics s
                        ++ [{| d_class := MissingSuperCall;
                               _position := range at_ |}]) s)
           | ParentUnparsed | ParentNotFound => (Return tt, s)
           | ParentRaises e => (Raise e, s)
           end
       | Some NoCode => (Return tt, s)
       | Some NoDetails | None => (Return tt, s)
       end).
Proof.
  intros chain next at_ Hmd Hmodel Hfn Hat Hcalls H1003 H1004.
  apply chain_calls_in_file_spec in Hcalls.
  rewrite has_chain_call_spec.
  unfold _check_super_call. fold at_.
  destruct (super_calls_loop env node _ Hcalls s)
    as ([] & s1 & E1 & new1 & Hnew1 & ->).
  assert (get_current_function_name (set_diagnostics (_diagnostics s ++ new1) s)
          = (Return (n_value (fn_name node)),
             set_diagnostics (_diagnostics s ++ new1) s)) as Hname.
  { unfold get_current_function_name, bind, get. cbn. rewrite Hfn. reflexivity. }
  assert (List.filter is_override_diagnostic new1 = []) as Hquiet
    by (apply filter_none; exact Hnew1).
  destruct (extract_super_calls node) as [|c calls'] eqn:Ecalls.
  - (* no chain call in the body *)
    split; [done |]. intros _.
    unfold bind at 1. rewrite E1. unfold bind at 1. unfold get at 1.
    cbn [_class_metadata set_diagnostics]. rewrite Hmd, Hmodel.
    unfold bind at 1. rewrite Hname. fold chain.
    assert (new1 = []) as ->.
    { cbn in E1. injection E1 as E1.
      apply (f_equal _diagnostics) in E1. cbn in E1.
      rewrite <- (app_nil_r (_diagnostics s)) in E1 at 1.
      by apply app_inv_head in E1. }
    rewrite set_diagnostics_same. unfold bind at 1.
    rewrite (check_chain_without_super env metadata at_ s Hmd).
    change (head _) with next.
    destruct next as [[| |file_name first_line_no]|]; try reflexivity.
    unfold on_parent.
    destruct (find_parent env file_name first_line_no) as [e| | |comments];
      try reflexivity.
    destruct (ignore_error_code comments "1004"); cbn [negb]; [reflexivity |].
    unfold bind at 1. rewrite (add_diagnostic_kept companion) by exact H1004.
    reflexivity.
  - (* a chain call in the body *)
    split; [intros _ | intros Habs; exfalso; apply Habs; discriminate].
    unfold bind at 1. rewrite E1. unfold bind at 1. unfold get at 1.
    cbn [_class_metadata set_diagnostics]. rewrite Hmd, Hmodel.
    unfold bind at 1. rewrite Hname. fold chain.
    unfold bind at 1.
    rewrite (check_chain_with_super env metadata at_
               (set_diagnostics (_diagnostics s ++ new1) s) Hmd).
    cbn [orb andb].
    assert (next = head (List.filter defined
                           (map snd (after env metadata false chain))))
      as Hnext_eq by reflexivity.
    destruct (existsb defined (map snd (after env metadata false chain)))
      eqn:Eparent; cbn [negb].
    + exists new1. split; [reflexivity |].
      destruct next as [[| |]|]; try exact Hquiet.
      symmetry in Hnext_eq. apply existsb_head_filter in Hnext_eq. congruence.
    + apply existsb_head_filter in Eparent. rewrite <- Hnext_eq in Eparent.
      rewrite (add_diagnostic_kept companion) by exact H1003.
      exists (new1 ++ [{| d_class := SuperWithoutParent; _position := range at_ |}]).
      cbn [_diagnostics set_diagnostics]. rewrite <- app_assoc.
      split; [destruct s; reflexivity |].
      rewrite List.filter_app, Hquiet, Eparent. reflexivity.
Qed.

(** ** Dependency lists *)

Lemma split_aux_nonempty sep cur s : Py.split_aux sep cur s ≠ [].
Proof.
  revert cur. induction s as [|c s IH]; intros cur; cbn; [discriminate |].
  destruct (Ascii.eqb c sep); [discriminate | apply IH].
Qed.

Lemma split_last sep s : is_Some (last (Py.split sep s)).
Proof.
  unfold Py.split. pose proof (split_aux_nonempty sep "" s) as H.
  destruct (Py.split_aux sep "" s) as [|x l] using rev_ind; [done |].
  rewrite last_snoc. eauto.
Qed.

Lemma startswith_parent segment :
  Py.startswith segment "_parent_" = true
  ↔ ∃ stripped, segment = "_parent_" +:+ stripped ∧ Py.drop 8 segment = stripped.
Proof.
  unfold Py.startswith. rewrite prefix_spec. split.
  - intros [rest ->]. exists rest. split; reflexivity.
  - intros (stripped & -> & _). eauto.
Qed.

Lemma bind_ret {S A B} (a : A) (k : A → M S B) (s : S) :
  (x <- ret a;; k x) s = k a s.
Proof. reflexivity. Qed.

Lemma reaches_cons_inv companion pool cur segment rest target :
  reaches companion pool cur (segment :: rest) target →
  ∃ stripped field relation next,
    segment = "_parent_" +:+ stripped
    ∧ fields cur !! stripped = Some field
    ∧ f_type field = "many2one"
    ∧ f_relation field = Some relation
    ∧ Pool_get companion pool relation MODEL = inr next
    ∧ reaches companion pool next rest target.
Proof. inversion 1; subst; eauto 10. Qed.

Lemma parent_inj a b : "_parent_" +:+ a = "_parent_" +:+ b → a = b.
Proof. intros H. by apply (inj (String.append "_parent_")) in H. Qed.

Lemma reaches_functional companion pool cur segments t1 t2 :
  reaches companion pool cur segments t1 →
  reaches companion pool cur segments t2 → t1 = t2.
Proof.
  intros H1. revert t2. induction H1 as [cur|cur stripped field relation next rest
    target Hf Ht Hr Hp _ IH]; intros t2 H2.
  - inversion H2. reflexivity.
  - apply reaches_cons_inv in H2
      as (stripped' & field' & relation' & next' & Heq & Hf' & _ & Hr' & Hp' & H2).
    apply parent_inj in Heq. subst stripped'.
    rewrite Hf in Hf'. injection Hf' as <-.
    rewrite Hr in Hr'. injection Hr' as <-.
    rewrite Hp in Hp'. injection Hp' as <-.
    apply IH. exact H2.
Qed.

Section Depends.
Variable companion : Companion.
Variable env : Env.
Variable pool : Pool.
Variable at_ : Meta.

Hypothesis pool_ok : well_formed_pool companion pool.
Hypothesis at_in_file : in_file (_raw_lines env) (line (start (range at_))).
Hypothesis attribute_kept :
  ignored PythonAnalyzerC (_raw_lines env) "1007" (line (start (range at_)))
  = Some false.
Hypothesis model_kept :
  ignored PythonAnalyzerC (_raw_lines env) "1006" (line (start (range at_)))
  = Some false.

Lemma unknown_attribute_kept model attr s :
  unknown_attribute env at_ model attr s
  = (Return tt,
     set_diagnostics
       (_diagnostics s ++ [{| d_class := UnknownAttribute attr (name model);
                              _position := range at_ |}]) s).
Proof. unfold unknown_attribute. by rewrite (add_diagnostic_kept companion). Qed.

(** The loop over the segments before the last one: it either follows
    them all without a diagnostic, or stops at the first one that cannot
    be followed, with exactly one diagnostic. *)
Lemma depends_parents_spec segments : ∀ cur last_name s,
  to_one_has_relation cur →
  (∃ target last_name',
     reaches companion pool cur segments target
     ∧ to_one_has_relation target
     ∧ depends_parents companion env pool at_ cur last_name segments s
       = (Return (true, target, last_name'), s))
  ∨ ((¬ ∃ target, reaches companion pool cur segments target)
     ∧ ∃ c stopped segment,
         unknown_reference c
         ∧ depends_parents companion env pool at_ cur last_name segments s
           = (Return (false, stopped, Some segment),
              set_diagnostics
                (_diagnostics s ++ [{| d_class := c; _position := range at_ |}]) s)).
Proof.
  induction segments as [|segment rest IH]; intros cur last_name s Hcur.
  - left. exists cur, last_name. split; [constructor | auto].
  - cbn [depends_parents].
    destruct (Py.startswith segment "_parent_") eqn:Hprefix; cbn [negb].
    2:{ right. split.
        - intros [target Hr].
          apply reaches_cons_inv in Hr as (stripped & ? & ? & ? & -> & _).
          assert (Py.startswith ("_parent_" +:+ stripped) "_parent_" = true)
            by (apply startswith_parent; eauto).
          congruence.
        - exists (UnknownAttribute segment (name cur)), cur, segment.
          split; [exact I |]. unfold bind. rewrite unknown_attribute_kept.
          reflexivity. }
    apply startswith_parent in Hprefix as (stripped & -> & ->).
    destruct (fields cur !! stripped) as [field|] eqn:Hfield.
    2:{ right. split.
        - intros [target Hr].
          apply reaches_cons_inv in Hr as (stripped' & ? & ? & ? & Heq & Hf & _).
          apply parent_inj in Heq. subst. congruence.
        - exists (UnknownAttribute stripped (name cur)), cur, stripped.
          split; [exact I |]. unfold bind. rewrite unknown_attribute_kept.
          reflexivity. }
    destruct (String.eqb (f_type field) "many2one") eqn:Htype; cbn [negb].
    2:{ right. split.
        - intros [target Hr].
          apply reaches_cons_inv in Hr
            as (stripped' & field' & ? & ? & Heq & Hf & Ht & _).
          apply parent_inj in Heq. subst.
          rewrite Hfield in Hf. injection Hf as <-.
          apply String.eqb_neq in Htype. congruence.
        - exists (UnknownAttribute stripped (name cur)), cur, stripped.
          split; [exact I |]. unfold bind. rewrite unknown_attribute_kept.
          reflexivity. }
    apply String.eqb_eq in Htype.
    destruct (Hcur stripped field Hfield Htype) as [relation Hrel].
    rewrite Hrel. cbn [of_option]. rewrite !bind_ret.
    destruct (Pool_get companion pool relation MODEL) as [e|next] eqn:Hget.
    { right. split.
      - intros [target Hr].
        apply reaches_cons_inv in Hr
          as (stripped' & field' & relation' & next' & Heq & Hf & _ & Hre & Hp & _).
        apply parent_inj in Heq. subst.
        rewrite Hfield in Hf. injection Hf as <-.
        rewrite Hrel in Hre. injection Hre as <-. congruence.
      - rewrite (Pool_get_exn _ _ _ _ _ Hget).
        exists (UnknownModel relation), cur, stripped.
        split; [exact I |]. unfold bind.
        rewrite (add_diagnostic_kept companion) by exact model_kept. reflexivity. }
    destruct (IH next (Some stripped) s (pool_ok _ _ Hget))
      as [(target & last' & Hr & Hwf & E) | (Hno & c & stopped & seg & Hc & E)].
    + left. exists target, last'. split; [| auto].
      econstructor; eauto.
    + right. split; [| eauto 10].
      intros [target Hr].
      apply reaches_cons_inv in Hr
        as (stripped' & field' & relation' & next' & Heq & Hf & _ & Hre & Hp & Hrest).
      apply parent_inj in Heq. subst.
      rewrite Hfield in Hf. injection Hf as <-.
      rewrite Hrel in Hre. injection Hre as <-.
      rewrite Hget in Hp. injection Hp as <-. eauto.
Qed.

End Depends.

(** C3 (amended). For a plain string entry of a [fields.depends] list,
    split on the dots: when every segment before the last carries the
    prefix [_parent_] and names a to-one field whose target the pool
    knows, the last segment is looked up among the fields of the model
    reached, and is reported as [UnknownAttribute] exactly when it is
    not one of them; otherwise the first segment that cannot be followed
    gives exactly one [UnknownAttribute] or [UnknownModel] and the rest of
    the entry is skipped.  In both cases the check returns and goes on
    with the remaining arguments of the list.  (The entry is on a line of
    the file and no marker suppresses the two codes there; the companion
    gives every to-one field its target.) *)
Theorem C3_depends_entry (companion : Companion) (env : Env) (pool : Pool)
    (model : PoolModel) (at_ : Meta) (literal : string)
    (rest : list (arg expr)) (locals : depends_locals) (s : PyState) :
  let segments := Py.split "." (Py.unquote literal) in
  well_formed_pool companion pool →
  to_one_has_relation model →
  in_file (_raw_lines env) (line (start (range at_))) →
  ignored PythonAnalyzerC (_raw_lines env) "1007" (line (start (range at_)))
    = Some false →
  ignored PythonAnalyzerC (_raw_lines env) "1006" (line (start (range at_)))
    = Some false →
  ∃ new locals' final,
    last segments = Some final
    ∧ check_depends_entry companion env pool model at_ literal locals s
      = (Return locals', set_diagnostics (_diagnostics s ++ new) s)
    ∧ (∀ target,
         reaches companion pool model (Py.init segments) target →
         new = if bool_decide (is_Some (fields target !! final)) then []
               else [{| d_class := UnknownAttribute final (name target);
                        _position := range at_ |}])
    ∧ ((¬ ∃ target, reaches companion pool model (Py.init segments) target) →
       ∃ c, unknown_reference c
            ∧ new = [{| d_class := c; _position := range at_ |}])
    ∧ fold_args companion env pool model
        (Arg None (SimpleString at_ literal) :: rest) locals s
      = fold_args companion env pool model rest locals'
          (set_diagnostics (_diagnostics s ++ new) s).
Proof.
  intros segments Hpool Hmodel Hat H1007 H1006.
  destruct (split_last "." (Py.unquote literal)) as [final Hfinal].
  fold segments in Hfinal.
  assert (∃ new locals',
            check_depends_entry companion env pool model at_ literal locals s
            = (Return locals', set_diagnostics (_diagnostics s ++ new) s)
            ∧ (∀ target,
                 reaches companion pool model (Py.init segments) target →
                 new = if bool_decide (is_Some (fields target !! final)) then []
                       else [{| d_class := UnknownAttribute final (name target);
                                _position := range at_ |}])
            ∧ ((¬ ∃ target, reaches companion pool model (Py.init segments) target) →
               ∃ c, unknown_reference c
                    ∧ new = [{| d_class := c; _position := range at_ |}]))
    as (new & locals' & E & Hok & Hbad).
  { unfold check_depends_entry. fold segments. unfold bind at 1.
    destruct (depends_parents_spec companion env pool at_ Hpool H1007 H1006
                (Py.init segments) model (field_name locals) s Hmodel)
      as [(target & last' & Hr & _ & E) | (Hno & c & stopped & seg & Hc & E)];
      rewrite E.
    - rewrite Hfinal. cbn [of_option]. unfold bind at 1. cbn [ret].
      case_bool_decide as Hfield.
      + exists [], {| cur_model := Some target; field_name := Some final |}.
        rewrite set_diagnostics_same. split; [reflexivity |]. split.
        * intros t Ht. rewrite (reaches_functional _ _ _ _ _ _ Ht Hr).
          by rewrite bool_decide_eq_true_2.
        * intros Hno. exfalso. eauto.
      + exists [{| d_class := UnknownAttribute final (name target);
                   _position := range at_ |}],
          {| cur_model := Some target; field_name := Some final |}.
        unfold bind. rewrite (unknown_attribute_kept companion) by assumption.
        split; [reflexivity |]. split.
        * intros t Ht. rewrite (reaches_functional _ _ _ _ _ _ Ht Hr).
          by rewrite bool_decide_eq_false_2.
        * intros Hno. exfalso. eauto.
    - exists [{| d_class := c; _position := range at_ |}],
        {| cur_model := Some stopped; field_name := Some seg |}.
      split; [reflexivity |]. split; [| eauto].
      intros t Ht. exfalso. eauto. }
  exists new, locals', final.
  split; [exact Hfinal |]. split; [exact E |]. split; [exact Hok |].
  split; [exact Hbad |].
  cbn [fold_args]. unfold bind at 1. unfold check_depends_arg. rewrite E.
  reflexivity.
Qed.

(** The sample pool gives every to-one field its target. *)
Lemma sample_pool_ok : well_formed_pool Sample.companion Sample.res_pool.
Proof.
  intros name model. unfold Pool_get. case_match; [| discriminate].
  intros [= <-] f field. cbn [fields fetch_model Sample.companion].
  repeat case_match; cbn; rewrite ?lookup_insert, ?lookup_empty;
    repeat case_decide; intros; simplify_eq; eauto; discriminate.
Qed.

Lemma sample_book_ok : to_one_has_relation Sample.book.
Proof.
  intros f field. cbn. rewrite ?lookup_insert, ?lookup_empty.
  repeat case_decide; intros; simplify_eq; eauto; discriminate.
Qed.

Lemma C3_witness :
  ∃ new locals',
    check_depends_entry Sample.companion Sample.depends_env Sample.res_pool
      Sample.book Sample.entry_at "'_parent_author.whatever'"
      {| cur_model := None; field_name := None |}
      (Sample.in_class "BookOverride" Sample.book)
    = (Return locals',
       set_diagnostics ([] ++ new) (Sample.in_class "BookOverride" Sample.book))
    ∧ new = [{| d_class := UnknownAttribute "whatever" "author";
                _position := range Sample.entry_at |}].
Proof.
  destruct (C3_depends_entry Sample.companion Sample.depends_env Sample.res_pool
              Sample.book Sample.entry_at "'_parent_author.whatever'" []
              {| cur_model := None; field_name := None |}
              (Sample.in_class "BookOverride" Sample.book)
              sample_pool_ok sample_book_ok)
    as (new & locals' & final & Hfinal & E & Hok & _).
  - unfold in_file. cbn. lia.
  - vm_compute. reflexivity.
  - vm_compute. reflexivity.
  - exists new, locals'. split; [exact E |].
    vm_compute in Hfinal. injection Hfinal as <-.
    rewrite (Hok Sample.author).
    + vm_compute. reflexivity.
    + change (Py.init (Py.split "." (Py.unquote "'_parent_author.whatever'")))
        with ["_parent_" +:+ "author"].
      eapply (reaches_cons _ _ _ "author"); [| | | | constructor];
        vm_compute; reflexivity.
Defined.

(** C3 as stated fails on the last segment: [create] is a member of
    [book] (a method), the entry [create] has no other segment, and yet it
    is reported, because the last segment is looked up among the fields. *)
Lemma C3_counterexample :
  has_attribute Sample.book "create" = true
  ∧ reaches Sample.companion Sample.res_pool Sample.book
      (Py.init (Py.split "." (Py.unquote "'create'"))) Sample.book
  ∧ _diagnostics
      (check_depends_entry Sample.companion Sample.depends_env Sample.res_pool
         Sample.book Sample.entry_at "'create'"
         {| cur_model := None; field_name := None |}
         (Sample.in_class "BookOverride" Sample.book)).2
    = [{| d_class := UnknownAttribute "create" "book";
          _position := range Sample.entry_at |}].
Proof.
  split; [vm_compute; reflexivity |].
  split; [constructor | vm_compute; reflexivity].
Qed.

Lemma C4_witness :
  _check_super_call Sample.companion Sample.override_env
    (Sample.method_ "create" [Other []])
    (Sample.entering (Sample.method_ "create" [Other []]))
  = (Return tt,
     set_diagnostics
       ([] ++ [{| d_class := MissingSuperCall;
                  _position := range (Sample.at_ 61 3 8 14) |}])
       (Sample.entering (Sample.method_ "create" [Other []])))
  ∧ ∃ new,
      _check_super_call Sample.companion Sample.override_env
        (Sample.method_ "orphan" [Expr (Sample.super_call "orphan")])
        (Sample.entering
           (Sample.method_ "orphan" [Expr (Sample.super_call "orphan")]))
      = (Return tt,
         set_diagnostics ([] ++ new)
           (Sample.entering
              (Sample.method_ "orphan" [Expr (Sample.super_call "orphan")])))
      ∧ List.filter is_override_diagnostic new
        = [{| d_class := SuperWithoutParent;
              _position := range (Sample.at_ 61 3 8 14) |}].
Proof.
  split.
  - refine (proj2 (C4_override_discipline Sample.companion Sample.override_env
                     (Sample.method_ "create" [Other []])
                     (Sample.entering (Sample.method_ "create" [Other []]))
                     (Sample.metadata_of "AuthorOverride" Sample.author)
                     Sample.author _ _ _ _ _ _ _) _).
    + reflexivity.
    + reflexivity.
    + reflexivity.
    + unfold in_file. cbn. lia.
    + apply chain_calls_in_file_spec. constructor.
    + vm_compute. reflexivity.
    + vm_compute. reflexivity.
    + intros H. apply has_chain_call_spec in H. apply H. reflexivity.
  - refine (proj1 (C4_override_discipline Sample.companion Sample.override_env
                     (Sample.method_ "orphan" [Expr (Sample.super_call "orphan")])
                     (Sample.entering
                        (Sample.method_ "orphan"
                           [Expr (Sample.super_call "orphan")]))
                     (Sample.metadata_of "AuthorOverride" Sample.author)
                     Sample.author _ _ _ _ _ _ _) _).
    + reflexivity.
    + reflexivity.
    + reflexivity.
    + unfold in_file. cbn. lia.
    + apply chain_calls_in_file_spec.
      repeat constructor; unfold in_file; cbn; lia.
    + vm_compute. reflexivity.
    + vm_compute. reflexivity.
    + apply has_chain_call_spec. discriminate.
Defined.

(** The claim as it stood fails on two chains.  The method [delete] has no
    chain call and, beyond the current definition, a parent with a body
    that is found and carries no marker; the parent before that one
    carries the marker, and the method gets no [MissingSuperCall].  The
    method [states] has a chain call and the only entry beyond the current
    definition has no body; it gets no [SuperWithoutParent]. *)
Lemma C4_counterexample :
  (¬ has_chain_call (Sample.method_ "delete" [Other []])
   ∧ (∃ entry file_name first_line_no,
        entry ∈ beyond
                  (class_path Sample.marked_parent_env
                     (Sample.metadata_of "AuthorOverride" Sample.author))
                  (get_super_information Sample.chains_companion Sample.author
                     "delete")
        ∧ entry.2 = Defined file_name first_line_no
        ∧ find_parent Sample.marked_parent_env file_name first_line_no
          = ParentFound []
        ∧ ignore_error_code [] "1004" = false)
   ∧ generate_diagnostics Sample.chains_companion Sample.marked_parent_env
       (Sample.overriding (Sample.method_ "delete" [Other []]))
     = Return [])
  ∧ (has_chain_call (Sample.method_ "states" [Expr (Sample.super_call "states")])
     ∧ Forall (fun entry => entry.2 = NoCode)
         (beyond
            (class_path Sample.marked_parent_env
               (Sample.metadata_of "AuthorOverride" Sample.author))
            (get_super_information Sample.chains_companion Sample.author
               "states"))
     ∧ generate_diagnostics Sample.chains_companion Sample.marked_parent_env
         (Sample.overriding
            (Sample.method_ "states" [Expr (Sample.super_call "states")]))
       = Return []).
Proof.
  split; [split; [| split] | split; [| split]].
  - intros H. apply has_chain_call_spec in H. apply H. reflexivity.
  - exists ("<class 'trytond.model.modelsql.ModelSQL'>", Defined "modelsql.py" 100),
      "modelsql.py", 100.
    split; [| split; [| split]]; try reflexivity.
    vm_compute. apply list_elem_of_further, list_elem_of_here.
  - vm_compute. reflexivity.
  - apply has_chain_call_spec. discriminate.
  - vm_compute. repeat constructor.
  - vm_compute. reflexivity.
Qed.

(** The three cases, from the entry point. *)
Example missing_super_call :
  generate_diagnostics Sample.companion Sample.override_env
    (Sample.overriding (Sample.method_ "create" [Other []]))
  = Return [{| d_class := MissingSuperCall;
               _position := range (Sample.at_ 61 3 8 14) |}].
Proof. vm_compute. reflexivity. Qed.

Example super_without_parent :
  generate_diagnostics Sample.companion Sample.override_env
    (Sample.overriding
       (Sample.method_ "orphan" [Expr (Sample.super_call "orphan")]))
  = Return [{| d_class := SuperWithoutParent;
               _position := range (Sample.at_ 61 3 8 14) |}].
Proof. vm_compute. reflexivity. Qed.

Example no_body_ends_the_search :
  generate_diagnostics Sample.companion Sample.override_env
    (Sample.overriding (Sample.method_ "validate" [Other []]))
  = Return [].
Proof. vm_compute. reflexivity. Qed.

(** Opening the file of the parent fails: the analysis of the file stops
    on the error. *)
Example unreadable_parent_raises :
  generate_diagnostics Sample.chains_companion Sample.marked_parent_env
    (Sample.overriding (Sample.method_ "export" [Other []]))
  = Raise OSError.
Proof. vm_compute. reflexivity. Qed.

(** ** Attribute chains *)

Section Chains.
Variable companion : Companion.
Variable env : Env.




Lemma get_pool_in_class metadata s :
  _class_metadata s = Some metadata →
  PythonAnalyzer_get_pool companion env s = (Return (Some (_pool metadata)), s).
Proof. intros H. unfold PythonAnalyzer_get_pool, bind, get. rewrite H. reflexivity. Qed.





End Chains.



(** The example of the claim, from the entry point. *)
Example chain_to_author_is_clean :
  generate_diagnostics Sample.companion (Sample.source_env "author" None)
    (Sample.source "author") = Return [].
Proof. vm_compute. reflexivity. Qed.

Example chain_to_missing_field :
  generate_diagnostics Sample.companion (Sample.source_env "missingField" None)
    (Sample.source "missingField")
  = Return [{| d_class := UnknownAttribute "missingField" "book";
               _position := range (Sample.at_ 7 4 22 34) |}].
Proof. vm_compute. reflexivity. Qed.

(** ** Assignments *)

Section Always.
Context {S : Type} (T : S → S → Prop) `{!PreOrder T}.

(** Whatever [m] does, returning or raising, it relates the states by
    [T]. *)
Definition always {A} (m : M S A) : Prop := ∀ s, T s (m s).2.

Lemma always_ret {A} (a : A) : always (ret a).
Proof. intros s. reflexivity. Qed.

Lemma always_raise {A} e : always (raise e : M S A).
Proof. intros s. reflexivity. Qed.

Lemma always_get : always get.
Proof. intros s. reflexivity. Qed.

Lemma always_modify (f : S → S) : (∀ s, T s (f s)) → always (modify f).
Proof. intros H s. apply H. Qed.

Lemma always_bind {A B} (m : M S A) (k : A → M S B) :
  always m → (∀ a, always (k a)) → always (bind m k).
Proof.
  intros Hm Hk s. unfold bind. specialize (Hm s).
  destruct (m s) as [[a|e] s1]; cbn in *; [| exact Hm].
  etrans; [exact Hm | apply Hk].
Qed.

Lemma always_for_each {A} (l : list A) (body : A → M S unit) :
  (∀ x, always (body x)) → always (for_each l body).
Proof.
  intros H. induction l; cbn [for_each]; [apply always_ret |].
  apply always_bind; auto.
Qed.

Lemma always_of_option {A} (o : option A) e : always (of_option o e).
Proof. destruct o; [apply always_ret | apply always_raise]. Qed.
End Always.

Section Assignments.
Variable companion : Companion.
Variable env : Env.

Definition not_a_model_change (d : Diagnostic) : Prop :=
  err_code (d_class d) ≠ "1008".

(** The step adds diagnostics, none of them a [ChangeVariableModel]. *)
Definition no_model_change (s s' : PyState) : Prop :=
  ∃ new, Forall not_a_model_change new
         ∧ _diagnostics s' = _diagnostics s ++ new.

#[local] Instance no_model_change_preorder : PreOrder no_model_change.
Proof.
  split.
  - intros s. exists []. split; [constructor | by rewrite app_nil_r].
  - intros s1 s2 s3 (n1 & P1 & E1) (n2 & P2 & E2). exists (n1 ++ n2).
    split; [by apply Forall_app |]. by rewrite E2, E1, app_assoc.
Qed.

Lemma add_diagnostic_no_model_change c m :
  err_code c ≠ "1008" →
  always no_model_change (add_diagnostic env (init_from_analyzer c m)).
Proof.
  intros Hc s. unfold add_diagnostic, init_from_analyzer, add_diagnostic_to.
  cbn [d_class _position].
  destruct (ignored _ _ _ _) as [[]|]; cbn.
  - exists []. split; [constructor | cbn; by rewrite app_nil_r].
  - exists [{| d_class := c; _position := range m |}].
    split; [| reflexivity]. constructor; [exact Hc | constructor].
  - reflexivity.
Qed.

Ltac unchanged :=
  intros ?; exists []; split; [constructor | cbn; by rewrite app_nil_r].

Ltac assign_step :=
  repeat first
    [ apply no_model_change_preorder
    | apply add_diagnostic_no_model_change; discriminate
    | apply always_ret
    | apply always_raise
    | apply always_get
    | apply always_of_option
    | apply always_modify; unchanged
    | apply (always_for_each no_model_change); intros ?
    | apply (always_bind no_model_change); [| intros ?]
    | case_match ].

Lemma get_pool_no_model_change :
  always no_model_change (PythonAnalyzer_get_pool companion env).
Proof. unfold PythonAnalyzer_get_pool. assign_step. Qed.

Lemma handle_pool_get_no_model_change node :
  always no_model_change (_handle_pool_get companion env node).
Proof.
  unfold _handle_pool_get, pool_get_of_kind, set_mapping.
  apply (always_bind no_model_change); [apply get_pool_no_model_change | intros ?].
  assign_step.
Qed.

Lemma get_type_no_model_change node :
  always no_model_change (_get_type companion env node).
Proof.
  unfold _get_type.
  apply (always_bind no_model_change); [apply always_get; apply _ | intros ?].
  repeat case_match; try (apply always_ret; apply _);
    apply handle_pool_get_no_model_change.
Qed.

Lemma get_list_type_no_model_change node :
  always no_model_change (_get_list_type node).
Proof. unfold _get_list_type. assign_step. Qed.

(** A plain assignment never reports a change of model. *)
Lemma leave_Assign_no_model_change targets value :
  always no_model_change (leave_Assign companion env targets value).
Proof.
  unfold leave_Assign, _check_is_pool, set_mapping, set_list_mapping, pop_both.
  repeat first
    [ apply get_type_no_model_change
    | apply get_list_type_no_model_change
    | apply no_model_change_preorder
    | apply always_ret
    | apply always_raise
    | apply always_get
    | apply always_of_option
    | apply always_modify; unchanged
    | apply (always_for_each no_model_change); intros ?
    | apply (always_bind no_model_change); [| intros ?]
    | case_match ].
Qed.

End Assignments.

(** C1 (amended). Leaving an annotated assignment [target: T = value] whose
    value is inferred as a record of the model [new]: the target is bound
    to [new]; when the annotation declared a record of the model
    [declared] and [new] differs from it, exactly one
    [ChangeVariableModel] (a warning) from [declared] to [new] is added,
    on the target (no marker suppressing it there); when they are the same
    model, or when the annotation declared no record, nothing is added.
    The model compared with is the declared one, not the one the variable
    was bound to.  Leaving a plain assignment [target = value] whose value
    is inferred as a record of the model [new] (and is no [Pool()] call)
    binds the target to [new] and adds nothing, whatever the variable was
    bound to; and no plain assignment at all adds a
    [ChangeVariableModel]. *)
Theorem C1_model_change_on_annotated_assignment_only
    (companion : Companion) (env : Env) :
  (∀ (m : Meta) (target : NameNode) (value : option expr) (s s1 : PyState)
     (new declared : PoolModel),
     get_type_opt companion env value s = (Return (Some new), s1) →
     _node_mappings s1 !! (inr (nid m) : node_key) = Some declared →
     (same_model new declared = false →
      ignored PythonAnalyzerC (_raw_lines env) "1008"
        (line (start (range (n_meta target)))) = Some false) →
     ∃ s',
       leave_AnnAssign companion env m (Name target) value s = (Return tt, s')
       ∧ _node_mappings s' !! (inl (n_value target) : node_key) = Some new
       ∧ _diagnostics s'
         = _diagnostics s1 ++
           (if same_model new declared then []
            else [{| d_class := ChangeVariableModel (name declared) (name new);
                     _position := range (n_meta target) |}])
       ∧ severity (ChangeVariableModel (name declared) (name new)) = Warning)
  ∧ (∀ (m : Meta) (target : NameNode) (value : option expr) (s s1 : PyState)
       (new : PoolModel),
       get_type_opt companion env value s = (Return (Some new), s1) →
       _node_mappings s1 !! (inr (nid m) : node_key) = None →
       leave_AnnAssign companion env m (Name target) value s
       = (Return tt,
          set_node_mappings
            (<[(inl (n_value target) : node_key) := new]> (_node_mappings s1)) s1))
  ∧ (∀ (target : NameNode) (more : list expr) (value : expr) (s s1 : PyState)
       (new : PoolModel),
       n_value target ≠ "" →
       ¬ pool_call value →
       _get_type companion env value s = (Return (Some new), s1) →
       leave_Assign companion env (Name target :: more) value s
       = (Return tt,
          set_node_mappings
            (<[(inl (n_value target) : node_key) := new]> (_node_mappings s1)) s1))
  ∧ (∀ (targets : list expr) (value : expr) (s : PyState),
       no_model_change s (leave_Assign companion env targets value s).2).
Proof.
  split; [| split; [| split;
    [| intros targets value s; apply leave_Assign_no_model_change]]].
  - intros m target value s s1 new declared Hget Hdecl Hign.
    unfold leave_AnnAssign. unfold bind at 1. rewrite Hget.
    unfold bind at 1. unfold get at 1. unfold bind at 1. rewrite Hdecl.
    destruct (same_model new declared) eqn:Hsame; cbn [negb].
    + eexists. split; [reflexivity |].
      cbn [_node_mappings _diagnostics set_node_mappings]. rewrite app_nil_r.
      split; [apply lookup_insert_eq | split; reflexivity].
    + rewrite (add_diagnostic_kept companion) by exact (Hign eq_refl).
      eexists. split; [reflexivity |].
      cbn [_node_mappings _diagnostics set_node_mappings set_diagnostics].
      split; [apply lookup_insert_eq | split; reflexivity].
  - intros m target value s s1 new Hget Hdecl.
    unfold leave_AnnAssign. unfold bind at 1. rewrite Hget.
    unfold bind at 1. unfold get at 1. unfold bind at 1. rewrite Hdecl.
    reflexivity.
  - intros target more value s s1 new Hname Hpool Hget.
    unfold leave_Assign.
    assert (_check_is_pool (Name target :: more) value s = (Return false, s))
      as Hcheck.
    { unfold _check_is_pool. destruct more; [| reflexivity].
      destruct value as [| | | | |m func args| | | |]; try reflexivity.
      destruct func; try reflexivity.
      destruct (String.eqb (n_value n) "Pool") eqn:E; [| reflexivity].
      exfalso. apply Hpool. exists m, n, args.
      split; [reflexivity | by apply String.eqb_eq]. }
    unfold bind at 1. rewrite Hcheck. cbv beta iota.
    assert (truthy (Some (n_value target)) = true) as Htruthy.
    { cbn. apply negb_true_iff, String.eqb_neq. exact Hname. }
    unfold bind at 1.
    change (of_option (Py.getitem (Name target :: more) 0) IndexError s)
      with (Return (Name target), s).
    cbn [classify_target]. unfold bind at 1. rewrite Hget, Htruthy.
    reflexivity.
Qed.

Lemma C1_witness :
  (∃ s',
     leave_AnnAssign Sample.companion Sample.assign_env (Sample.at_ 61 6 8 21)
       (Name (Sample.y_target 6)) (Some (Name (Sample.value_ 6 20 "b")))
       Sample.declared_in_method = (Return tt, s')
     ∧ _node_mappings s' !! (inl (n_value (Sample.y_target 6)) : node_key)
       = Some Sample.book
     ∧ _diagnostics s'
       = _diagnostics Sample.declared_in_method ++
         (if same_model Sample.book Sample.author then []
          else [{| d_class := ChangeVariableModel (name Sample.author)
                                (name Sample.book);
                   _position := range (n_meta (Sample.y_target 6)) |}])
     ∧ severity (ChangeVariableModel (name Sample.author) (name Sample.book))
       = Warning)
  ∧ leave_Assign Sample.companion Sample.assign_env [Name (Sample.x_target 5)]
      (Name (Sample.value_ 5 12 "b")) Sample.in_method
    = (Return tt,
       set_node_mappings
         (<[(inl "x" : node_key) := Sample.book]> (_node_mappings Sample.in_method))
         Sample.in_method).
Proof.
  split.
  - apply (proj1 (C1_model_change_on_annotated_assignment_only
                    Sample.companion Sample.assign_env)
             (Sample.at_ 61 6 8 21) (Sample.y_target 6)
             (Some (Name (Sample.value_ 6 20 "b")))
             Sample.declared_in_method Sample.declared_in_method
             Sample.book Sample.author).
    + vm_compute. reflexivity.
    + vm_compute. reflexivity.
    + intros _. vm_compute. reflexivity.
  - apply (proj1 (proj2 (proj2 (C1_model_change_on_annotated_assignment_only
                                  Sample.companion Sample.assign_env)))
             (Sample.x_target 5) [] (Name (Sample.value_ 5 12 "b"))
             Sample.in_method Sample.in_method Sample.book).
    + discriminate.
    + intros (m & f & args & H & _). discriminate.
    + vm_compute. reflexivity.
Defined.

(** C1, as stated, fails on both kinds of assignment.  In a method where
    [x] is bound to the model [author] and [b] to the model [book],
    leaving the plain assignment [x = b] rebinds [x] to [book] and adds no
    diagnostic, although no marker suppresses the code on that line; so
    does the whole analysis of a method that assigns [self] and then [b]
    to [x].  Leaving the annotated assignment [x: Record['book'] = b]
    there rebinds [x] to [book] as well and adds no diagnostic, the value
    being of the declared model; so does the whole analysis of a method
    that assigns [self] to [x] and then redeclares it. *)
Lemma C1_counterexample :
  (_node_mappings Sample.in_method !! (inl "x" : node_key) = Some Sample.author
   ∧ _get_type Sample.companion Sample.assign_env (Name (Sample.value_ 5 12 "b"))
       Sample.in_method
     = (Return (Some Sample.book), Sample.in_method)
   ∧ same_model Sample.book Sample.author = false
   ∧ ignored PythonAnalyzerC (_raw_lines Sample.assign_env) "1008" 5 = Some false
   ∧ (leave_Assign Sample.companion Sample.assign_env [Name (Sample.x_target 5)]
        (Name (Sample.value_ 5 12 "b")) Sample.in_method).1 = Return tt
   ∧ _diagnostics
       (leave_Assign Sample.companion Sample.assign_env [Name (Sample.x_target 5)]
          (Name (Sample.value_ 5 12 "b")) Sample.in_method).2 = []
   ∧ _node_mappings
       (leave_Assign Sample.companion Sample.assign_env [Name (Sample.x_target 5)]
          (Name (Sample.value_ 5 12 "b")) Sample.in_method).2
     !! (inl "x" : node_key) = Some Sample.book
   ∧ generate_diagnostics Sample.companion Sample.assign_env
       (Sample.assigning [Sample.plain_assign 4 "self"; Sample.plain_assign 5 "b"])
     = Return [])
  ∧ (_get_type Sample.companion Sample.redeclare_env
       (Name (Sample.value_ 6 28 "b")) Sample.in_method
     = (Return (Some Sample.book), Sample.in_method)
     ∧ ignored PythonAnalyzerC (_raw_lines Sample.redeclare_env) "1008" 6
       = Some false
     ∧ (leave_AnnAssign Sample.companion Sample.redeclare_env
          (Sample.at_ 61 6 8 29) (Name (Sample.x_target 6))
          (Some (Name (Sample.value_ 6 28 "b")))
          (visit_AnnAssign Sample.companion Sample.redeclare_env
             (Sample.at_ 61 6 8 29) (Sample.book_annotation 6)
             Sample.in_method).2).1 = Return tt
     ∧ _diagnostics
         (leave_AnnAssign Sample.companion Sample.redeclare_env
            (Sample.at_ 61 6 8 29) (Name (Sample.x_target 6))
            (Some (Name (Sample.value_ 6 28 "b")))
            (visit_AnnAssign Sample.companion Sample.redeclare_env
               (Sample.at_ 61 6 8 29) (Sample.book_annotation 6)
               Sample.in_method).2).2 = []
     ∧ _node_mappings
         (leave_AnnAssign Sample.companion Sample.redeclare_env
            (Sample.at_ 61 6 8 29) (Name (Sample.x_target 6))
            (Some (Name (Sample.value_ 6 28 "b")))
            (visit_AnnAssign Sample.companion Sample.redeclare_env
               (Sample.at_ 61 6 8 29) (Sample.book_annotation 6)
               Sample.in_method).2).2
       !! (inl "x" : node_key) = Some Sample.book
     ∧ generate_diagnostics Sample.companion Sample.redeclare_env
         (Sample.assigning
            [Sample.plain_assign 4 "self"; Sample.redeclared_assign 6 "b"])
       = Return []).
Proof. repeat split; vm_compute; reflexivity. Qed.

(** The annotated assignment of the sample, from the entry point. *)
Example annotated_assignment_warns :
  generate_diagnostics Sample.companion Sample.assign_env
    (Sample.assigning
       [Sample.plain_assign 4 "self"; Sample.plain_assign 5 "b";
        Sample.annotated_assign 6 "b"])
  = Return [{| d_class := ChangeVariableModel "author" "book";
               _position := range (n_meta (Sample.y_target 6)) |}].
Proof. vm_compute. reflexivity. Qed.

(** * Further properties *)

(** ** Suppression markers in data files and in views *)



(** The blanks before the comment are the ones of [str.lstrip]: a line
    that starts with an ideographic space and a tabulation before [<!--]
    carries the marker for the line below it. *)
Example marker_after_ideographic_space :
  suppressed_at "<!--" Fixture.wide_marked_data "5003" 3
  ∧ add_diagnostic_to XMLAnalyzerC Fixture.wide_marked_data
      (Some (Fixture.missing_model 3)) [] = Return [].
Proof.
  split; [| vm_compute; reflexivity].
  right. eexists. split; [reflexivity |]. split.
  - exists (Fixture.ideographic_space +:+ Fixture.tabulation),
      " IGNORE-TRYTON-LS-5003 -->".
    split; [| reflexivity].
    exists [Fixture.ideographic_space; Fixture.tabulation].
    split; [| reflexivity].
    constructor; [listed | constructor; [listed | constructor]].
  - exists (Fixture.ideographic_space +:+ Fixture.tabulation +:+ "<!-- "), " -->".
    reflexivity.
Qed.



(** [ignored] reads the line of the diagnostic without a guard: a
    diagnostic that starts beyond the last line of the file makes
    [add_diagnostic] raise [IndexError], in the three walkers. *)
Theorem diagnostic_beyond_the_file_raises (k : analyzer_class)
    (raw_lines : list string) (d : Diagnostic) (recorded : list Diagnostic) :
  Z.of_nat (length raw_lines) < line (start (_position d)) →
  add_diagnostic_to k raw_lines (Some d) recorded = Raise IndexError.
Proof.
  intros H. unfold add_diagnostic_to.
  assert (Analyzer.ignored raw_lines (err_code (d_class d))
            (line (start (_position d))) = None) as Hbase.
  { unfold Analyzer.ignored, Py.getitem.
    assert ((line (start (_position d)) - 1 <? Z.of_nat (length raw_lines)) = false)
      as -> by (apply Z.ltb_ge; lia).
    assert ((line (start (_position d)) - 1 <? 0) = false)
      as -> by (apply Z.ltb_ge; lia).
    rewrite !andb_false_r. reflexivity. }
  destruct k; unfold ignored, Analyzer.ignored_above; rewrite Hbase; reflexivity.
Qed.

Lemma diagnostic_beyond_the_file_witness :
  add_diagnostic_to XMLAnalyzerC Fixture.marked_data
    (Some (Fixture.missing_model 6)) [] = Raise IndexError.
Proof.
  apply (diagnostic_beyond_the_file_raises XMLAnalyzerC Fixture.marked_data
           (Fixture.missing_model 6) []).
  cbn. lia.
Defined.

(** ** Diagnostic classes *)

(** The code of a diagnostic decides its severity: two diagnostics with
    the same code, whatever their message data, have the same severity. *)
Theorem code_decides_severity (c1 c2 : DiagnosticClass) :
  err_code c1 = err_code c2 → severity c1 = severity c2.
Proof. destruct c1, c2; cbn; intros H; try reflexivity; discriminate. Qed.

Lemma code_decides_severity_witness :
  severity (UnknownAttribute "a" "m") = severity (UnknownAttribute "b" "n").
Proof. apply code_decides_severity. reflexivity. Defined.

(** ** Requested ranges *)

(** [check_range] is the overlap test of two ranges in reading order:
    the range [r] is kept for the node at [metadata] unless one of the
    two ends before the other starts. *)
Theorem check_range_is_overlap (metadata r : CodeRange) :
  check_range metadata r = true
  ↔ ¬ pos_lt (end_ r) (start metadata) ∧ ¬ pos_lt (end_ metadata) (start r).
Proof.
  unfold check_range, pos_lt.
  repeat match goal with
         | |- context [?a <? ?b] =>
             destruct (Z.ltb_spec a b)
         | |- context [?a =? ?b] =>
             destruct (Z.eqb_spec a b)
         end; cbn [andb]; split; intros Hkept; try discriminate;
    try reflexivity; try lia; try (exfalso; lia).
Qed.

(** ** Sorted module lists *)

Lemma compare_le_trans s1 : ∀ s2 s3,
  String.compare s1 s2 ≠ Gt → String.compare s2 s3 ≠ Gt →
  String.compare s1 s3 ≠ Gt.
Proof.
  induction s1 as [|c1 s1 IH]; intros [|c2 s2] [|c3 s3]; simpl; try congruence.
  unfold Ascii.compare.
  destruct (N.compare_spec (N_of_ascii c1) (N_of_ascii c2)) as [E12|L12|G12];
    destruct (N.compare_spec (N_of_ascii c2) (N_of_ascii c3)) as [E23|L23|G23];
    destruct (N.compare_spec (N_of_ascii c1) (N_of_ascii c3)) as [E13|L13|G13];
    try congruence; try lia; try (intros; exfalso; lia).
  apply IH.
Qed.

#[local] Instance str_le_trans : Transitive str_le.
Proof.
  intros a b c. unfold str_le, String.leb. intros H1 H2.
  pose proof (compare_le_trans a b c) as H.
  destruct (String.compare a b), (String.compare b c), (String.compare a c);
    try reflexivity; try discriminate; exfalso; apply H; congruence.
Qed.

#[local] Instance str_le_antisym : AntiSymm eq str_le.
Proof. intros a b. apply String.leb_antisym. Qed.

Lemma insert_str_perm x l : Py_sort.insert_str x l ≡ₚ x :: l.
Proof.
  induction l as [|y l IH]; simpl; [reflexivity |].
  destruct (String.leb x y); [reflexivity |].
  rewrite IH. apply Permutation_swap.
Qed.

Lemma sorted_perm l : Py_sort.sorted l ≡ₚ l.
Proof.
  induction l as [|x l IH]; simpl; [reflexivity |].
  unfold Py_sort.sorted in *. cbn [foldr]. by rewrite insert_str_perm, IH.
Qed.

Lemma insert_str_sorted x l :
  Sorted str_le l → Sorted str_le (Py_sort.insert_str x l).
Proof.
  induction 1 as [|y l Hs IH Hhd]; simpl; [repeat constructor |].
  destruct (String.leb x y) eqn:E.
  - constructor; [by constructor | by constructor].
  - constructor; [exact IH |].
    assert (str_le y x) as Hyx.
    { destruct (String.leb_total x y) as [H|H]; [congruence | exact H]. }
    destruct l as [|z l]; simpl; [by constructor |].
    destruct (String.leb x z); constructor; [exact Hyx |].
    by inversion Hhd.
Qed.

Lemma sorted_sorted l : Sorted str_le (Py_sort.sorted l).
Proof.
  induction l; unfold Py_sort.sorted in *; cbn [foldr];
    [constructor | by apply insert_str_sorted].
Qed.

Lemma sorted_permutation l1 l2 :
  l1 ≡ₚ l2 → Py_sort.sorted l1 = Py_sort.sorted l2.
Proof.
  intros H. apply (Sorted_unique str_le); try apply sorted_sorted.
  by rewrite !sorted_perm.
Qed.

(** ** The pool proxies *)

(** [PoolManager.get_pool] sorts the module names into the key of the
    pool: the order in which the names are given does not matter, and the
    key lists them in increasing order. *)
Theorem get_pool_ignores_order (companion : Companion)
    (names1 names2 : Dependencies) :
  names1 ≡ₚ names2 →
  get_pool companion names1 = get_pool companion names2
  ∧ Sorted str_le (_key (get_pool companion names1))
  ∧ _key (get_pool companion names1) ≡ₚ names1.
Proof.
  intros H. unfold get_pool. cbn [_key].
  rewrite (sorted_permutation _ _ H).
  split; [reflexivity |]. split; [apply sorted_sorted |].
  by rewrite sorted_perm.
Qed.

Lemma get_pool_ignores_order_witness :
  get_pool Sample.companion ["sample_module"; "res"]
  = get_pool Sample.companion ["res"; "sample_module"]
  ∧ Sorted str_le (_key (get_pool Sample.companion ["sample_module"; "res"]))
  ∧ _key (get_pool Sample.companion ["sample_module"; "res"])
    ≡ₚ ["sample_module"; "res"].
Proof.
  apply (get_pool_ignores_order Sample.companion ["sample_module"; "res"]
           ["res"; "sample_module"]).
  apply Permutation_swap.
Defined.

(** ** The module index *)

Lemma scan_keywords_keeps_type keywords : ∀ modules type_,
  Forall (fun k => sets_type k = false) keywords →
  (scan_keywords keywords modules type_).2 = type_.
Proof.
  induction keywords as [|k rest IH]; intros modules type_ H; [reflexivity |].
  inversion H as [|? ? Hk Hrest]; subst. cbn [scan_keywords].
  unfold sets_type in Hk.
  repeat case_match; simplify_eq; try discriminate; apply IH; exact Hrest.
Qed.

Lemma foldl_insert_other {K V} `{Countable K} (v : V) (keys : list K) :
  ∀ (r : gmap K V) k,
    k ∉ keys →
    foldl (fun r e => <[e.1 := e.2]> r) r (map (fun fc => (fc, v)) keys) !! k
    = r !! k.
Proof.
  induction keys as [|a keys IH]; intros r k Hk; [reflexivity |].
  cbn [map foldl fst snd]. rewrite IH by set_solver.
  apply lookup_insert_ne. set_solver.
Qed.

Lemma foldl_insert_same {K V} `{Countable K} (v : V) (keys : list K) :
  ∀ (r : gmap K V) k,
    k ∈ keys →
    foldl (fun r e => <[e.1 := e.2]> r) r (map (fun fc => (fc, v)) keys) !! k
    = Some v.
Proof.
  induction keys as [|a keys IH]; intros r k Hk; [by apply elem_of_nil in Hk |].
  cbn [map foldl fst snd].
  destruct (decide (k ∈ keys)) as [Hin|Hout]; [by apply IH |].
  rewrite foldl_insert_other by exact Hout.
  apply elem_of_cons in Hk as [-> | Hk]; [apply lookup_insert_eq | done].
Qed.

Lemma scan_body_skips name (before : list init_stmt) :
  ∀ stmts result type_,
    Forall (eq OtherStmt) before →
    scan_body name (before ++ stmts) result type_
    = scan_body name stmts result type_.
Proof.
  induction before as [|s before IH]; intros stmts result type_ H; [reflexivity |].
  inversion H as [|? ? <- Hrest]; subst. cbn [app scan_body]. by apply IH.
Qed.

(** [type_] is a local of [_get_modules_per_class] that only a
    [type_=<constant>] keyword binds: when the first [Pool.register] call
    of the entry point names a class and gives no such keyword, building
    the index raises [NameError]. *)
Theorem register_without_type_raises (name : string)
    (before rest : list init_stmt) (args : list init_arg)
    (keywords : list init_keyword) (more : list (list init_stmt)) :
  Forall (eq OtherStmt) before →
  class_refs args ≠ [] →
  Forall (fun k => sets_type k = false) keywords →
  _get_modules_per_class name
    (InitParsed ((before ++ PoolRegister args keywords :: rest) :: more))
  = inl (NameError "type_").
Proof.
  intros Hbefore Hargs Hkeywords.
  unfold _get_modules_per_class. cbn [scan_registers].
  rewrite scan_body_skips by exact Hbefore. cbn [scan_body].
  pose proof (scan_keywords_keeps_type keywords [name] None Hkeywords) as Hkeep.
  destruct (scan_keywords keywords [name] None) as [modules type_].
  cbn [snd] in Hkeep. subst type_.
  destruct (class_refs args); [done | reflexivity].
Qed.

Lemma register_without_type_witness :
  _get_modules_per_class "sample_module"
    (InitParsed (([OtherStmt] ++ [Fixture.register_untyped; Fixture.register_models])
                 :: []))
  = inl (NameError "type_").
Proof.
  apply (register_without_type_raises "sample_module" [OtherStmt]
           [Fixture.register_models]
           [ClassRef "wizard" "Print"]
           [{| kw_arg := Some "depends"; kw_value := KwList [Some "res"; None] |};
            Fixture.keyword_ "module" "sample_module"] []).
  - repeat constructor.
  - discriminate.
  - repeat constructor.
Defined.

(** [type_] keeps its value from one [Pool.register] call to the next: a
    call that gives no [type_] registers its classes with the kind of the
    call before it, and with its own sorted module list. *)
Theorem register_type_carries_over (name : string)
    (args1 args2 : list init_arg) (keywords1 keywords2 : list init_keyword)
    (kind file cls : string) :
  (scan_keywords keywords1 [name] None).2 = Some kind →
  Forall (fun k => sets_type k = false) keywords2 →
  (file, cls) ∈ class_refs args2 →
  ∃ result,
    _get_modules_per_class name
      (InitParsed [[PoolRegister args1 keywords1; PoolRegister args2 keywords2]])
    = inr result
    ∧ result !! (file, cls)
      = Some (kind,
              Py_sort.sorted (scan_keywords keywords2 [name] (Some kind)).1).
Proof.
  intros Hfirst Hkeywords Hin.
  unfold _get_modules_per_class. cbn [scan_registers scan_body].
  destruct (scan_keywords keywords1 [name] None) as [modules1 type1].
  cbn [snd] in Hfirst. subst type1.
  pose proof (scan_keywords_keeps_type keywords2 [name] (Some kind) Hkeywords)
    as Hkeep.
  destruct (scan_keywords keywords2 [name] (Some kind)) as [modules2 type2].
  cbn [snd fst] in *. subst type2.
  destruct (class_refs args1); cbn [default];
    (destruct (class_refs args2) as [|fc imports] eqn:E2;
     [by apply elem_of_nil in Hin |]);
    eexists; (split; [reflexivity |]); apply foldl_insert_same; exact Hin.
Qed.

Lemma register_type_carries_over_witness :
  ∃ result,
    _get_modules_per_class "sample_module"
      (InitParsed [[Fixture.register_models; Fixture.register_untyped]])
    = inr result
    ∧ result !! ("wizard", "Print")
      = Some ("model",
              Py_sort.sorted
                (scan_keywords
                   [{| kw_arg := Some "depends";
                       kw_value := KwList [Some "res"; None] |};
                    Fixture.keyword_ "module" "sample_module"]
                   ["sample_module"] (Some "model")).1).
Proof.
  apply (register_type_carries_over "sample_module"
           [ClassRef "module" "Book"; ClassRef "module" "Author"]
           [ClassRef "wizard" "Print"]
           [Fixture.keyword_ "module" "sample_module";
            Fixture.keyword_ "type_" "model"]
           [{| kw_arg := Some "depends"; kw_value := KwList [Some "res"; None] |};
            Fixture.keyword_ "module" "sample_module"]
           "model" "wizard" "Print").
  - reflexivity.
  - repeat constructor.
  - cbn. set_solver.
Defined.

Section Fs_ids.
Variable name : string.

(** What every entry of the index of identifiers satisfies. *)
Definition indexed (data_nodes : list data_node) (id : string)
    (entry : Dependencies * record_node) : Prop :=
  r_attrib entry.2 !! "id" = Some id
  ∧ name ∈ entry.1
  ∧ Sorted str_le entry.1
  ∧ ∃ d, d ∈ data_nodes ∧ entry.2 ∈ data_records d.

Lemma records_indexed data_nodes d modules :
  d ∈ data_nodes → name ∈ modules → Sorted str_le modules →
  ∀ recs (per_fs_ids : gmap string (Dependencies * record_node)),
    recs ⊆ data_records d →
    map_Forall (indexed data_nodes) per_fs_ids →
    map_Forall (indexed data_nodes)
      (foldl (fun per_fs_ids r =>
                match r_attrib r !! "id" with
                | None => per_fs_ids
                | Some id => <[id := (modules, r)]> per_fs_ids
                end) per_fs_ids recs).
Proof.
  intros Hd Hname Hsorted.
  induction recs as [|r recs IH]; intros per Hsub Hper; [exact Hper |].
  cbn [foldl]. apply IH; [set_solver |].
  destruct (r_attrib r !! "id") as [id|] eqn:Hid; [| exact Hper].
  apply map_Forall_insert_2; [| exact Hper].
  repeat split; cbn [fst snd]; auto.
  exists d. split; [exact Hd | set_solver].
Qed.

Lemma sections_indexed all :
  ∀ data_nodes (per_fs_ids : gmap string (Dependencies * record_node)),
  data_nodes ⊆ all →
  map_Forall (indexed all) per_fs_ids →
  map_Forall (indexed all)
    (foldl (fun per_fs_ids d =>
              let extra :=
                filter (fun x => x ≠ "")
                  (map Py.strip (Py.split "," (default "" (data_depends d)))) in
              let modules := Py_sort.sorted (name :: extra) in
              foldl (fun per_fs_ids r =>
                       match r_attrib r !! "id" with
                       | None => per_fs_ids
                       | Some id => <[id := (modules, r)]> per_fs_ids
                       end) per_fs_ids (data_records d))
       per_fs_ids data_nodes).
Proof.
  induction data_nodes as [|d data_nodes IH]; intros per Hsub Hper; [exact Hper |].
  cbn [foldl]. apply IH; [set_solver |].
  apply (records_indexed all d); auto.
  - set_solver.
  - rewrite sorted_perm. set_solver.
  - apply sorted_sorted.
Qed.
End Fs_ids.

(** Every entry of the index of identifiers that
    [_extract_fs_ids_infos] builds from a data file maps an identifier to
    a record of the file that carries it, with a sorted module list that
    holds the module itself. *)
Theorem fs_ids_index_entries (name : string) (data_nodes : list data_node)
    (id : string) (modules : Dependencies) (r : record_node) :
  _extract_fs_ids_infos name (XmlParsed data_nodes) !! id = Some (modules, r) →
  r_attrib r !! "id" = Some id
  ∧ name ∈ modules
  ∧ Sorted str_le modules
  ∧ ∃ d, d ∈ data_nodes ∧ r ∈ data_records d.
Proof.
  intros H.
  apply (sections_indexed name data_nodes data_nodes ∅ (reflexivity _)
           (map_Forall_empty _) id (modules, r) H).
Qed.

Lemma fs_ids_index_entries_witness :
  r_attrib (Fixture.record_ (Some "a") 8) !! "id" = Some "a"
  ∧ "sample_module" ∈ ["ir"; "res"; "sample_module"]
  ∧ Sorted str_le ["ir"; "res"; "sample_module"]
  ∧ ∃ d, d ∈ [{| data_depends := None;
                 data_records := [Fixture.record_ (Some "a") 3;
                                  Fixture.record_ None 4] |};
              {| data_depends := Some "res, ir";
                 data_records := [Fixture.record_ (Some "b") 7;
                                  Fixture.record_ (Some "a") 8] |}]
         ∧ Fixture.record_ (Some "a") 8 ∈ data_records d.
Proof.
  apply (fs_ids_index_entries "sample_module" _ "a"
           ["ir"; "res"; "sample_module"] (Fixture.record_ (Some "a") 8)).
  vm_compute. reflexivity.
Defined.

(** ** Assignments *)

(** Leaving [target: Records = value] when the value is a sequence of a
    model other than the declared one: the diagnostic that is due reads
    the declared model in the mappings of single records, where the
    statement has no entry, and the walk raises [KeyError] instead of
    reporting. *)
Theorem changed_sequence_annotation_raises (companion : Companion) (env : Env)
    (m : Meta) (target : NameNode) (value : option expr) (s s1 : PyState)
    (new declared : PoolModel) :
  get_type_opt companion env value s = (Return None, s1) →
  _node_mappings s1 !! (inr (nid m) : node_key) = None →
  get_list_type_opt value s1 = (Return (Some new), s1) →
  _node_list_mappings s1 !! (inr (nid m) : node_key) = Some declared →
  same_model new declared = false →
  leave_AnnAssign companion env m (Name target) value s = (Raise KeyError, s1).
Proof.
  intros Hsingle Hnode Hlist Hdeclared Hsame.
  unfold leave_AnnAssign, bind, get, ret.
  rewrite Hsingle. cbv beta iota. rewrite Hnode, Hlist. cbv beta iota.
  rewrite Hdeclared, Hsame. cbn [negb]. rewrite Hnode. reflexivity.
Qed.

Lemma changed_sequence_annotation_witness :
  leave_AnnAssign Sample.companion Sample.assign_env (Sample.at_ 61 6 8 24)
    (Name (Sample.name_ 60 6 8 10 "ys"))
    (Some (Name (Sample.name_ 62 6 22 24 "bs"))) Fixture.declared_sequence
  = (Raise KeyError, Fixture.declared_sequence).
Proof.
  apply (changed_sequence_annotation_raises Sample.companion Sample.assign_env
           (Sample.at_ 61 6 8 24) (Sample.name_ 60 6 8 10 "ys")
           (Some (Name (Sample.name_ 62 6 22 24 "bs")))
           Fixture.declared_sequence Fixture.declared_sequence
           Sample.book Sample.author);
    vm_compute; reflexivity.
Defined.

Lemma bind_returns {S A B} (m : M S A) (k : A → M S B) (s s1 : S) (a : A) :
  m s = (Return a, s1) → bind m k s = k a s1.
Proof. intros H. unfold bind. rewrite H. reflexivity. Qed.

Lemma for_each_set_mapping (model : PoolModel) (names : list string) :
  ∀ s, ∃ s',
    for_each names (fun x => set_mapping (inl x) model) s = (Return tt, s')
    ∧ _diagnostics s' = _diagnostics s
    ∧ _node_list_mappings s' = _node_list_mappings s
    ∧ (∀ x, x ∈ names → _node_mappings s' !! (inl x : node_key) = Some model)
    ∧ (∀ k, (∀ x, x ∈ names → k ≠ inl x) →
            _node_mappings s' !! k = _node_mappings s !! k).
Proof.
  induction names as [|n names IH]; intros s.
  - exists s. cbn [for_each]. repeat split; auto. intros x Hx. by apply elem_of_nil in Hx.
  - cbn [for_each]. unfold bind, set_mapping at 1, modify.
    destruct (IH (set_node_mappings (<[(inl n : node_key) := model]> (_node_mappings s)) s))
      as (s' & E & Hd & Hl & Hin & Hout).
    exists s'. split; [exact E |]. split; [exact Hd |]. split; [exact Hl |]. split.
    + intros x Hx. destruct (decide (x ∈ names)) as [Hr|Hr]; [by apply Hin |].
      apply elem_of_cons in Hx as [-> | Hx]; [| done].
      rewrite Hout; [apply lookup_insert_eq |].
      intros y Hy ?. simplify_eq. done.
    + intros k Hk. rewrite Hout.
      * cbn [_node_mappings set_node_mappings]. apply lookup_insert_ne.
        intros ?. subst k. apply (Hk n); [left | reflexivity].
      * intros x Hx. apply Hk. by right.
Qed.

(** Unpacking a sequence of records of a model into a tuple of names
    binds every name to a single record of that model, without any
    diagnostic. *)
Theorem unpacking_a_sequence_binds_records (companion : Companion) (env : Env)
    (m : Meta) (elements : list (element expr)) (names : list string)
    (value : expr) (s s1 : PyState) (model : PoolModel) :
  elements ≠ [] →
  element_names elements = Some names →
  _get_type companion env value s = (Return None, s1) →
  _get_list_type value s1 = (Return (Some model), s1) →
  ∃ s',
    leave_Assign companion env [Tuple m elements] value s = (Return tt, s')
    ∧ _diagnostics s' = _diagnostics s1
    ∧ _node_list_mappings s' = _node_list_mappings s1
    ∧ ∀ x, x ∈ names → _node_mappings s' !! (inl x : node_key) = Some model.
Proof.
  intros Hne Hnames Hsingle Hlist.
  destruct elements as [|e rest]; [done |].
  assert (names ≠ []) as Hnonempty.
  { intros ->. cbn in Hnames. repeat case_match; simplify_eq.
    destruct (element_names rest); discriminate. }
  unfold leave_Assign.
  erewrite bind_returns by reflexivity. cbv beta iota.
  erewrite bind_returns by reflexivity. cbn [classify_target].
  rewrite Hnames. cbv beta iota.
  erewrite bind_returns by exact Hsingle. cbv beta iota.
  erewrite bind_returns by exact Hlist. cbv beta iota.
  cbn [truthy]. destruct names as [|n names]; [done |].
  destruct (for_each_set_mapping model (n :: names) s1)
    as (s' & E & Hd & Hl & Hin & _).
  exists s'. auto.
Qed.

Lemma unpacking_a_sequence_witness :
  ∃ s',
    leave_Assign Sample.companion Sample.assign_env
      [Tuple (Sample.at_ 50 5 8 12)
         [Element (Name (Sample.name_ 51 5 8 9 "p"));
          Element (Name (Sample.name_ 52 5 11 12 "q"))]]
      (Name (Sample.name_ 53 5 15 17 "bs")) Fixture.with_sequence
    = (Return tt, s')
    ∧ _diagnostics s' = _diagnostics Fixture.with_sequence
    ∧ _node_list_mappings s' = _node_list_mappings Fixture.with_sequence
    ∧ ∀ x, x ∈ ["p"; "q"] → _node_mappings s' !! (inl x : node_key) = Some Sample.book.
Proof.
  apply (unpacking_a_sequence_binds_records Sample.companion Sample.assign_env
           (Sample.at_ 50 5 8 12)
           [Element (Name (Sample.name_ 51 5 8 9 "p"));
            Element (Name (Sample.name_ 52 5 11 12 "q"))] ["p"; "q"]
           (Name (Sample.name_ 53 5 15 17 "bs"))
           Fixture.with_sequence Fixture.with_sequence Sample.book).
  - discriminate.
  - reflexivity.
  - vm_compute. reflexivity.
  - vm_compute. reflexivity.
Defined.

(** Assigning a value of unknown model to a name makes the walker forget
    the name: it is bound neither to a record nor to a sequence
    afterwards, and nothing else changes. *)
Theorem assigning_unknown_value_forgets_target (companion : Companion)
    (env : Env) (target : NameNode) (value : expr) (s s1 : PyState) :
  n_value target ≠ "" →
  _check_is_pool [Name target] value s = (Return false, s) →
  _get_type companion env value s = (Return None, s1) →
  _get_list_type value s1 = (Return None, s1) →
  ∃ s',
    leave_Assign companion env [Name target] value s = (Return tt, s')
    ∧ _node_mappings s' = delete (inl (n_value target) : node_key) (_node_mappings s1)
    ∧ _node_list_mappings s'
      = delete (inl (n_value target) : node_key) (_node_list_mappings s1)
    ∧ _diagnostics s' = _diagnostics s1.
Proof.
  intros Hname Hpool Hsingle Hlist.
  unfold leave_Assign.
  erewrite bind_returns by exact Hpool. cbv beta iota.
  erewrite bind_returns by reflexivity. cbn [classify_target].
  cbv beta iota.
  erewrite bind_returns by exact Hsingle. cbv beta iota.
  erewrite bind_returns by exact Hlist. cbv beta iota.
  assert (truthy (Some (n_value target)) = true) as ->.
  { cbn [truthy]. apply negb_true_iff, String.eqb_neq. exact Hname. }
  eexists. split; [reflexivity |]. repeat split.
Qed.

Lemma assigning_unknown_value_witness :
  ∃ s',
    leave_Assign Sample.companion Sample.assign_env [Name (Sample.x_target 5)]
      (Name (Sample.value_ 5 12 "unknown")) Sample.in_method = (Return tt, s')
    ∧ _node_mappings s'
      = delete (inl (n_value (Sample.x_target 5)) : node_key)
          (_node_mappings Sample.in_method)
    ∧ _node_list_mappings s'
      = delete (inl (n_value (Sample.x_target 5)) : node_key)
          (_node_list_mappings Sample.in_method)
    ∧ _diagnostics s' = _diagnostics Sample.in_method.
Proof.
  apply (assigning_unknown_value_forgets_target Sample.companion
           Sample.assign_env (Sample.x_target 5)
           (Name (Sample.value_ 5 12 "unknown"))
           Sample.in_method Sample.in_method).
  - discriminate.
  - reflexivity.
  - vm_compute. reflexivity.
  - vm_compute. reflexivity.
Defined.

(** A name assigned [Pool()] becomes a pool variable, and a later
    [<name>.get("model")] is then read as a lookup in the pool; the
    assignment itself binds no model and adds no diagnostic. *)
Theorem pool_variable_is_recognised (companion : Companion) (env : Env)
    (target pool_name receiver get_ : NameNode) (m m1 m2 m3 : Meta)
    (args : list (arg expr)) (keyword : option NameNode) (literal : string)
    (s : PyState) :
  n_value pool_name = "Pool" →
  n_value receiver = n_value target →
  n_value get_ = "get" →
  ∃ s',
    leave_Assign companion env [Name target] (Call m (Name pool_name) args) s
    = (Return tt, s')
    ∧ _diagnostics s' = _diagnostics s
    ∧ _node_mappings s' = _node_mappings s
    ∧ _node_list_mappings s' = _node_list_mappings s
    ∧ match_pool_get (_function_pool_vars s')
        (Call m1 (Attribute m2 (Name receiver) get_)
           [Arg keyword (SimpleString m3 literal)])
      = Some ((m3, literal), None).
Proof.
  intros Hpool Hreceiver Hget.
  unfold leave_Assign, _check_is_pool. rewrite Hpool.
  change ("Pool" =? "Pool")%string with true. cbv iota.
  eexists. split; [reflexivity |].
  cbn [_diagnostics _node_mappings _node_list_mappings _function_pool_vars
         set_function_pool_vars].
  repeat split. unfold match_pool_get. rewrite Hreceiver, Hget.
  rewrite bool_decide_eq_true_2 by set_solver. reflexivity.
Qed.

Lemma pool_variable_witness :
  ∃ s',
    leave_Assign Sample.companion Sample.assign_env
      [Name (Sample.name_ 50 5 8 12 "pool")]
      (Call (Sample.at_ 51 5 15 21) (Name (Sample.name_ 52 5 15 19 "Pool")) [])
      Sample.in_method
    = (Return tt, s')
    ∧ _diagnostics s' = _diagnostics Sample.in_method
    ∧ _node_mappings s' = _node_mappings Sample.in_method
    ∧ _node_list_mappings s' = _node_list_mappings Sample.in_method
    ∧ match_pool_get (_function_pool_vars s')
        (Call (Sample.at_ 60 6 8 24)
           (Attribute (Sample.at_ 61 6 8 16) (Name (Sample.name_ 62 6 8 12 "pool"))
              (Sample.name_ 63 6 13 16 "get"))
           [Arg None (SimpleString (Sample.at_ 64 6 17 23) "'book'")])
      = Some ((Sample.at_ 64 6 17 23, "'book'"), None).
Proof.
  apply (pool_variable_is_recognised Sample.companion Sample.assign_env
           (Sample.name_ 50 5 8 12 "pool") (Sample.name_ 52 5 15 19 "Pool")
           (Sample.name_ 62 6 8 12 "pool") (Sample.name_ 63 6 13 16 "get"));
    reflexivity.
Defined.

(** ** Subscripts and calls *)

(** A subscript with one element, an index or a slice alike, of a
    sequence of records of a model is bound to a single record of that
    model; a subscript with several elements is left unbound. *)
Theorem subscript_of_a_sequence (m : Meta) (value : expr)
    (element : subscript_element expr) (more : list (subscript_element expr))
    (s : PyState) (model : PoolModel) :
  _get_list_type value s = (Return (Some model), s) →
  leave_Subscript m value [element] s
  = (Return tt,
     set_node_mappings (<[(inr (nid m) : node_key) := model]> (_node_mappings s)) s)
  ∧ (more ≠ [] → leave_Subscript m value (element :: more) s = (Return tt, s)).
Proof.
  intros H. split.
  - unfold leave_Subscript. erewrite bind_returns by exact H. reflexivity.
  - intros Hmore. destruct more; [done | reflexivity].
Qed.

Lemma subscript_of_a_sequence_witness :
  leave_Subscript (Sample.at_ 50 5 8 15) (Name (Sample.name_ 51 5 8 10 "bs"))
    [Slice (Some (Atom (Sample.at_ 52 5 11 12))) (Some (Atom (Sample.at_ 53 5 13 14)))
       None] Fixture.with_sequence
  = (Return tt,
     set_node_mappings
       (<[(inr (nid (Sample.at_ 50 5 8 15)) : node_key) := Sample.book]>
          (_node_mappings Fixture.with_sequence)) Fixture.with_sequence)
  ∧ ([Index (Atom (Sample.at_ 54 5 13 14))] ≠ [] →
     leave_Subscript (Sample.at_ 50 5 8 15) (Name (Sample.name_ 51 5 8 10 "bs"))
       [Slice (Some (Atom (Sample.at_ 52 5 11 12)))
          (Some (Atom (Sample.at_ 53 5 13 14))) None;
        Index (Atom (Sample.at_ 54 5 13 14))] Fixture.with_sequence
     = (Return tt, Fixture.with_sequence)).
Proof.
  apply (subscript_of_a_sequence (Sample.at_ 50 5 8 15)
           (Name (Sample.name_ 51 5 8 10 "bs"))).
  vm_compute. reflexivity.
Defined.

(** Entering a call [v.f(...)] whose callee is unbound, [v] being a name
    bound to a model: when [f] is [search] or [browse] the call is bound
    to a sequence of records of the model of [v]; for any other [f] the
    call is left unbound.  No diagnostic is added. *)
Theorem call_of_search_or_browse (companion : Companion) (env : Env)
    (m m' : Meta) (v f : NameNode) (s : PyState) (model : PoolModel) :
  _get_type companion env (Attribute m' (Name v) f) s = (Return None, s) →
  _node_mappings s !! (inr (nid (n_meta v)) : node_key) = None →
  _node_mappings s !! (inl (n_value v) : node_key) = Some model →
  visit_Call companion env m (Attribute m' (Name v) f) s
  = (Return tt,
     if String.eqb (n_value f) "search" || String.eqb (n_value f) "browse"
     then set_node_list_mappings
            (<[(inr (nid m) : node_key) := model]> (_node_list_mappings s)) s
     else s).
Proof.
  intros Hcallee Hnode Hname.
  unfold visit_Call. erewrite bind_returns by exact Hcallee. cbv beta iota.
  erewrite bind_returns by reflexivity.
  unfold match_mapped_receiver. cbn [meta_of]. rewrite Hnode, Hname.
  rewrite bool_decide_eq_false_2 by (intros [? ?]; discriminate).
  rewrite bool_decide_eq_true_2 by eauto.
  destruct (String.eqb (n_value f) "search" || String.eqb (n_value f) "browse");
    [| reflexivity].
  erewrite bind_returns by (rewrite Hname; reflexivity). reflexivity.
Qed.

Lemma call_of_search_or_browse_witness :
  visit_Call Sample.companion Sample.assign_env (Sample.at_ 50 5 8 19)
    (Attribute (Sample.at_ 51 5 8 16) (Name (Sample.name_ 52 5 8 9 "b"))
       (Sample.name_ 53 5 10 16 "search")) Sample.in_method
  = (Return tt,
     if String.eqb "search" "search" || String.eqb "search" "browse"
     then set_node_list_mappings
            (<[(inr (nid (Sample.at_ 50 5 8 19)) : node_key) := Sample.book]>
               (_node_list_mappings Sample.in_method)) Sample.in_method
     else Sample.in_method).
Proof.
  apply (call_of_search_or_browse Sample.companion Sample.assign_env
           (Sample.at_ 50 5 8 19) (Sample.at_ 51 5 8 16)
           (Sample.name_ 52 5 8 9 "b") (Sample.name_ 53 5 10 16 "search")
           Sample.in_method Sample.book);
    vm_compute; reflexivity.
Defined.

(** A lookup [Pool().get("name", "kind")] whose kind is not one the pool
    supports is reported as [UnknownPoolKey], and is then still made,
    among the wizards: when the name is no wizard of the pool, an
    [UnknownModel] follows and the call stays unbound.  (No marker
    suppresses the two codes.) *)
Theorem lookup_with_unsupported_kind (companion : Companion) (env : Env)
    (node : expr) (s : PyState) (pool : Pool)
    (name_meta kind_meta : Meta) (model_name kind_literal : string) :
  PythonAnalyzer_get_pool companion env s = (Return (Some pool), s) →
  match_pool_get (_function_pool_vars s) node
  = Some ((name_meta, model_name), Some (kind_meta, kind_literal)) →
  Py.unquote kind_literal ∉ supported_keys →
  Py.unquote model_name ∉ wizards pool →
  ignored PythonAnalyzerC (_raw_lines env) "1005" (line (start (range kind_meta)))
  = Some false →
  ignored PythonAnalyzerC (_raw_lines env) "1006" (line (start (range name_meta)))
  = Some false →
  ∃ values,
    _handle_pool_get companion env node s
    = (Return None,
       set_diagnostics
         (_diagnostics s ++
          [{| d_class := UnknownPoolKey values; _position := range kind_meta |};
           {| d_class := UnknownModel (Py.unquote model_name);
              _position := range name_meta |}]) s).
Proof.
  intros Hpool Hmatch Hkind Hname H1005 H1006.
  exists (possible_values env).
  unfold _handle_pool_get. erewrite bind_returns by exact Hpool. cbv beta iota.
  erewrite bind_returns by reflexivity. rewrite Hmatch. cbv beta iota.
  rewrite bool_decide_eq_false_2 by exact Hkind.
  erewrite bind_returns.
  2:{ erewrite bind_returns; [reflexivity |].
      apply (add_diagnostic_kept companion). exact H1005. }
  erewrite bind_returns.
  2:{ unfold pool_get_of_kind.
      assert (String.eqb (Py.unquote kind_literal) MODEL = false) as ->.
      { apply String.eqb_neq. intros E. apply Hkind. rewrite E. set_solver. }
      rewrite bool_decide_eq_false_2 by exact Hname. reflexivity. }
  cbv beta iota. cbn [is_KeyError].
  erewrite bind_returns.
  2:{ apply (add_diagnostic_kept companion). exact H1006. }
  unfold ret. cbn [set_diagnostics _diagnostics]. rewrite <- app_assoc.
  reflexivity.
Qed.

Lemma lookup_with_unsupported_kind_witness :
  ∃ values,
    _handle_pool_get Sample.companion Sample.assign_env Fixture.report_lookup
      Sample.in_method
    = (Return None,
       set_diagnostics
         (_diagnostics Sample.in_method ++
          [{| d_class := UnknownPoolKey values;
              _position := range (Sample.at_ 56 5 27 35) |};
           {| d_class := UnknownModel (Py.unquote "'book'");
              _position := range (Sample.at_ 55 5 19 25) |}]) Sample.in_method).
Proof.
  apply (lookup_with_unsupported_kind Sample.companion Sample.assign_env
           Fixture.report_lookup Sample.in_method Sample.res_pool
           (Sample.at_ 55 5 19 25) (Sample.at_ 56 5 27 35) "'book'" "'report'").
  - vm_compute. reflexivity.
  - vm_compute. reflexivity.
  - apply (bool_decide_eq_false_1 _). vm_compute. reflexivity.
  - apply (bool_decide_eq_false_1 _). vm_compute. reflexivity.
  - vm_compute. reflexivity.
  - vm_compute. reflexivity.
Defined.

(** ** Identifiers of a data file *)

Section Repeats.
Variable companion : Companion.
Variable env : XmlEnv.
Variable X : string.

Lemma repeats_after_first events : ∀ s L,
  Forall (fun ev => in_file (x_raw_lines env) (sourceline ev.2)) events →
  well_nested (length (_tag_stack s)) events →
  repeats_reported (x_raw_lines env) X events →
  _fs_ids s !! X = Some L →
  ∃ s' new,
    for_each events (XMLAnalyzer.on_event companion env) s = (Return tt, s')
    ∧ _fs_ids s' !! X = Some L
    ∧ dups X s' = dups X s ++ new
    ∧ length new = length (List.filter (opens_record X) events)
    ∧ Forall (cites X L) new.
Proof.
  induction events as [|ev events IH]; intros s L Hin Hwn Hrep Hknown.
  - exists s, []. cbn. rewrite app_nil_r. auto.
  - inversion Hin as [|? ? Hin1 Hin2]; subst.
    inversion Hrep as [|? ? Hrep1 Hrep2]; subst.
    destruct (on_event_step companion env X ev s Hin1) as (s1 & E1 & D1 & _ & I1).
    { intros Hend Hnil. destruct ev as [a el]. cbn in Hend. subst a.
      rewrite Hnil in Hwn. exact Hwn. }
    assert (well_nested (length (_tag_stack s1)) events) as Hwn1.
    { rewrite D1. destruct ev as [[| |] el]; cbn in *; auto.
      destruct (length (_tag_stack s)); [contradiction | exact Hwn]. }
    cbn [for_each List.filter]. unfold bind. rewrite E1.
    destruct (opens_record X ev) eqn:Hopen.
    + destruct I1 as [I1 _]. destruct (I1 L Hknown) as [Hkept Hdup].
      destruct (Hdup (Hrep1 eq_refl)) as (p & _ & Hdups).
      destruct (IH s1 L Hin2 Hwn1 Hrep2 Hkept) as (s' & new & E & K & Dn & Ln & Cn).
      exists s', ({| d_class := RecordDuplicateId X (Py.str_of_Z L);
                     _position := p |} :: new).
      split; [exact E |]. split; [exact K |].
      split; [rewrite Dn, Hdups, <- app_assoc; reflexivity |].
      split; [cbn [length]; congruence |].
      constructor; [by exists p | exact Cn].
    + destruct I1 as [I1 I2].
      destruct (IH s1 L Hin2 Hwn1 Hrep2) as (s' & new & E & K & Dn & Ln & Cn);
        [congruence |].
      exists s', new. rewrite <- I2. auto.
Qed.

Lemma repeats_from_scratch events : ∀ s,
  Forall (fun ev => in_file (x_raw_lines env) (sourceline ev.2)) events →
  well_nested (length (_tag_stack s)) events →
  repeats_reported (x_raw_lines env) X events →
  _fs_ids s !! X = None →
  ∃ s' new,
    for_each events (XMLAnalyzer.on_event companion env) s = (Return tt, s')
    ∧ dups X s' = dups X s ++ new
    ∧ length new = pred (length (List.filter (opens_record X) events))
    ∧ ∀ first, head (List.filter (opens_record X) events) = Some first →
               _fs_ids s' !! X = Some (sourceline first.2)
               ∧ Forall (cites X (sourceline first.2)) new.
Proof.
  induction events as [|ev events IH]; intros s Hin Hwn Hrep Hfresh.
  - exists s, []. cbn. rewrite app_nil_r. repeat split; auto; discriminate.
  - inversion Hin as [|? ? Hin1 Hin2]; subst.
    inversion Hrep as [|? ? Hrep1 Hrep2]; subst.
    destruct (on_event_step companion env X ev s Hin1) as (s1 & E1 & D1 & _ & I1).
    { intros Hend Hnil. destruct ev as [a el]. cbn in Hend. subst a.
      rewrite Hnil in Hwn. exact Hwn. }
    assert (well_nested (length (_tag_stack s1)) events) as Hwn1.
    { rewrite D1. destruct ev as [[| |] el]; cbn in *; auto.
      destruct (length (_tag_stack s)); [contradiction | exact Hwn]. }
    cbn [for_each List.filter]. unfold bind. rewrite E1.
    destruct (opens_record X ev) eqn:Hopen.
    + destruct I1 as [_ I1]. destruct (I1 Hfresh) as [Hset Hdups].
      destruct (repeats_after_first events s1 (sourceline ev.2) Hin2 Hwn1 Hrep2 Hset)
        as (s' & new & E & K & Dn & Ln & Cn).
      exists s', new. split; [exact E |].
      split; [congruence |]. split; [exact Ln |].
      intros first [= <-]. auto.
    + destruct I1 as [I1 I2].
      destruct (IH s1 Hin2 Hwn1 Hrep2) as (s' & new & E & Dn & Ln & Cn);
        [congruence |].
      exists s', new. rewrite <- I2. auto.
Qed.
End Repeats.

(** In a pass over a data file, the first [<record>] that carries an
    identifier keeps it: every later [<record>] with the same identifier
    is reported once as [RecordDuplicateId], citing the line of the first
    one, so that [n] records with the identifier give [n - 1] reports.
    (Every element is on a line of the file, the events are well nested,
    and no marker suppresses the code on the records concerned.) *)
Theorem every_repeated_identifier_is_reported (companion : Companion)
    (env : XmlEnv) (X : string) (events : list (action * Element_)) :
  Forall (fun ev => in_file (x_raw_lines env) (sourceline ev.2)) events →
  well_nested 0 events →
  repeats_reported (x_raw_lines env) X events →
  ∃ ds,
    XMLAnalyzer.analyze companion env events = Return ds
    ∧ length (List.filter (is_dup X) ds)
      = pred (length (List.filter (opens_record X) events))
    ∧ ∀ first, head (List.filter (opens_record X) events) = Some first →
               Forall (cites X (sourceline first.2)) (List.filter (is_dup X) ds).
Proof.
  intros Hin Hwn Hrep.
  destruct (repeats_from_scratch companion env X events xml_initial_state
              Hin Hwn Hrep (lookup_empty _)) as (s & new & E & D & L & C).
  exists (x_diagnostics s
          ++ wrapper_mismatch (XMLAnalyzer.check_is_tryton_xml_file env)
               (_found_tryton_tag s)).
  split; [apply analyze_unfold; exact E |].
  assert (List.filter (is_dup X)
            (x_diagnostics s
             ++ wrapper_mismatch (XMLAnalyzer.check_is_tryton_xml_file env)
                  (_found_tryton_tag s)) = new) as ->.
  { rewrite List.filter_app. unfold dups in D. cbn in D. rewrite D.
    unfold wrapper_mismatch.
    destruct (XMLAnalyzer.check_is_tryton_xml_file env), (_found_tryton_tag s);
      cbn; apply app_nil_r. }
  split; [exact L |]. intros first Hfirst. apply (C first Hfirst).
Qed.

Lemma every_repeated_identifier_witness :
  ∃ ds,
    XMLAnalyzer.analyze Sample.companion Fixture.repeated_env
      Fixture.repeated_events = Return ds
    ∧ length (List.filter (is_dup "X") ds)
      = pred (length (List.filter (opens_record "X") Fixture.repeated_events))
    ∧ ∀ first,
        head (List.filter (opens_record "X") Fixture.repeated_events) = Some first →
        Forall (cites "X" (sourceline first.2)) (List.filter (is_dup "X") ds).
Proof.
  apply (every_repeated_identifier_is_reported Sample.companion
           Fixture.repeated_env "X" Fixture.repeated_events).
  - repeat (constructor; [unfold in_file; cbn; lia |]). constructor.
  - cbn. exact I.
  - unfold repeats_reported.
    repeat (constructor; [intros _; vm_compute; reflexivity |]). constructor.
Defined.

(** The repeats of the sample, from the entry point. *)
Example repeated_identifier_twice :
  XMLAnalyzer.analyze Sample.companion Fixture.repeated_env Fixture.repeated_events
  = Return
      [{| d_class := RecordDuplicateId "X" "3";
          _position := {| start := {| line := 5; column := 0 |};
                          end_ := {| line := 5; column := 99 |} |} |};
       {| d_class := RecordDuplicateId "X" "3";
          _position := {| start := {| line := 6; column := 0 |};
                          end_ := {| line := 6; column := 99 |} |} |}].
Proof. vm_compute. reflexivity. Qed.

(** ** Records and fields of a data file *)

Lemma report_kept (env : XmlEnv) (c : DiagnosticClass) (node : Element_) s :
  ignored XMLAnalyzerC (x_raw_lines env) (err_code c) (sourceline node) = Some false →
  XMLAnalyzer.report env c node s
  = (Return tt,
     set_x_diagnostics
       (x_diagnostics s ++
        [{| d_class := c;
            _position := XMLAnalyzer.get_node_position (_cur_prefix s) node |}]) s).
Proof.
  intros H.
  unfold XMLAnalyzer.report, XMLAnalyzer.init_from_analyzer,
    XMLAnalyzer.add_diagnostic, add_diagnostic_to, bind, get, ret.
  cbn [d_class _position start line XMLAnalyzer.get_node_position].
  rewrite H. reflexivity.
Qed.

(** A [<record>] at the expected depth, with a fresh identifier, whose
    model the pool of the data section does not know: exactly one
    [RecordUnknownModel] citing the model is added, at the record; the
    identifier is recorded with the line of the record and the current
    model is left as it was. *)
Theorem record_of_unknown_model (companion : Companion) (env : XmlEnv)
    (node : Element_) (s : XmlState) (pool : Pool) (model_name id : string) :
  length (_tag_stack s) = 3%nat →
  attrib node !! "model" = Some model_name →
  model_name ≠ "" →
  attrib node !! "id" = Some id →
  _fs_ids s !! id = None →
  _current_pool s = Some pool →
  model_name ∉ models pool →
  ignored XMLAnalyzerC (x_raw_lines env) "5004" (sourceline node) = Some false →
  ∃ s',
    XMLAnalyzer._analyze_record_start companion env node s = (Return tt, s')
    ∧ x_diagnostics s'
      = x_diagnostics s ++
        [{| d_class := RecordUnknownModel model_name;
            _position := XMLAnalyzer.get_node_position (_cur_prefix s) node |}]
    ∧ _fs_ids s' = <[id := sourceline node]> (_fs_ids s)
    ∧ _current_model s' = _current_model s.
Proof.
  intros Hdepth Hmodel Hne Hid Hfresh Hpool Hunknown Hign.
  unfold XMLAnalyzer._analyze_record_start.
  erewrite bind_returns by reflexivity.
  rewrite bool_decide_eq_false_2 by (intros H; apply H; exact Hdepth).
  erewrite bind_returns by reflexivity. rewrite Hmodel, Hid.
  erewrite bind_returns by reflexivity.
  erewrite bind_returns.
  2:{ erewrite bind_returns by reflexivity. rewrite Hfresh. reflexivity. }
  erewrite bind_returns by reflexivity.
  cbn [_current_pool set_fs_ids]. rewrite Hpool.
  assert (String.eqb model_name "" = false) as -> by (by apply String.eqb_neq).
  assert (Pool_get companion pool model_name MODEL = inl UnknownModelException)
    as ->.
  { unfold Pool_get. change (String.eqb MODEL MODEL) with true. cbv iota.
    rewrite bool_decide_eq_false_2 by exact Hunknown. reflexivity. }
  cbn [is_KeyError]. rewrite (report_kept env) by exact Hign.
  eexists. split; [reflexivity |]. repeat split.
Qed.

Lemma record_of_unknown_model_witness :
  ∃ s',
    XMLAnalyzer._analyze_record_start Sample.companion Fixture.unknown_env
      Fixture.publisher_record
      (Fixture.entered Fixture.in_data Fixture.publisher_record)
    = (Return tt, s')
    ∧ x_diagnostics s'
      = x_diagnostics (Fixture.entered Fixture.in_data Fixture.publisher_record) ++
        [{| d_class := RecordUnknownModel "publisher";
            _position :=
              XMLAnalyzer.get_node_position
                (_cur_prefix (Fixture.entered Fixture.in_data Fixture.publisher_record))
                Fixture.publisher_record |}]
    ∧ _fs_ids s'
      = <["p1" := sourceline Fixture.publisher_record]>
          (_fs_ids (Fixture.entered Fixture.in_data Fixture.publisher_record))
    ∧ _current_model s'
      = _current_model (Fixture.entered Fixture.in_data Fixture.publisher_record).
Proof.
  apply (record_of_unknown_model Sample.companion Fixture.unknown_env
           Fixture.publisher_record
           (Fixture.entered Fixture.in_data Fixture.publisher_record)
           (get_pool Sample.companion ["sample_module"]) "publisher" "p1").
  - reflexivity.
  - reflexivity.
  - discriminate.
  - reflexivity.
  - reflexivity.
  - reflexivity.
  - apply (bool_decide_eq_false_1 _). vm_compute. reflexivity.
  - vm_compute. reflexivity.
Defined.

(** A [<field>] at the expected depth that names a field: when the model
    of the enclosing record is known and has no such field, exactly one
    [RecordUnknownField] citing the model and the name is added, at the
    field; when no model is current (the record had none, or an unknown
    one), the field is not checked. *)
Theorem field_is_checked_against_current_model (companion : Companion)
    (env : XmlEnv) (node : Element_) (s : XmlState) (field : string) :
  length (_tag_stack s) = 4%nat →
  attrib node !! "name" = Some field →
  (∀ model,
     _current_model s = Some model →
     fields model !! field = None →
     ignored XMLAnalyzerC (x_raw_lines env) "5005" (sourceline node) = Some false →
     XMLAnalyzer._analyze_field_start companion env node s
     = (Return tt,
        set_x_diagnostics
          (x_diagnostics s ++
           [{| d_class := RecordUnknownField (name model) field;
               _position := XMLAnalyzer.get_node_position (_cur_prefix s) node |}])
          s))
  ∧ (_current_model s = None →
     XMLAnalyzer._analyze_field_start companion env node s = (Return tt, s)).
Proof.
  intros Hdepth Hname.
  split.
  - intros model Hmodel Hfield Hign.
    unfold XMLAnalyzer._analyze_field_start.
    erewrite bind_returns by reflexivity.
    rewrite bool_decide_eq_false_2 by (intros H; apply H; exact Hdepth).
    erewrite bind_returns by reflexivity. rewrite Hname.
    erewrite bind_returns by reflexivity.
    erewrite bind_returns by reflexivity.
    rewrite Hmodel, Hfield. apply report_kept. exact Hign.
  - intros Hnone.
    unfold XMLAnalyzer._analyze_field_start.
    erewrite bind_returns by reflexivity.
    rewrite bool_decide_eq_false_2 by (intros H; apply H; exact Hdepth).
    erewrite bind_returns by reflexivity. rewrite Hname.
    erewrite bind_returns by reflexivity.
    erewrite bind_returns by reflexivity.
    rewrite Hnone. reflexivity.
Qed.

Lemma field_is_checked_witness :
  ∃ model,
    _current_model Fixture.at_pages = Some model
    ∧ name model = "book"
    ∧ XMLAnalyzer._analyze_field_start Sample.companion Fixture.unknown_env
        (Fixture.field_at "pages" 7) Fixture.at_pages
      = (Return tt,
         set_x_diagnostics
           (x_diagnostics Fixture.at_pages ++
            [{| d_class := RecordUnknownField (name model) "pages";
                _position :=
                  XMLAnalyzer.get_node_position (_cur_prefix Fixture.at_pages)
                    (Fixture.field_at "pages" 7) |}])
           Fixture.at_pages).
Proof.
  eexists. split; [vm_compute; reflexivity |]. split; [reflexivity |].
  apply (proj1 (field_is_checked_against_current_model Sample.companion
                  Fixture.unknown_env (Fixture.field_at "pages" 7)
                  Fixture.at_pages "pages" eq_refl eq_refl));
    vm_compute; reflexivity.
Defined.

(** The sample file, from the entry point: the field of the record of
    an unknown model is not checked. *)
Example unknown_model_and_field :
  XMLAnalyzer.analyze Sample.companion Fixture.unknown_env
    [(start_event, Sample.el "tryton" [] 1); (start_event, Sample.el "data" [] 2);
     (start_event, Fixture.publisher_record);
     (start_event, Fixture.field_at "title" 4);
     (end_event, Fixture.field_at "title" 4);
     (end_event, Fixture.publisher_record);
     (start_event, Fixture.book_record);
     (start_event, Fixture.field_at "pages" 7);
     (end_event, Fixture.field_at "pages" 7);
     (end_event, Fixture.book_record);
     (end_event, Sample.el "data" [] 2); (end_event, Sample.el "tryton" [] 1)]
  = Return
      [{| d_class := RecordUnknownModel "publisher";
          _position := {| start := {| line := 3; column := 0 |};
                          end_ := {| line := 3; column := 99 |} |} |};
       {| d_class := RecordUnknownField "book" "pages";
          _position := {| start := {| line := 7; column := 0 |};
                          end_ := {| line := 7; column := 99 |} |} |}].
Proof. vm_compute. reflexivity. Qed.

(** ** Scopes *)

Lemma add_kept (env : Env) (d : Diagnostic) s :
  kept (_raw_lines env) d →
  add_diagnostic env (Some d) s
  = (Return tt, set_diagnostics (_diagnostics s ++ [d]) s).
Proof.
  intros H. unfold add_diagnostic, add_diagnostic_to. unfold kept in H.
  rewrite H. reflexivity.
Qed.

Lemma add_all_kept (env : Env) (ds : list Diagnostic) : ∀ s,
  Forall (kept (_raw_lines env)) ds →
  for_each ds (fun d => add_diagnostic env (Some d)) s
  = (Return tt, set_diagnostics (_diagnostics s ++ ds) s).
Proof.
  induction ds as [|d ds IH]; intros s H.
  - cbn [for_each]. rewrite app_nil_r. unfold ret. by destruct s.
  - inversion H as [|? ? Hd Hds]; subst. cbn [for_each].
    erewrite bind_returns by (apply add_kept; exact Hd).
    rewrite IH by exact Hds. cbn [_diagnostics set_diagnostics].
    rewrite <- app_assoc. reflexivity.
Qed.

(** A function that overlaps none of the requested ranges is not
    analyzed: walking it returns at once and only clears the names.  And
    whenever the walk of a function completes, no name, no pool variable
    and no current function is left behind for what follows. *)
Theorem function_scope_is_closed (companion : Companion) (env : Env)
    (node : FunctionDef) (s : PyState) :
  (_must_analyze env (fn_meta node) = false →
   ∃ s', walk_function companion env node s = (Return tt, s')
         ∧ _diagnostics s' = _diagnostics s
         ∧ _class_metadata s' = _class_metadata s
         ∧ no_names s')
  ∧ (∀ s', walk_function companion env node s = (Return tt, s') → no_names s').
Proof.
  split.
  - intros Hskip. unfold walk_function, visit_FunctionDef. rewrite Hskip.
    cbn [negb]. eexists. split; [reflexivity |]. repeat split.
  - intros s' H. unfold walk_function, bind in H.
    destruct (visit_FunctionDef companion env node s) as [[v|e] s1];
      [| discriminate].
    match type of H with
    | (let (_, _) := ?body s1 in _) = _ =>
        destruct (body s1) as [[[]|e] s2]; [| discriminate]
    end.
    injection H as <-. repeat split.
Qed.

Lemma function_scope_witness :
  (∃ s',
     walk_function Sample.companion Fixture.first_lines_only Fixture.small_method
       Sample.in_method = (Return tt, s')
     ∧ _diagnostics s' = _diagnostics Sample.in_method
     ∧ _class_metadata s' = _class_metadata Sample.in_method
     ∧ no_names s')
  ∧ no_names
      (walk_function Sample.companion Sample.assign_env Fixture.small_method
         Sample.in_method).2.
Proof.
  split.
  - apply (proj1 (function_scope_is_closed Sample.companion
                    Fixture.first_lines_only Fixture.small_method
                    Sample.in_method)).
    vm_compute. reflexivity.
  - apply (proj2 (function_scope_is_closed Sample.companion Sample.assign_env
                    Fixture.small_method Sample.in_method)).
    apply pair_from_fst. vm_compute. reflexivity.
Defined.

(** ** Classes *)

(** A class with several [__name__ = "..."] assignments: the first one
    names the model, and every further one is reported at its own
    position, as [DuplicateName] when it repeats the first literal and as
    [ConflictingName] otherwise.  (No marker suppresses these reports.) *)
Theorem further_names_are_reported (env : Env) (node : ClassDef)
    (first : Meta * string) (extras : list (Meta * string)) (s : PyState) :
  omap match_name_assign (class_statements node) = first :: extras →
  Forall (kept (_raw_lines env)) (map (name_finding first.2) extras) →
  class_model_name env node s
  = (Return (Some first),
     set_diagnostics
       (_diagnostics s ++ map (name_finding first.2) extras) s).
Proof.
  intros Hmatches Hkept. unfold class_model_name. rewrite Hmatches.
  destruct first as [m literal]. cbn [snd] in *.
  assert (∀ s0,
    for_each extras (fun '(extra_meta, extra_literal) =>
      if String.eqb literal extra_literal
      then add_diagnostic env (Some {| d_class := DuplicateName;
                                       _position := range extra_meta |})
      else add_diagnostic env (Some {| d_class := ConflictingName;
                                       _position := range extra_meta |})) s0
    = (Return tt,
       set_diagnostics (_diagnostics s0 ++ map (name_finding literal) extras) s0))
    as Hloop.
  { clear Hmatches. induction extras as [|[em el] extras IH]; intros s0.
    - cbn [for_each map]. rewrite app_nil_r. unfold ret. by destruct s0.
    - inversion Hkept as [|? ? Hd Hds]; subst. cbn [for_each map].
      unfold name_finding at 1. unfold name_finding in Hd. cbn [fst snd] in *.
      destruct (String.eqb literal el);
        (erewrite bind_returns by (apply add_kept; exact Hd));
        rewrite IH by exact Hds; cbn [_diagnostics set_diagnostics];
        rewrite <- app_assoc; reflexivity. }
  erewrite bind_returns by apply Hloop. reflexivity.
Qed.

Lemma further_names_witness :
  class_model_name Fixture.named_env Fixture.named_class initial_state
  = (Return (Some (Sample.at_ 112 2 15 21, "'book'")),
     set_diagnostics
       (_diagnostics initial_state ++
        map (name_finding "'book'")
          [(Sample.at_ 122 3 15 21, "'book'");
           (Sample.at_ 132 4 15 29, "'library.book'")]) initial_state).
Proof.
  apply (further_names_are_reported Fixture.named_env Fixture.named_class
           (Sample.at_ 112 2 15 21, "'book'")
           [(Sample.at_ 122 3 15 21, "'book'");
            (Sample.at_ 132 4 15 29, "'library.book'")] initial_state).
  - reflexivity.
  - repeat (constructor; [vm_compute; reflexivity |]). constructor.
Defined.

(** The class of the sample, from the entry point. *)
Example three_names_in_a_class :
  generate_diagnostics Sample.companion Fixture.named_env
    [TopClass Fixture.named_class]
  = Return [{| d_class := DuplicateName; _position := range (Sample.at_ 122 3 15 21) |};
            {| d_class := ConflictingName;
               _position := range (Sample.at_ 132 4 15 29) |}].
Proof. vm_compute. reflexivity. Qed.

(** A class that names a model and that the entry point of its module
    does not register: entering it adds exactly one
    [MissingRegisterInInit], on the name literal, and binds the class to
    no model, so that the decorators of its methods are not checked. *)
Theorem unregistered_class_is_reported (companion : Companion) (env : Env)
    (node : ClassDef) (first : Meta * string) (module : Module) (s : PyState) :
  _must_analyze env (cls_meta node) = true →
  omap match_name_assign (class_statements node) = [first] →
  _module env = Some module →
  get_module_list_for_import module (_filename env) (n_value (cls_name node))
  = None →
  kept (_raw_lines env)
    {| d_class := MissingRegisterInInit; _position := range first.1 |} →
  ∃ s',
    visit_ClassDef companion env node s = (Return true, s')
    ∧ _diagnostics s'
      = _diagnostics s ++
        [{| d_class := MissingRegisterInInit; _position := range first.1 |}]
    ∧ (∃ metadata, _class_metadata s' = Some metadata
                   ∧ _model metadata = None
                   ∧ _model_name metadata = Py.unquote first.2)
    ∧ ∀ f, _check_depends companion env f s' = (Return tt, s').
Proof.
  intros Hmust Hmatches Hmodule Hunregistered Hkept.
  destruct first as [m literal]. cbn [fst snd] in *.
  unfold visit_ClassDef. rewrite Hmust. cbn [negb].
  erewrite bind_returns.
  2:{ unfold class_model_name. rewrite Hmatches. cbn [for_each].
      erewrite bind_returns by reflexivity. reflexivity. }
  rewrite Hmodule, Hunregistered.
  erewrite bind_returns.
  2:{ erewrite bind_returns by reflexivity.
      unfold init_from_analyzer. apply add_kept. exact Hkept. }
  eexists. split; [reflexivity |].
  cbn [_diagnostics _class_metadata set_diagnostics set_class_metadata].
  split; [reflexivity |]. split; [eexists; repeat split |].
  intros f. reflexivity.
Qed.

Lemma unregistered_class_witness :
  ∃ s',
    visit_ClassDef Sample.companion Fixture.magazine_env Fixture.Magazine
      initial_state = (Return true, s')
    ∧ _diagnostics s'
      = _diagnostics initial_state ++
        [{| d_class := MissingRegisterInInit;
            _position := range (Sample.at_ 112 2 15 25, "'magazine'").1 |}]
    ∧ (∃ metadata, _class_metadata s' = Some metadata
                   ∧ _model metadata = None
                   ∧ _model_name metadata
                     = Py.unquote (Sample.at_ 112 2 15 25, "'magazine'").2)
    ∧ ∀ f, _check_depends Sample.companion Fixture.magazine_env f s'
           = (Return tt, s').
Proof.
  apply (unregistered_class_is_reported Sample.companion Fixture.magazine_env
           Fixture.Magazine (Sample.at_ 112 2 15 25, "'magazine'")
           Sample.sample_module initial_state);
    vm_compute; reflexivity.
Defined.

(** ** Attribute accesses *)

(** [leave_Attribute] looks the target of a relation field up in the
    pool without a guard: an access to a relation field whose target the
    pool of the class does not know raises [UnknownModelException] and
    stops the walk, instead of being reported. *)
Theorem relation_to_unknown_model_raises (companion : Companion) (env : Env)
    (m : Meta) (value : expr) (attr : NameNode) (s : PyState)
    (metadata : TrytonMetadata) (model : PoolModel) (field : FieldInfo)
    (relation : string) :
  _get_type companion env value s = (Return (Some model), s) →
  _class_metadata s = Some metadata →
  has_attribute model (n_value attr) = true →
  type model = "model" →
  fields model !! n_value attr = Some field →
  f_relation field = Some relation →
  relation ∉ models (_pool metadata) →
  leave_Attribute companion env m value attr s = (Raise UnknownModelException, s).
Proof.
  intros Hv Hmd Hattr Htype Hfield Hrel Hunknown.
  unfold leave_Attribute. erewrite bind_returns by exact Hv.
  cbv beta iota. rewrite Hattr.
  erewrite bind_returns by reflexivity.
  erewrite bind_returns by (apply get_pool_in_class; exact Hmd).
  cbv beta iota. rewrite Htype.
  change ("model" =? "model")%string with true. cbv iota.
  rewrite Hfield, Hrel. unfold pool_get_or_raise, Pool_get, bind.
  change (String.eqb MODEL MODEL) with true. cbv iota.
  rewrite bool_decide_eq_false_2 by exact Hunknown. reflexivity.
Qed.

Lemma relation_to_unknown_model_witness :
  leave_Attribute Fixture.narrow_companion Fixture.narrow_env
    (Sample.at_ 150 4 8 19) (Name (Sample.name_ 151 4 8 12 "self"))
    (Sample.name_ 152 4 13 19 "author") Fixture.in_narrow_method
  = (Raise UnknownModelException, Fixture.in_narrow_method).
Proof.
  apply (relation_to_unknown_model_raises Fixture.narrow_companion
           Fixture.narrow_env (Sample.at_ 150 4 8 19)
           (Name (Sample.name_ 151 4 8 12 "self"))
           (Sample.name_ 152 4 13 19 "author") Fixture.in_narrow_method
           Fixture.narrow_metadata Fixture.narrow_book
           {| f_string := "Author"; f_type := "many2one";
              f_relation := Some "author" |} "author").
  - vm_compute. reflexivity.
  - reflexivity.
  - vm_compute. reflexivity.
  - reflexivity.
  - vm_compute. reflexivity.
  - reflexivity.
  - apply (bool_decide_eq_false_1 _). vm_compute. reflexivity.
Defined.

(** The same access, from the entry point: the analysis of the file
    stops on the exception. *)
Example relation_to_unknown_model_stops_analysis :
  generate_diagnostics Fixture.narrow_companion Fixture.narrow_env
    [TopClass Fixture.narrow_class]
  = Raise UnknownModelException.
Proof. vm_compute. reflexivity. Qed.

(** ** Dependency lists *)

Lemma method_names_cons e elements :
  method_names (e :: elements)
  = match e with
    | Element (SimpleString _ literal) => Py.unquote literal :: method_names elements
    | _ => method_names elements
    end.
Proof. destruct e as [[]|]; reflexivity. Qed.

(** A [methods=[...]] keyword of [fields.depends]: every name of the list
    that is no member of the model of the class is reported as
    [UnknownAttribute], in the order of the list and at the position of
    the list; the names that are members are accepted, fields or not.
    (No marker suppresses the code on the line of the list.) *)
Theorem depends_methods_are_checked (companion : Companion) (env : Env)
    (pool : Pool) (model : PoolModel) (keyword : NameNode) (m : Meta)
    (elements : list (element expr)) (locals : depends_locals) (s : PyState) :
  n_value keyword = "methods" →
  ignored PythonAnalyzerC (_raw_lines env) "1007" (line (start (range m)))
  = Some false →
  check_depends_arg companion env pool model
    (Arg (Some keyword) (List_ m elements)) locals s
  = (Return locals,
     set_diagnostics
       (_diagnostics s ++
        map (fun method_name =>
               {| d_class := UnknownAttribute method_name (name model);
                  _position := range m |})
          (List.filter (fun method_name => negb (has_attribute model method_name))
             (method_names elements))) s).
Proof.
  intros Hkeyword Hign. unfold check_depends_arg. rewrite Hkeyword.
  change ("methods" =? "methods")%string with true. cbn [negb].
  assert (∀ s0,
    for_each elements (fun method =>
      match method with
      | Element (SimpleString _ literal) =>
          let method_name := Py.unquote literal in
          if has_attribute model method_name then ret tt
          else unknown_attribute env m model method_name
      | _ => ret tt
      end) s0
    = (Return tt,
       set_diagnostics
         (_diagnostics s0 ++
          map (fun method_name =>
                 {| d_class := UnknownAttribute method_name (name model);
                    _position := range m |})
            (List.filter (fun method_name => negb (has_attribute model method_name))
               (method_names elements))) s0)) as Hloop.
  { induction elements as [|e elements IH]; intros s0.
    - cbn. rewrite app_nil_r. by destruct s0.
    - cbn [for_each].
      assert (∀ s1, for_each elements (fun method =>
                match method with
                | Element (SimpleString _ literal) =>
                    let method_name := Py.unquote literal in
                    if has_attribute model method_name then ret tt
                    else unknown_attribute env m model method_name
                | _ => ret tt
                end) s1 = (Return tt,
                  set_diagnostics
                    (_diagnostics s1 ++
                     map (fun method_name =>
                            {| d_class := UnknownAttribute method_name (name model);
                               _position := range m |})
                       (List.filter
                          (fun method_name => negb (has_attribute model method_name))
                          (method_names elements))) s1)) as IH' by exact IH.
      rewrite method_names_cons.
      destruct e as [[]|];
        try (erewrite bind_returns by reflexivity; apply IH').
      cbv zeta.
      match goal with
      | |- context [has_attribute model (Py.unquote ?l)] =>
          destruct (has_attribute model (Py.unquote l)) eqn:Hmember
      end; cbn [List.filter negb]; rewrite Hmember; cbn [negb map].
      + erewrite bind_returns by reflexivity. apply IH'.
      + erewrite bind_returns
          by (apply (unknown_attribute_kept companion); exact Hign).
        rewrite IH'. cbn [_diagnostics set_diagnostics].
        rewrite <- app_assoc. reflexivity. }
  erewrite bind_returns by apply Hloop. reflexivity.
Qed.

Lemma depends_methods_witness :
  check_depends_arg Sample.companion Fixture.methods_env Sample.res_pool
    Sample.book
    (Arg (Some (Sample.name_ 34 3 20 27 "methods"))
       (List_ (Sample.at_ 35 3 28 74) Fixture.listed_methods))
    {| cur_model := None; field_name := None |}
    (Sample.in_class "BookOverride" Sample.book)
  = (Return {| cur_model := None; field_name := None |},
     set_diagnostics
       (_diagnostics (Sample.in_class "BookOverride" Sample.book) ++
        map (fun method_name =>
               {| d_class := UnknownAttribute method_name (name Sample.book);
                  _position := range (Sample.at_ 35 3 28 74) |})
          (List.filter
             (fun method_name => negb (has_attribute Sample.book method_name))
             (method_names Fixture.listed_methods)))
       (Sample.in_class "BookOverride" Sample.book)).
Proof.
  apply (depends_methods_are_checked Sample.companion Fixture.methods_env
           Sample.res_pool Sample.book (Sample.name_ 34 3 20 27 "methods")
           (Sample.at_ 35 3 28 74) Fixture.listed_methods).
  - reflexivity.
  - vm_compute. reflexivity.
Defined.

(** The names of the sample that are reported. *)
Example depends_methods_reported :
  List.filter (fun method_name => negb (has_attribute Sample.book method_name))
    (method_names Fixture.listed_methods)
  = ["on_change_title"; "compute"].
Proof. vm_compute. reflexivity. Qed.

(** ** Chain calls *)

(** In a function of a class that is bound to no model (or outside any
    class), [_check_super_call] reports on the chain calls alone: for
    every call [super(...).name(...)] of the function, in order, a
    [SuperInvocationWithParams] on the [super(...)] part when it has
    arguments, then a [SuperInvocationMismatchedName] citing the name of
    the function, on [name], when the two names differ.  (No marker
    suppresses these reports.) *)
Theorem chain_calls_are_reported (companion : Companion) (env : Env)
    (node : FunctionDef) (s : PyState) :
  _class_metadata s ≫= _model = None →
  Forall (kept (_raw_lines env))
    (concat (map (call_findings node) (extract_super_calls node))) →
  _check_super_call companion env node s
  = (Return tt,
     set_diagnostics
       (_diagnostics s
        ++ concat (map (call_findings node) (extract_super_calls node))) s).
Proof.
  intros Hunbound Hkept. unfold _check_super_call.
  generalize dependent (extract_super_calls node). intros calls Hkept.
  assert (∀ s0,
    for_each calls (fun cur_call =>
      (match super_invocation_args cur_call with
       | [] => ret tt
       | _ :: _ =>
           add_diagnostic env
             (init_from_analyzer SuperInvocationWithParams
                (super_invocation cur_call))
       end);;;
      if negb (String.eqb (n_value (super_name cur_call)) (n_value (fn_name node)))
      then add_diagnostic env
             (init_from_analyzer
                (SuperInvocationMismatchedName (n_value (fn_name node)))
                (n_meta (super_name cur_call)))
      else ret tt) s0
    = (Return tt,
       set_diagnostics
         (_diagnostics s0 ++ concat (map (call_findings node) calls)) s0))
    as Hloop.
  { induction calls as [|c calls IH]; intros s0.
    - cbn. rewrite app_nil_r. by destruct s0.
    - cbn [map concat] in Hkept. apply Forall_app in Hkept as [Hc Hrest].
      cbn [for_each map concat].
      erewrite bind_returns.
      2:{ unfold call_findings in Hc. apply Forall_app in Hc as [Hc1 Hc2].
          instantiate (1 := set_diagnostics
                               (_diagnostics s0 ++ call_findings node c) s0).
          instantiate (1 := tt).
          unfold call_findings, init_from_analyzer.
          destruct (super_invocation_args c) as [|a args].
          - erewrite bind_returns by reflexivity. cbn [app].
            destruct (String.eqb (n_value (super_name c)) (n_value (fn_name node)));
              cbn [negb].
            + rewrite app_nil_r. unfold ret. by destruct s0.
            + inversion Hc2; subst. by apply add_kept.
          - inversion Hc1; subst.
            erewrite bind_returns by (by apply add_kept).
            destruct (String.eqb (n_value (super_name c)) (n_value (fn_name node)));
              cbn [negb app].
            + reflexivity.
            + inversion Hc2; subst. rewrite add_kept by assumption.
              cbn [_diagnostics set_diagnostics]. rewrite <- app_assoc.
              reflexivity. }
      rewrite IH by exact Hrest. cbn [_diagnostics set_diagnostics].
      rewrite <- app_assoc. reflexivity. }
  erewrite bind_returns by apply Hloop.
  erewrite bind_returns by reflexivity.
  cbn [_class_metadata set_diagnostics].
  destruct (_class_metadata s) as [metadata|]; [| reflexivity].
  cbn [mbind option_bind] in Hunbound. rewrite Hunbound. reflexivity.
Qed.

Lemma chain_calls_witness :
  _check_super_call Sample.companion Sample.override_env
    (Sample.method_ "create" [Expr (Sample.super_call "orphan")]) initial_state
  = (Return tt,
     set_diagnostics
       (_diagnostics initial_state
        ++ [{| d_class := SuperInvocationMismatchedName "create";
               _position := range (Sample.at_ 66 4 16 22) |}]) initial_state).
Proof.
  apply (chain_calls_are_reported Sample.companion Sample.override_env
           (Sample.method_ "create" [Expr (Sample.super_call "orphan")])
           initial_state).
  - reflexivity.
  - constructor; [vm_compute; reflexivity | constructor].
Defined.
